(** * PlotBuddy: a shallow embedding of [slideagent_mcp/utils/plot_buddy.py]

    The helper class [PlotBuddy] decorates matplotlib figures: it resolves a
    theme directory, loads a style file, places logos, citations and legends,
    and exports a branded and a clean variant of the current figure.

    The embedding keeps the shape of the Python code:
    - Python strings are [string], holding the UTF-8 bytes of the text;
      f-strings are concatenations;
    - Python floats are the kernel's binary64 [float];
    - Python dicts are insertion-ordered association lists ([Dict.set] keeps
      the slot of a key that is already present);
    - the file system, [__file__], matplotlib's style parser, image reader,
      tick locator and [savefig] are oracles collected in [Env];
    - matplotlib objects live in a store and are referred to by reference, so
      that a dict keyed by an artist is keyed by identity;
    - methods are computations in a small state-and-exception monad over the
      process state [World] (stdout, applied styles, artists, current figure,
      exported files). *)

From Stdlib Require Import ZArith Lia Ascii String List Bool.
From Stdlib Require Import PrimFloat Uint63.
From stdpp Require Import base tactics option list strings.

Set Warnings "-inexact-float".

Local Open Scope string_scope.
Local Open Scope list_scope.

(** ** Python string operations *)

Module PyStr.

(** [p] is a prefix of [s]. *)
Fixpoint is_prefix (p s : string) : bool :=
  match p, s with
  | EmptyString, _ => true
  | String a p', String b s' => Ascii.eqb a b && is_prefix p' s'
  | String _ _, EmptyString => false
  end.

(** [s.startswith(p)] *)
Definition startswith (s p : string) : bool := is_prefix p s.

(** [s[n:]] *)
Fixpoint drop (n : nat) (s : string) : string :=
  match n, s with
  | O, _ => s
  | S _, EmptyString => EmptyString
  | S k, String _ s' => drop k s'
  end.

(** [s[:n]] *)
Fixpoint take (n : nat) (s : string) : string :=
  match n, s with
  | O, _ => EmptyString
  | S _, EmptyString => EmptyString
  | S k, String c s' => String c (take k s')
  end.

(** [len(s)]: the number of characters.  In the UTF-8 bytes of a text
    every byte starts a character but the continuation bytes
    [10xxxxxx]. *)
Definition is_continuation (c : ascii) : bool :=
  let n := nat_of_ascii c in (128 <=? n)%nat && (n <? 192)%nat.

Fixpoint len (s : string) : nat :=
  match s with
  | EmptyString => O
  | String c s' => ((if is_continuation c then 0 else 1) + len s')%nat
  end.

(** [s.endswith(p)] *)
Definition endswith (s p : string) : bool :=
  (String.length p <=? String.length s)%nat
  && String.eqb (drop (String.length s - String.length p) s) p.

(** [p in s] for strings: [p] occurs in [s] at some offset. *)
Fixpoint contains (p s : string) : bool :=
  is_prefix p s
  || match s with
     | EmptyString => false
     | String _ s' => contains p s'
     end.

(** ASCII part of [str.lower]: ['A'..'Z'] are mapped to ['a'..'z'], every
    other byte is kept.  (No character outside ASCII lower-cases to one of
    the letters of ["source:"], the only text searched for in lower case.) *)
Definition lower_ascii (c : ascii) : ascii :=
  let n := nat_of_ascii c in
  if (65 <=? n)%nat && (n <=? 90)%nat then ascii_of_nat (n + 32) else c.

Fixpoint lower (s : string) : string :=
  match s with
  | EmptyString => EmptyString
  | String c s' => String (lower_ascii c) (lower s')
  end.

(** [s.replace(old, new)] for a non-empty [old]: occurrences are replaced
    left to right and do not overlap.  [skip] counts the characters of a
    matched occurrence that are still to be passed over. *)
Fixpoint replace_from (old new : string) (skip : nat) (s : string) : string :=
  match s with
  | EmptyString => EmptyString
  | String c s' =>
      match skip with
      | S k => replace_from old new k s'
      | O =>
          if is_prefix old s
          then new +:+ replace_from old new (String.length old - 1) s'
          else String c (replace_from old new 0 s')
      end
  end.

Definition replace (old new s : string) : string := replace_from old new 0 s.

(** [s.rfind(c)] for a one-character [c]: the offset of the last occurrence,
    [None] standing for Python's [-1]. *)
Fixpoint rfind (c : ascii) (s : string) : option nat :=
  match s with
  | EmptyString => None
  | String d s' =>
      match rfind c s' with
      | Some i => Some (S i)
      | None => if Ascii.eqb d c then Some O else None
      end
  end.

(** [s.split(c)] for a one-character separator. *)
Fixpoint split (c : ascii) (s : string) : list string :=
  match s with
  | EmptyString => [EmptyString]
  | String d s' =>
      if Ascii.eqb d c then EmptyString :: split c s'
      else match split c s' with
           | [] => [String d EmptyString]
           | w :: ws => String d w :: ws
           end
  end.

(** [sep.join(ws)] *)
Fixpoint join (sep : string) (ws : list string) : string :=
  match ws with
  | [] => EmptyString
  | [w] => w
  | w :: ws' => w +:+ sep +:+ join sep ws'
  end.

(** [bool(s)]: a string is truthy when it is not empty. *)
Definition truthy (s : string) : bool :=
  match s with EmptyString => false | _ => true end.

(** [repr] of a string without quotes or backslashes, and of a list of
    such strings. *)
Definition repr (s : string) : string := "'" +:+ s +:+ "'".
Definition repr_list (ws : list string) : string :=
  "[" +:+ join ", " (map repr ws) +:+ "]".

(** [str(x)] of an optional string: [None] prints as ["None"]. *)
Definition str_opt (o : option string) : string :=
  match o with Some s => s | None => "None" end.

End PyStr.

(** ** [os.path] (posixpath) *)

Module OsPath.

Definition sep : ascii := "/"%char.
Definition extsep : ascii := "."%char.

(** [os.path.join(a, b)] *)
Definition join (a b : string) : string :=
  if PyStr.startswith b "/" then b
  else if negb (PyStr.truthy a) || PyStr.endswith a "/" then a +:+ b
  else a +:+ "/" +:+ b.

(** [os.path.basename(p)]: what follows the last slash. *)
Definition basename (p : string) : string :=
  match PyStr.rfind sep p with
  | Some i => PyStr.drop (S i) p
  | None => p
  end.

(** The loop of [genericpath._splitext] that skips the leading dots of the
    file name: true when some character in [fname ..< dot] is not a dot. *)
Fixpoint has_non_dot (fuel : nat) (s : string) : bool :=
  match fuel, s with
  | S k, String c s' => negb (Ascii.eqb c extsep) || has_non_dot k s'
  | _, _ => false
  end.

(** [os.path.splitext(p)] *)
Definition splitext (p : string) : string * string :=
  let fname := match PyStr.rfind sep p with Some i => S i | None => O end in
  match PyStr.rfind extsep p with
  | Some dot =>
      if (fname <=? dot)%nat && has_non_dot (dot - fname) (PyStr.drop fname p)
      then (PyStr.take dot p, PyStr.drop dot p)
      else (p, EmptyString)
  | None => (p, EmptyString)
  end.

End OsPath.

(** ** [pathlib] (pure POSIX paths) *)

Module PathLib.

(** A parsed path: the root (empty, one slash or two slashes) and the
    components, with empty and ["."] components dropped. *)
Record Path := mkPath { root : string; parts : list string }.

Fixpoint leading_slashes (s : string) : nat :=
  match s with
  | String c s' => if Ascii.eqb c OsPath.sep then S (leading_slashes s') else O
  | EmptyString => O
  end.

Definition parse_root (s : string) : string :=
  match leading_slashes s with
  | O => ""
  | 2 => "//"
  | _ => "/"
  end.

Definition keep_part (w : string) : bool :=
  PyStr.truthy w && negb (String.eqb w ".").

(** [Path(s)] *)
Definition of_string (s : string) : Path :=
  mkPath (parse_root s) (filter (fun w => keep_part w = true) (PyStr.split OsPath.sep s)).

(** [str(p)] *)
Definition to_string (p : Path) : string :=
  match root p, parts p with
  | EmptyString, [] => "."
  | r, ws => r +:+ PyStr.join "/" ws
  end.

(** [p.parent] *)
Definition parent (p : Path) : Path :=
  mkPath (root p) (removelast (parts p)).

(** [p / s] *)
Definition div (p : Path) (s : string) : Path :=
  if PyStr.startswith s "/" then of_string s
  else mkPath (root p) (parts p ++ parts (of_string s)).

(** [p.name]: the last component. *)
Definition name (p : Path) : string := List.last (parts p) "".

(** [p.stem]: the name without its last suffix.  A dot at the start or at
    the end of the name does not start a suffix. *)
Definition stem_of_name (n : string) : string :=
  match PyStr.rfind OsPath.extsep n with
  | Some i =>
      if (0 <? i)%nat && (i <? String.length n - 1)%nat
      then PyStr.take i n else n
  | None => n
  end.

Definition stem (p : Path) : string := stem_of_name (name p).

End PathLib.

Infix "//" := PathLib.div (at level 40, left associativity).

(** ** Python values, dicts and exceptions *)

(** The values that occur as keyword arguments of [savefig] and [legend]. *)
Inductive pyval :=
| VInt (z : Z)
| VFloat (f : float)
| VStr (s : string)
| VBool (b : bool)
| VPair (a b : float).

Module Dict.
Section Dict.
Context {K V : Type} `{EqDecision K}.

(** An insertion-ordered dict. *)
Definition t := list (K * V).

(** [d[k] = v]: a key that is present keeps its slot. *)
Fixpoint set (k : K) (v : V) (d : t) : t :=
  match d with
  | [] => [(k, v)]
  | (k', v') :: d' =>
      if decide (k' = k) then (k, v) :: d' else (k', v') :: set k v d'
  end.

(** [d.get(k)] *)
Fixpoint get (k : K) (d : t) : option V :=
  match d with
  | [] => None
  | (k', v') :: d' => if decide (k' = k) then Some v' else get k d'
  end.

(** [k in d] *)
Definition mem (k : K) (d : t) : bool := bool_decide (is_Some (get k d)).

(** [list(d.keys())] *)
Definition keys (d : t) : list K := map fst d.

(** The dict display [{**a, **b}]. *)
Definition merge (a b : t) : t :=
  fold_left (fun acc kv => set (fst kv) (snd kv) acc) b a.
End Dict.
Arguments t : clear implicits.
End Dict.

(** The exception classes the code raises or meets.  [except Exception]
    catches every class but those that derive from [BaseException] only. *)
Inductive exn_class :=
| FileNotFoundError
| ValueError
| OSError
| Exception
| KeyboardInterrupt
| SystemExit.

Definition is_Exception (c : exn_class) : bool :=
  match c with
  | KeyboardInterrupt | SystemExit => false
  | _ => true
  end.

Record exn := mkExn { exn_cls : exn_class; exn_msg : string }.

(** ** The state-and-exception monad *)

Inductive result (A : Type) :=
| Ok (a : A)
| Raise (e : exn).
Arguments Ok {A} a.
Arguments Raise {A} e.

(** A computation over the state [S]: it ends with a value or an exception,
    and the state it has reached either way. *)
Definition M (S A : Type) : Type := S -> result A * S.

Definition ret {S A} (a : A) : M S A := fun s => (Ok a, s).

Definition bind {S A B} (m : M S A) (k : A -> M S B) : M S B :=
  fun s =>
    match m s with
    | (Ok a, s') => k a s'
    | (Raise e, s') => (Raise e, s')
    end.

Definition raise {S A} (c : exn_class) (msg : string) : M S A :=
  fun s => (Raise (mkExn c msg), s).

Definition reraise {S A} (e : exn) : M S A := fun s => (Raise e, s).

Definition get {S} : M S S := fun s => (Ok s, s).
Definition modify {S} (f : S -> S) : M S unit := fun s => (Ok tt, f s).

(** [try: m  except Exception as e: h e] *)
Definition try_except {S A} (m : M S A) (h : exn -> M S A) : M S A :=
  fun s =>
    match m s with
    | (Raise e, s') => if is_Exception (exn_cls e) then h e s' else (Raise e, s')
    | r => r
    end.

(** [for x in xs: body x] *)
Fixpoint for_each {S X} (xs : list X) (body : X -> M S unit) : M S unit :=
  match xs with
  | [] => ret tt
  | x :: xs' => bind (body x) (fun _ => for_each xs' body)
  end.

(** [for x in xs: acc = body acc x], for a loop that also updates a local. *)
Fixpoint for_fold {S X A} (xs : list X) (acc : A) (body : A -> X -> M S A)
  : M S A :=
  match xs with
  | [] => ret acc
  | x :: xs' => bind (body acc x) (fun acc' => for_fold xs' acc' body)
  end.

Declare Scope py_scope.
Delimit Scope py_scope with py.
Notation "'let*' x := m 'in' k" := (bind m (fun x => k))
  (at level 10, x name, m at level 100, k at level 200, only parsing)
  : py_scope.
Notation "m ;; k" := (bind m (fun _ => k))
  (at level 100, k at level 200, only parsing, right associativity) : py_scope.
Local Open Scope py_scope.

(** ** matplotlib objects *)

(** A reference to an object in the store. *)
Abbreviation ref := nat (only parsing).

(** The array [imread] returns, by its shape. *)
Record Image := mkImage { img_rows : Z; img_cols : Z }.

(** A legend handle. *)
Inductive Handle :=
| Line2D (color : string)
| Rectangle (x y w h : Z) (facecolor edgecolor : string) (alpha : float)
| OtherArtist (kind : string).

Record Legend := mkLegend {
  lg_handles : list Handle;
  lg_labels : list string;
  lg_kwargs : Dict.t string pyval
}.

Record Axes := mkAxes {
  ax_rect : option (float * float * float * float);
  ax_xticks : list float;
  ax_yticks : list float;
  ax_xlabel : string;
  ax_ylabel : string;
  ax_title : string;
  ax_visible : bool;
  ax_axison : bool;
  ax_images : list Image;
  ax_plots : list (Handle * string);
  ax_legend : option Legend
}.

Record Text := mkText {
  tx_x : float;
  tx_y : float;
  tx_text : string;
  tx_fontsize : Z;
  tx_color : string;
  tx_ha : string;
  tx_va : string;
  tx_visible : bool
}.

(** A figure holds references to its axes and to its figure-level texts. *)
Record Figure := mkFigure {
  fig_axes : list ref;
  fig_texts : list ref
}.

(** A call of [savefig] that returned: the path and the keyword arguments
    it was given, and the axes and texts of the figure as they were when
    it was exported.  The path is the name of the file written when it
    has an extension; to a path without one matplotlib appends the
    default format. *)
Record Export := mkExport {
  ex_path : string;
  ex_kwargs : Dict.t string pyval;
  ex_axes : list Axes;
  ex_texts : list Text
}.

(** The process state. *)
Record World := mkWorld {
  stdout : list string;
  styles_in_use : list string;
  axes_store : list Axes;
  text_store : list Text;
  fig_store : list Figure;
  current_fig : option ref;
  exports : list Export
}.

(** What the program reads from its surroundings. *)
Record Env := mkEnv {
  (** [os.path.exists] and [Path.exists], where the system answers the
      probe.  ([Path.exists] passes on the [OSError] of a probe the
      system refuses for another reason than a missing file, such as a
      directory that may not be searched or a name that is too long;
      the embedding does not cover such surroundings.) *)
  path_exists : string -> bool;
  (** [os.getcwd()] *)
  getcwd : string;
  (** [__file__] of the module *)
  module_file : string;
  (** the names in a directory, in the order [glob] scans them *)
  scandir : string -> list string;
  (** [str(Path(p).resolve())] *)
  resolve : string -> string;
  (** [plt.style.use(path)]: the exception it raises, if any *)
  style_use : string -> option exn;
  (** [mpimg.imread(path)] *)
  imread : string -> result Image;
  (** the tick locations matplotlib reports for an axes showing an image *)
  image_ticks : Image -> list float * list float;
  (** [fig.savefig(path, ...)]: the exception it raises, if any, for
      keyword arguments that [savefig] takes *)
  savefig_error : string -> option exn
}.

(** *** Updates of the process state *)

Definition set_stdout (f : list string -> list string) (w : World) : World :=
  mkWorld (f (stdout w)) (styles_in_use w) (axes_store w) (text_store w)
          (fig_store w) (current_fig w) (exports w).
Definition set_styles (f : list string -> list string) (w : World) : World :=
  mkWorld (stdout w) (f (styles_in_use w)) (axes_store w) (text_store w)
          (fig_store w) (current_fig w) (exports w).
Definition set_axes_store (f : list Axes -> list Axes) (w : World) : World :=
  mkWorld (stdout w) (styles_in_use w) (f (axes_store w)) (text_store w)
          (fig_store w) (current_fig w) (exports w).
Definition set_text_store (f : list Text -> list Text) (w : World) : World :=
  mkWorld (stdout w) (styles_in_use w) (axes_store w) (f (text_store w))
          (fig_store w) (current_fig w) (exports w).
Definition set_fig_store (f : list Figure -> list Figure) (w : World) : World :=
  mkWorld (stdout w) (styles_in_use w) (axes_store w) (text_store w)
          (f (fig_store w)) (current_fig w) (exports w).
Definition set_current_fig (r : option ref) (w : World) : World :=
  mkWorld (stdout w) (styles_in_use w) (axes_store w) (text_store w)
          (fig_store w) r (exports w).
Definition set_exports (f : list Export -> list Export) (w : World) : World :=
  mkWorld (stdout w) (styles_in_use w) (axes_store w) (text_store w)
          (fig_store w) (current_fig w) (f (exports w)).

(** [print(s)] *)
Definition print (s : string) : M World unit :=
  modify (set_stdout (fun out => out ++ [s])).

(** *** Artists *)

Definition axes_with_visible (b : bool) (a : Axes) : Axes :=
  mkAxes (ax_rect a) (ax_xticks a) (ax_yticks a) (ax_xlabel a) (ax_ylabel a)
         (ax_title a) b (ax_axison a) (ax_images a) (ax_plots a) (ax_legend a).

Definition text_with_visible (b : bool) (t : Text) : Text :=
  mkText (tx_x t) (tx_y t) (tx_text t) (tx_fontsize t) (tx_color t)
         (tx_ha t) (tx_va t) b.

(** The key of a dict keyed by artists: the artist's identity. *)
Inductive Element :=
| AxesElem (r : ref)
| TextElem (r : ref).

Global Instance Element_eq_dec : EqDecision Element.
Proof. solve_decision. Defined.

(** The state after [element.set_visible(b)]. *)
Definition make_visible (el : Element) (b : bool) (w : World) : World :=
  match el with
  | AxesElem r => set_axes_store (alter (axes_with_visible b) r) w
  | TextElem r => set_text_store (alter (text_with_visible b) r) w
  end.

(** [element.set_visible(b)] *)
Definition set_visible (el : Element) (b : bool) : M World unit :=
  modify (make_visible el b).

(** [element.get_visible()], for the artist a key stands for. *)
Definition visible_of (w : World) (el : Element) : option bool :=
  match el with
  | AxesElem r => ax_visible <$> axes_store w !! r
  | TextElem r => tx_visible <$> text_store w !! r
  end.

(** Reading the object behind a reference. *)
Definition read_axes (r : ref) : M World (option Axes) :=
  fun w => (Ok (axes_store w !! r), w).
Definition read_text (r : ref) : M World (option Text) :=
  fun w => (Ok (text_store w !! r), w).
Definition read_figure (r : ref) : M World Figure :=
  fun w => (Ok (default (mkFigure [] []) (fig_store w !! r)), w).

(** The ticks matplotlib reports for an axes that shows nothing yet
    (view limits 0 to 1). *)
Definition default_ticks : list float :=
  [0; 0.2; 0.4; 0.6000000000000001; 0.8; 1]%float.

(** [fig.add_axes(rect)]: a new axes, appended to the figure's axes. *)
Definition fig_add_axes (fig : ref) (rect : float * float * float * float)
  : M World ref :=
  fun w =>
    let r := length (axes_store w) in
    let a := mkAxes (Some rect) default_ticks default_ticks "" "" "" true true
                    [] [] None in
    let add f := mkFigure (fig_axes f ++ [r]) (fig_texts f) in
    (Ok r, set_fig_store (alter add fig) (set_axes_store (fun s => s ++ [a]) w)).

(** [fig.text(x, y, s, ...)]: a new text, appended to the figure's texts. *)
Definition fig_text (fig : ref) (x y : float) (s : string) (fontsize : Z)
    (color ha va : string) : M World ref :=
  fun w =>
    let r := length (text_store w) in
    let t := mkText x y s fontsize color ha va true in
    let add f := mkFigure (fig_axes f) (fig_texts f ++ [r]) in
    (Ok r, set_fig_store (alter add fig) (set_text_store (fun s => s ++ [t]) w)).

(** [plt.gcf()]: the current figure; a new one is made when there is none. *)
Definition plt_gcf : M World ref :=
  fun w =>
    match current_fig w with
    | Some r => (Ok r, w)
    | None =>
        let r := length (fig_store w) in
        (Ok r, set_current_fig (Some r)
                 (set_fig_store (fun s => s ++ [mkFigure [] []]) w))
    end.

(** What an export shows of a figure: the objects its references point to. *)
Definition shown_axes (w : World) (f : Figure) : list Axes :=
  omap (fun r => axes_store w !! r) (fig_axes f).
Definition shown_texts (w : World) (f : Figure) : list Text :=
  omap (fun r => text_store w !! r) (fig_texts f).

Section Program.

Variable E : Env.

(** [ax.imshow(img)]: the image is added, and the view, with it the tick
    locations, follows the image. *)
Definition axes_imshow (ax : ref) (img : Image) : M World unit :=
  let show a :=
    mkAxes (ax_rect a) (fst (image_ticks E img)) (snd (image_ticks E img))
           (ax_xlabel a) (ax_ylabel a) (ax_title a) (ax_visible a)
           (ax_axison a) (ax_images a ++ [img]) (ax_plots a) (ax_legend a) in
  modify (set_axes_store (alter show ax)).

(** [ax.axis('off')]: the axis is no longer drawn; the tick locations,
    the labels and the title stay as they are. *)
Definition axes_axis_off (ax : ref) : M World unit :=
  let off a :=
    mkAxes (ax_rect a) (ax_xticks a) (ax_yticks a) (ax_xlabel a) (ax_ylabel a)
           (ax_title a) (ax_visible a) false (ax_images a) (ax_plots a)
           (ax_legend a) in
  modify (set_axes_store (alter off ax)).

(** [plt.style.use(path)]: raises what the style parser raises, and
    otherwise applies the style to the process. *)
Definition plt_style_use (path : string) : M World unit :=
  match style_use E path with
  | Some e => reraise e
  | None => modify (set_styles (fun l => l ++ [path]))
  end.

(** [mpimg.imread(path)] *)
Definition mpimg_imread (path : string) : M World Image :=
  match imread E path with
  | Ok img => ret img
  | Raise e => reraise e
  end.

(** [fig.savefig(path, **kwargs)]: the call is recorded with what the
    figure shows at that moment.  Drawing is taken to leave the artists
    as they are: matplotlib may settle tick locations while it draws; it
    does not change which artists are visible. *)
Definition fig_savefig (fig : ref) (path : string)
    (kwargs : Dict.t string pyval) : M World unit :=
  match savefig_error E path with
  | Some e => reraise e
  | None =>
      let* f := read_figure fig in
      modify (fun w =>
        set_exports (fun l =>
          l ++ [mkExport path kwargs (shown_axes w f) (shown_texts w f)]) w)
  end.

(** [Path.exists()], for a probe the system answers. *)
Definition Path_exists (p : PathLib.Path) : bool :=
  path_exists E (PathLib.to_string p).

(** [p.glob("*" + suffix)]: the entries of the directory whose name ends
    with [suffix], in scan order. *)
Definition Path_glob_star (p : PathLib.Path) (suffix : string)
  : list PathLib.Path :=
  map (fun n => p // n)
      (filter (fun n => PyStr.endswith n suffix = true)
              (scandir E (PathLib.to_string p))).

(** ** The class [PlotBuddy] *)

Record PlotBuddy := mkPlotBuddy {
  style_dir_path : string;
  current_style : option string;
  icon_logo_path : option string;
  text_logo_path : option string;
  tight_layout_rect : list float;
  wide_figure : Z * Z;
  boxy_figure : Z * Z;
  title_font_size : Z;
  subtitle_font_size : Z;
  standard_font_size : Z;
  title_y_position : float;
  subtitle_y_position : float
}.

Definition DEFAULT_TIGHT_LAYOUT_RECT : list float := [0; 0.08; 1; 1]%float.
Definition DEFAULT_WIDE_FIGURE : Z * Z := (16, 10)%Z.
Definition DEFAULT_BOXY_FIGURE : Z * Z := (12, 9)%Z.
Definition DEFAULT_TITLE_FONT_SIZE : Z := 20.
Definition DEFAULT_SUBTITLE_FONT_SIZE : Z := 14.
Definition DEFAULT_STANDARD_FONT_SIZE : Z := 14.
Definition DEFAULT_TITLE_Y_POSITION : float := 1.12%float.
Definition DEFAULT_SUBTITLE_Y_POSITION : float := 1.06%float.

(** [x or y] for an optional string [x]: [None] and [""] are falsy. *)
Definition or_else (x : option string) (y : string) : string :=
  match x with
  | Some s => if PyStr.truthy s then s else y
  | None => y
  end.

(** [PlotBuddy.__init__]: the constructor. *)
Definition __init__ (style_dir_path : option string) : PlotBuddy :=
  let style_dir_path := or_else style_dir_path (getcwd E) in
  let theme_name := OsPath.basename style_dir_path in
  let icon_logo := OsPath.join style_dir_path (theme_name +:+ "_icon_logo.png") in
  let text_logo := OsPath.join style_dir_path (theme_name +:+ "_text_logo.png") in
  mkPlotBuddy
    style_dir_path
    None
    (if path_exists E icon_logo then Some icon_logo else None)
    (if path_exists E text_logo then Some text_logo else None)
    DEFAULT_TIGHT_LAYOUT_RECT
    DEFAULT_WIDE_FIGURE
    DEFAULT_BOXY_FIGURE
    DEFAULT_TITLE_FONT_SIZE
    DEFAULT_SUBTITLE_FONT_SIZE
    DEFAULT_STANDARD_FONT_SIZE
    DEFAULT_TITLE_Y_POSITION
    DEFAULT_SUBTITLE_Y_POSITION.

(** The state of a method that assigns to a field of [self]. *)
Record St := mkSt { self : PlotBuddy; world : World }.

(** A computation on the process state, run inside a method. *)
Definition in_world {A} (m : M World A) : M St A :=
  fun st => let (r, w) := m (world st) in (r, mkSt (self st) w).

(** A method call on the object [b]: the value and the object afterwards.
    When the method raises, the caller's reference to [b] goes with it. *)
Definition call_on {A} (b : PlotBuddy) (m : M St A) : M World (A * PlotBuddy) :=
  fun w =>
    match m (mkSt b w) with
    | (Ok a, st) => (Ok (a, self st), world st)
    | (Raise e, st) => (Raise e, world st)
    end.

(** [self.current_style = name] *)
Definition assign_current_style (name : string) : M St unit :=
  modify (fun st =>
    let b := self st in
    mkSt (mkPlotBuddy (style_dir_path b) (Some name) (icon_logo_path b)
            (text_logo_path b) (tight_layout_rect b) (wide_figure b)
            (boxy_figure b) (title_font_size b) (subtitle_font_size b)
            (standard_font_size b) (title_y_position b)
            (subtitle_y_position b))
         (world st)).

(** The path [load_style_from_file] looks at. *)
Definition style_path_of (b : PlotBuddy) (style_name : string) : string :=
  OsPath.join (style_dir_path b) (style_name +:+ ".mplstyle").

(** [PlotBuddy.load_style_from_file] *)
Definition load_style_from_file (style_name : string) : M St bool :=
  let* st := get in
  let style_path := style_path_of (self st) style_name in
  if negb (path_exists E style_path) then
    in_world (print ("Warning: Style file not found at " +:+ style_path)) ;;
    ret false
  else
    try_except
      (in_world (plt_style_use style_path) ;;
       assign_current_style style_name ;;
       ret true)
      (fun e =>
         in_world (print ("Error loading style " +:+ style_name +:+ ": "
                          +:+ exn_msg e)) ;;
         ret false).

(** [bool(x)] for an optional string. *)
Definition truthy_opt (x : option string) : bool :=
  match x with Some s => PyStr.truthy s | None => false end.

(** The places [from_theme] searches when it is given no directory: the
    repository root, three levels above the module, the user themes and the
    system themes under it, and the old relative location. *)
Definition base_dir : PathLib.Path :=
  PathLib.parent (PathLib.parent (PathLib.parent
    (PathLib.of_string (module_file E)))).

Definition user_theme_path (theme_name : string) : PathLib.Path :=
  base_dir // "user_resources" // "themes" // theme_name.

Definition system_theme_path (theme_name : string) : PathLib.Path :=
  base_dir // "slideagent_mcp" // "resources" // "themes" // "core"
           // theme_name.

Definition legacy_theme_path (theme_name : string) : string :=
  OsPath.join "themes" theme_name.

(** The directory [from_theme] settles on. *)
Definition theme_path_of (theme_name : string) (themes_dir : option string)
  : string :=
  if truthy_opt themes_dir then
    OsPath.join (PyStr.str_opt themes_dir) theme_name
  else
    if Path_exists (user_theme_path theme_name)
    then PathLib.to_string (user_theme_path theme_name)
    else
      if Path_exists (system_theme_path theme_name)
      then PathLib.to_string (system_theme_path theme_name)
      else legacy_theme_path theme_name.

(** [PlotBuddy.from_theme] *)
Definition from_theme (theme_name : string) (themes_dir : option string)
  : M World PlotBuddy :=
  let theme_path := theme_path_of theme_name themes_dir in
  let buddy := __init__ (Some theme_path) in
  let style_name := theme_name +:+ "_style" in
  let* r := call_on buddy (load_style_from_file style_name) in
  let (loaded, buddy) := r : bool * PlotBuddy in
  if loaded then ret buddy
  else
    print ("Warning: Could not load style for theme '" +:+ theme_name
           +:+ "', using default styling") ;;
    ret buddy.

(** The loop of [from_project_config] over the CSS files: it stops at the
    first file, so the theme name comes from the head of the scan. *)
Definition detect_theme_name (theme_dir : PathLib.Path) : option string :=
  match Path_glob_star theme_dir "_theme.css" with
  | css_file :: _ => Some (PyStr.replace "_theme" "" (PathLib.stem css_file))
  | [] => None
  end.

(** [PlotBuddy.from_project_config] *)
Definition from_project_config (config_path : option string)
  : M World PlotBuddy :=
  let theme_dir := PathLib.of_string "theme" in
  let theme_dir :=
    if negb (Path_exists theme_dir) then PathLib.of_string "../theme"
    else theme_dir in
  if negb (Path_exists theme_dir) then
    print "Warning: Theme folder not found, using default theme" ;;
    from_theme "acme_corp" None
  else
    let theme_name := detect_theme_name theme_dir in
    if negb (truthy_opt theme_name) then
      print ("Warning: No theme CSS file found in "
             +:+ PathLib.to_string theme_dir) ;;
      from_theme "acme_corp" None
    else
      let theme_name := PyStr.str_opt theme_name in
      let buddy := __init__ (Some (resolve E (PathLib.to_string theme_dir))) in
      let style_name := theme_name +:+ "_style" in
      let* r := call_on buddy (load_style_from_file style_name) in
      ret (snd r).

(** The message of the [ValueError] for a position that is not a key of
    [positions]. *)
Definition invalid_position {V} (position : string)
    (positions : Dict.t string V) : string :=
  "Invalid position: " +:+ position +:+ ". Must be one of "
  +:+ PyStr.repr_list (Dict.keys positions).

(** [PlotBuddy.add_logo] *)
Definition add_logo (fig : ref) (logo_path : option string)
    (position : string) (width height margin : float) : M World unit :=
  if negb (truthy_opt logo_path)
     || negb (path_exists E (PyStr.str_opt logo_path)) then
    raise FileNotFoundError
          ("Logo file not found: " +:+ PyStr.str_opt logo_path)
  else
    let* logo_img :=
      try_except
        (mpimg_imread (PyStr.str_opt logo_path))
        (fun e => raise Exception
                    ("Could not load logo image: " +:+ exn_msg e)) in
    let positions : Dict.t string (float * float) :=
      [ ("bottom-right", (1 - width - margin, margin));
        ("bottom-left", (margin, margin));
        ("top-right", (1 - width - margin, 1 - height - margin));
        ("top-left", (margin, 1 - height - margin)) ]%float in
    match Dict.get position positions with
    | None => raise ValueError (invalid_position position positions)
    | Some (left_, bottom_) =>
        let* logo_ax := fig_add_axes fig (left_, bottom_, width, height) in
        axes_imshow logo_ax logo_img ;;
        axes_axis_off logo_ax
    end.

(** [PlotBuddy.add_source_citation] *)
Definition add_source_citation (self : PlotBuddy) (fig : ref)
    (source : string) (position : string) (fontsize : option Z)
    (color : string) : M World unit :=
  if negb (PyStr.truthy source) then ret tt
  else
    let fontsize :=
      match fontsize with
      | None => (standard_font_size self - 2)%Z
      | Some n => n
      end in
    let positions : Dict.t string (float * float * string) :=
      [ ("bottom-left", (0.02, 0.01, "left"));
        ("bottom-right", (0.98, 0.01, "right")) ]%float in
    match Dict.get position positions with
    | None => raise ValueError (invalid_position position positions)
    | Some (x, y, ha) =>
        fig_text fig x y ("Source: " +:+ source) fontsize color ha "bottom" ;;
        ret tt
    end.

(** The square patch that stands for one legend entry:
    [mpatches.Rectangle((0, 0), 1, 1, facecolor=color, edgecolor='none',
    alpha=0.8)], for a string that matplotlib reads as a colour (for any
    other string [Rectangle] raises). *)
Definition square_patch (color : string) : Handle :=
  Rectangle 0 0 1 1 color "none" 0.8%float.

(** Manual mode of [create_legend]: one patch per [(label, color)] entry;
    an entry of another length raises. *)
Fixpoint manual_legend (entries : list (list string))
    (handles : list Handle) (labels : list string)
  : M World (list Handle * list string) :=
  match entries with
  | [] => ret (handles, labels)
  | entry :: rest =>
      match entry with
      | [label; color] =>
          manual_legend rest (handles ++ [square_patch color])
                        (labels ++ [label])
      | _ => raise ValueError
                   "legend_entries must be tuples of (label, color)"
      end
  end.

(** The artists of an axes that carry a label which is not empty and
    does not start with an underscore.  [ax_plots] lists the artists in
    the order in which [get_legend_handles_labels] goes through them:
    lines, patches and collections as they were added, then the
    containers. *)
Definition labelled_plots (a : option Axes) : list (Handle * string) :=
  filter (fun hl => (PyStr.truthy (snd hl)
                     && negb (PyStr.startswith (snd hl) "_")) = true)
         (from_option ax_plots [] a).

(** [ax.get_legend_handles_labels()] *)
Definition get_legend_handles_labels (ax : ref)
  : M World (list Handle * list string) :=
  let* a := read_axes ax in
  ret (map fst (labelled_plots a), map snd (labelled_plots a)).

(** Automatic mode: a [Line2D] handle becomes a square patch of its colour. *)
Definition square_handle (handle : Handle) : Handle :=
  match handle with
  | Line2D color => square_patch color
  | other => other
  end.

(** [int / int] as a float, for operands below 2^53. *)
Definition float_of_Z (z : Z) : float := PrimFloat.of_uint63 (Uint63.of_Z z).

(** The number of legend columns when the caller gives none. *)
Definition auto_ncol (labels : list string) : Z :=
  let n := Z.of_nat (length labels) in
  let total :=
    fold_right Z.add 0%Z (map (fun l => Z.of_nat (PyStr.len l)) labels) in
  let avg_label_length :=
    match labels with
    | [] => 0%float
    | _ => (float_of_Z total / float_of_Z n)%float
    end in
  if (40 <? avg_label_length)%float then Z.min 2 n
  else if (25 <? avg_label_length)%float then Z.min 3 n
  else if (5 <? n)%Z then Z.min 4 n
  else n.

Definition legend_positions : Dict.t string (Dict.t string pyval) :=
  [ ("bottom", [("loc", VStr "upper center");
                ("bbox_to_anchor", VPair 0.5 (-0.15))]);
    ("right", [("loc", VStr "center left");
               ("bbox_to_anchor", VPair 1.02 0.5)]);
    ("top", [("loc", VStr "lower center");
             ("bbox_to_anchor", VPair 0.5 1.02)]) ]%float.

(** [ax.legend(handles, labels, **kwargs)], for keyword arguments the
    legend accepts ([ncol] at least 1): the legend is attached to the
    axes and returned. *)
Definition ax_legend_call (ax : ref) (handles : list Handle)
    (labels : list string) (kwargs : Dict.t string pyval) : M World Legend :=
  let lg := mkLegend handles labels kwargs in
  let attach a :=
    mkAxes (ax_rect a) (ax_xticks a) (ax_yticks a) (ax_xlabel a) (ax_ylabel a)
           (ax_title a) (ax_visible a) (ax_axison a) (ax_images a)
           (ax_plots a) (Some lg) in
  modify (set_axes_store (alter attach ax)) ;;
  ret lg.

(** The first part of [create_legend]: the handles and labels, from the
    entries given or from the plot elements of the axes. *)
Definition collect_legend (ax : ref)
    (legend_entries : option (list (list string)))
  : M World (list Handle * list string) :=
  match legend_entries with
  | Some entries => manual_legend entries [] []
  | None =>
      let* hl := get_legend_handles_labels ax in
      ret (map square_handle (fst hl), snd hl)
  end.

(** [PlotBuddy.create_legend]; the result [None] is Python's [None]. *)
Definition create_legend (self : PlotBuddy) (ax : ref)
    (legend_entries : option (list (list string))) (ncol : option Z)
    (position : string) (kwargs : Dict.t string pyval)
  : M World (option Legend) :=
  let* hl := collect_legend ax legend_entries in
  let (handles, labels) := hl : list Handle * list string in
  match handles, labels with
  | [], _ | _, [] => ret None
  | _, _ =>
      let ncol :=
        match ncol with
        | None => auto_ncol labels
        | Some n => n
        end in
      let pos_config :=
        match Dict.get position legend_positions with
        | Some c => c
        | None => default [] (Dict.get "bottom" legend_positions)
        end in
      let legend_kwargs :=
        Dict.merge
          (Dict.merge
             [ ("frameon", VBool false);
               ("fancybox", VBool false);
               ("edgecolor", VStr "#CCCCCC");
               ("facecolor", VStr "white");
               ("handlelength", VFloat 0.7);
               ("handletextpad", VFloat 0.6);
               ("columnspacing", VFloat 2.25);
               ("fontsize", VInt (standard_font_size self));
               ("ncol", VInt ncol) ]
             pos_config)
          kwargs in
      let* legend := ax_legend_call ax handles labels legend_kwargs in
      ret (Some legend)
  end.

(** [original_states = {}] *)
Definition no_states : Dict.t Element bool := [].

(** The test [_save_clean_version] applies to an axes: no ticks, no axis
    labels and no title. *)
Definition looks_like_logo_axis (a : Axes) : bool :=
  (length (ax_xticks a) =? 0)%nat && (length (ax_yticks a) =? 0)%nat
  && negb (PyStr.truthy (ax_xlabel a)) && negb (PyStr.truthy (ax_ylabel a))
  && negb (PyStr.truthy (ax_title a)).

(** The test it applies to a figure text: ['source:' in text.lower()]. *)
Definition mentions_source (t : Text) : bool :=
  PyStr.contains "source:" (PyStr.lower (tx_text t)).

(** The first loop of [_save_clean_version]: hide the logo axes. *)
Definition hide_logo_axes (axs : list ref) (original_states : Dict.t Element bool)
  : M World (Dict.t Element bool) :=
  for_fold axs original_states (fun original_states ax =>
    let* a := read_axes ax in
    match a with
    | Some a =>
        if looks_like_logo_axis a then
          let original_states :=
            Dict.set (AxesElem ax) (ax_visible a) original_states in
          set_visible (AxesElem ax) false ;;
          ret original_states
        else ret original_states
    | None => ret original_states
    end).

(** The second loop: hide the figure texts that mention a source. *)
Definition hide_source_texts (txts : list ref)
    (original_states : Dict.t Element bool)
  : M World (Dict.t Element bool) :=
  for_fold txts original_states (fun original_states text =>
    let* t := read_text text in
    match t with
    | Some t =>
        if mentions_source t then
          let original_states :=
            Dict.set (TextElem text) (tx_visible t) original_states in
          set_visible (TextElem text) false ;;
          ret original_states
        else ret original_states
    | None => ret original_states
    end).

(** The last loop: put every recorded visibility back. *)
Definition restore_states (original_states : Dict.t Element bool)
  : M World unit :=
  for_each original_states (fun item => set_visible (fst item) (snd item)).

(** [PlotBuddy._save_clean_version] *)
Definition _save_clean_version (fig : ref) (filepath : string)
    (kwargs : Dict.t string pyval) : M World unit :=
  let original_states : Dict.t Element bool := no_states in
  let* f := read_figure fig in
  let* original_states := hide_logo_axes (fig_axes f) original_states in
  let* original_states := hide_source_texts (fig_texts f) original_states in
  fig_savefig fig filepath kwargs ;;
  restore_states original_states.

(** What [save] returns: both paths, or the clean path alone. *)
Inductive Saved :=
| BrandedAndClean (branded_path clean_path : string)
| CleanOnly (clean_path : string).

Definition default_kwargs : Dict.t string pyval :=
  [("dpi", VInt 300); ("bbox_inches", VStr "tight"); ("facecolor", VStr "white")].

(** [PlotBuddy.save].  The keyword arguments are handed on as a dict;
    for a caller's keyword named [fig], Python refuses the call of
    [_save_clean_version] with a [TypeError], which the embedding leaves
    out. *)
Definition save (filepath : string) (branded : bool)
    (kwargs : Dict.t string pyval) : M World Saved :=
  let (base_path, ext) := OsPath.splitext filepath in
  let* fig := plt_gcf in
  if branded then
    let branded_path := base_path +:+ "_branded" +:+ ext in
    let save_kwargs := Dict.merge default_kwargs kwargs in
    fig_savefig fig branded_path save_kwargs ;;
    let clean_path := base_path +:+ "_clean" +:+ ext in
    _save_clean_version fig clean_path save_kwargs ;;
    ret (BrandedAndClean branded_path clean_path)
  else
    let clean_path := base_path +:+ "_clean" +:+ ext in
    let save_kwargs := Dict.merge default_kwargs kwargs in
    _save_clean_version fig clean_path save_kwargs ;;
    ret (CleanOnly clean_path).

End Program.

(** ** Names used in the statements *)

(** The positions each placement accepts. *)
Definition logo_positions : list string :=
  ["bottom-right"; "bottom-left"; "top-right"; "top-left"].
Definition citation_positions : list string :=
  ["bottom-left"; "bottom-right"].
Definition legend_position_names : list string :=
  ["bottom"; "right"; "top"].

(** The directories [from_theme] probes, in order. *)
Definition theme_candidates (E : Env) (theme_name : string) : list string :=
  [ PathLib.to_string (user_theme_path E theme_name);
    PathLib.to_string (system_theme_path E theme_name);
    legacy_theme_path theme_name ].

(** [os.path.join] of a directory and a relative name: the name, after
    the directory and one slash unless the directory is empty or ends with
    a slash already. *)
Definition inside (dir name : string) : string :=
  dir +:+ (if negb (PyStr.truthy dir) || PyStr.endswith dir "/"
           then "" else "/") +:+ name.

(** The figure behind a reference. *)
Definition figure_at (w : World) (fig : ref) : Figure :=
  default (mkFigure [] []) (fig_store w !! fig).

(** The loops of [_save_clean_version] as functions on the dict and the
    state: the state after the last loop, and one round of a hiding loop,
    for the artists [key r] that [selected] picks. *)
Definition restored (d : Dict.t Element bool) (w : World) : World :=
  fold_left (fun w item => make_visible (fst item) (snd item) w) d w.

Definition hide_step (key : ref -> Element) (selected : World -> ref -> bool)
    (st : Dict.t Element bool * World) (r : ref)
  : Dict.t Element bool * World :=
  if selected (snd st) r then
    match visible_of (snd st) (key r) with
    | Some v =>
        (Dict.set (key r) v (fst st), make_visible (key r) false (snd st))
    | None => st
    end
  else st.

Definition hidden (key : ref -> Element) (selected : World -> ref -> bool)
    (l : list ref) (st : Dict.t Element bool * World)
  : Dict.t Element bool * World :=
  fold_left (hide_step key selected) l st.

Definition logo_axis_at (w : World) (r : ref) : bool :=
  from_option looks_like_logo_axis false (axes_store w !! r).

Definition source_text_at (w : World) (r : ref) : bool :=
  from_option mentions_source false (text_store w !! r).

(** The state in which [_save_clean_version] exports the figure. *)
Definition clean_state (w : World) (f : Figure) : Dict.t Element bool * World :=
  hidden TextElem source_text_at (fig_texts f)
    (hidden AxesElem logo_axis_at (fig_axes f) (no_states, w)).

(** What [_save_clean_version] writes. *)
Definition clean_export (w : World) (fig : ref) (filepath : string)
    (kwargs : Dict.t string pyval) : Export :=
  let f := figure_at w fig in
  let wh := snd (clean_state w f) in
  mkExport filepath kwargs (shown_axes wh f) (shown_texts wh f).

(** What [plt.gcf()] returns, and the state it leaves. *)
Definition gcf_ref (w : World) : ref :=
  match current_fig w with
  | Some r => r
  | None => length (fig_store w)
  end.

Definition gcf_state (w : World) : World := snd (plt_gcf w).

(** What the branded [savefig] of [save] writes. *)
Definition branded_export (w : World) (fig : ref) (filepath : string)
    (kwargs : Dict.t string pyval) : Export :=
  mkExport filepath kwargs (shown_axes w (figure_at w fig))
           (shown_texts w (figure_at w fig)).

(** What a change of visibility leaves alone. *)
Definition same_frame (w w' : World) : Prop :=
  stdout w' = stdout w /\ styles_in_use w' = styles_in_use w
  /\ fig_store w' = fig_store w /\ current_fig w' = current_fig w
  /\ exports w' = exports w.

(** The directory [from_project_config] looks into: [theme], or
    [../theme] when there is no [theme]. *)
Definition project_theme_dir (E : Env) : PathLib.Path :=
  if negb (Path_exists E (PathLib.of_string "theme"))
  then PathLib.of_string "../theme" else PathLib.of_string "theme".

(** The entries of a directory that [glob("*_theme.css")] yields. *)
Definition theme_css_files (E : Env) (dir : PathLib.Path) : list string :=
  filter (fun n => PyStr.endswith n "_theme.css" = true)
         (scandir E (PathLib.to_string dir)).

(** ** The rest of the class

    The methods and module functions that draw what the records above do
    not hold: the size of a figure, the texts of an axes, the font style of
    a figure text, the layout rectangle.  They run on a [Canvas], the
    process state with these side tables. *)

(** What [plt.style.context] is given: a style name or a style file. *)
Inductive StyleContext :=
| ContextOf (style : string).

(** A text drawn by [ax.text]. *)
Record AxesText := mkAxesText {
  at_x : float;
  at_y : float;
  at_text : string;
  at_fontsize : Z;
  at_fontweight : string;
  at_ha : string;
  at_va : string;
  at_color : option string
}.

Record Canvas := mkCanvas {
  drawing : World;
  fig_sizes : list (ref * (Z * Z));
  axes_texts : list (ref * AxesText);
  text_styles : list (ref * string);
  tight_layouts : list (ref * list float)
}.

(** A computation on the process state, run on a canvas. *)
Definition on_drawing {A} (m : M World A) : M Canvas A :=
  fun c =>
    let (r, w) := m (drawing c) in
    (r, mkCanvas w (fig_sizes c) (axes_texts c) (text_styles c)
                 (tight_layouts c)).

(** The axes a new figure gets: nothing drawn, default ticks. *)
Definition plain_axes : Axes :=
  mkAxes None default_ticks default_ticks "" "" "" true true [] [] None.

(** [plt.subplots(figsize=figsize)]: a new figure with one axes; the new
    figure is the current one. *)
Definition plt_subplots (figsize : Z * Z) : M Canvas (ref * ref) :=
  fun c =>
    let w := drawing c in
    let fig := length (fig_store w) in
    let ax := length (axes_store w) in
    (Ok (fig, ax),
     mkCanvas
       (set_current_fig (Some fig)
          (set_fig_store (fun s => s ++ [mkFigure [ax] []])
             (set_axes_store (fun s => s ++ [plain_axes]) w)))
       (fig_sizes c ++ [(fig, figsize)]) (axes_texts c) (text_styles c)
       (tight_layouts c)).

(** [ax.text(x, y, s, ...)] *)
Definition ax_text (ax : ref) (t : AxesText) : M Canvas unit :=
  modify (fun c =>
    mkCanvas (drawing c) (fig_sizes c) (axes_texts c ++ [(ax, t)])
             (text_styles c) (tight_layouts c)).

(** [fig.tight_layout(rect=rect)] *)
Definition fig_tight_layout (fig : ref) (rect : list float) : M Canvas unit :=
  modify (fun c =>
    mkCanvas (drawing c) (fig_sizes c) (axes_texts c) (text_styles c)
             (tight_layouts c ++ [(fig, rect)])).

(** [fig.text(..., style=style)]: the text, and its font style. *)
Definition fig_text_styled (fig : ref) (x y : float) (s : string)
    (fontsize : Z) (color ha va style : string) : M Canvas ref :=
  bind (on_drawing (fig_text fig x y s fontsize color ha va)) (fun r =>
  bind (modify (fun c =>
          mkCanvas (drawing c) (fig_sizes c) (axes_texts c)
                   (text_styles c ++ [(r, style)]) (tight_layouts c)))
       (fun _ => ret r)).

Section Rest.

Variable E : Env.

(** [PlotBuddy.get_style_context]: the context manager is made, not
    entered, so the style file is not read here. *)
Definition get_style_context (self : PlotBuddy) (style_name : string)
  : M World StyleContext :=
  let style_path := style_path_of self style_name in
  if negb (path_exists E style_path) then
    bind (print ("Warning: Style file not found at " +:+ style_path
                 +:+ ", using default style"))
         (fun _ => ret (ContextOf "default"))
  else ret (ContextOf style_path).

(** [PlotBuddy.setup_figure] *)
Definition setup_figure (self : PlotBuddy) (figsize : option (Z * Z))
  : M Canvas (ref * ref) :=
  let figsize :=
    match figsize with
    | None => boxy_figure self
    | Some size => size
    end in
  plt_subplots figsize.

(** [PlotBuddy.add_footnote] *)
Definition add_footnote (fig : ref) (text : string) (position : string)
    (fontsize : Z) (color : string) : M Canvas unit :=
  let x_ha :=
    if String.eqb position "bottom-left" then (0.02%float, "left")
    else if String.eqb position "bottom-center" then (0.5%float, "center")
    else (0.98%float, "right") in
  bind (fig_text_styled fig (fst x_ha) 0.02 text fontsize color (snd x_ha)
                        "bottom" "italic")
       (fun _ => ret tt).

(** [PlotBuddy.add_titles] *)
Definition add_titles (self : PlotBuddy) (ax : ref) (title : string)
    (subtitle subtitle2 : option string) : M Canvas unit :=
  bind (ax_text ax
          (mkAxesText 0 (title_y_position self) title (title_font_size self)
                      "bold" "left" "bottom" None)) (fun _ =>
  bind (if truthy_opt subtitle then
          ax_text ax
            (mkAxesText 0 (subtitle_y_position self) (PyStr.str_opt subtitle)
                        (subtitle_font_size self) "normal" "left" "bottom"
                        (Some "black"))
        else ret tt) (fun _ =>
  if truthy_opt subtitle2 then
    let subtitle2_y := (subtitle_y_position self - 0.04)%float in
    ax_text ax
      (mkAxesText 0 subtitle2_y (PyStr.str_opt subtitle2)
                  (subtitle_font_size self - 1) "normal" "left" "bottom"
                  (Some "gray"))
  else ret tt)).

(** [PlotBuddy.apply_tight_layout] *)
Definition apply_tight_layout (self : PlotBuddy) (fig : ref) : M Canvas unit :=
  fig_tight_layout fig (tight_layout_rect self).

End Rest.

(** The module functions kept for older callers: each makes a
    [PlotBuddy()] of its own and calls the method. *)
Module Compat.

(** [add_gs_logo(fig, logo_path, left, bottom, width, height)] *)
Definition add_gs_logo (E : Env) (fig : ref) (logo_path : option string)
    (left_ bottom_ width height : float) : M World unit :=
  let buddy := __init__ E None in
  add_logo E fig logo_path "bottom-right" width height 0.01.

(** [add_source_citation(fig, source)] *)
Definition add_source_citation (E : Env) (fig : ref) (source : string)
  : M World unit :=
  let buddy := __init__ E None in
  add_source_citation buddy fig source "bottom-left" None "black".

(** [add_chart_titles(ax, title, subtitle)] *)
Definition add_chart_titles (E : Env) (ax : ref) (title : string)
    (subtitle : option string) : M Canvas unit :=
  let buddy := __init__ E None in
  add_titles buddy ax title subtitle None.

(** [setup_figure(figsize)] *)
Definition setup_figure (E : Env) (figsize : option (Z * Z))
  : M Canvas (ref * ref) :=
  let buddy := __init__ E None in
  setup_figure buddy figsize.

(** [create_legend_at_bottom(ax, legend_entries, ncol)] *)
Definition create_legend_at_bottom (E : Env) (ax : ref)
    (legend_entries : option (list (list string))) (ncol : option Z)
  : M World (option Legend) :=
  let buddy := __init__ E None in
  create_legend buddy ax legend_entries ncol "bottom" [].

End Compat.

(** ** Names used in the further statements *)

(** Every figure lists each of its axes and each of its texts once, and
    lists only what is in the stores. *)
Definition figure_ok (w : World) (f : Figure) : Prop :=
  NoDup (fig_axes f) /\ NoDup (fig_texts f)
  /\ (forall r, r ∈ fig_axes f -> (r < length (axes_store w))%nat)
  /\ (forall r, r ∈ fig_texts f -> (r < length (text_store w))%nat).

Definition well_formed (w : World) : Prop :=
  (forall fig f, fig_store w !! fig = Some f -> figure_ok w f)
  /\ (forall fig, current_fig w = Some fig ->
        (fig < length (fig_store w))%nat).

(** A text as the clean export shows it. *)
Definition clean_text (t : Text) : Text :=
  if mentions_source t then text_with_visible false t else t.

(** An axes as the clean export shows it. *)
Definition clean_axes (a : Axes) : Axes :=
  if looks_like_logo_axis a then axes_with_visible false a else a.

(** The keyword arguments [save] hands to [savefig]. *)
Definition save_kwargs_of (kwargs : Dict.t string pyval)
  : Dict.t string pyval :=
  Dict.merge default_kwargs kwargs.



(** A handle is a line. *)
Definition is_Line2D (h : Handle) : bool :=
  match h with Line2D _ => true | _ => false end.

(** A legend entry [(label, color)]. *)
Definition legend_entry (p : string * string) : list string :=
  [fst p; snd p].

(** The keyword arguments [create_legend] starts from, and the ones the
    position adds, ["bottom"] standing in for a position it does not know. *)
Definition legend_base_kwargs (self : PlotBuddy) (ncol : Z)
  : Dict.t string pyval :=
  [ ("frameon", VBool false);
    ("fancybox", VBool false);
    ("edgecolor", VStr "#CCCCCC");
    ("facecolor", VStr "white");
    ("handlelength", VFloat 0.7);
    ("handletextpad", VFloat 0.6);
    ("columnspacing", VFloat 2.25);
    ("fontsize", VInt (standard_font_size self));
    ("ncol", VInt ncol) ].

Definition position_config (position : string) : Dict.t string pyval :=
  match Dict.get position legend_positions with
  | Some c => c
  | None => default [] (Dict.get "bottom" legend_positions)
  end.

(** The legend [create_legend] attaches for the handles and labels it has
    collected. *)
Definition legend_of (self : PlotBuddy) (handles : list Handle)
    (labels : list string) (ncol : option Z) (position : string)
    (kwargs : Dict.t string pyval) : Legend :=
  mkLegend handles labels
    (Dict.merge
       (Dict.merge
          (legend_base_kwargs self
             (match ncol with None => auto_ncol labels | Some n => n end))
          (position_config position))
       kwargs).

(** [ax.legend] having attached [lg] to the axes [ax]. *)
Definition with_legend (lg : Legend) (ax : ref) (w : World) : World :=
  snd (ax_legend_call ax (lg_handles lg) (lg_labels lg) (lg_kwargs lg) w).

(** ** A sample installation

    A concrete environment and process state on which the theorems below
    are exercised: a repository checked out at [/repo], a user theme
    [acme_corp] with a style file and an icon logo, a theme [broken] whose
    style file the parser rejects, and a project directory [theme]. *)

Module Sample.

Definition files : list string :=
  [ "/repo/user_resources/themes/acme_corp";
    "/repo/user_resources/themes/acme_corp/acme_corp_style.mplstyle";
    "/repo/user_resources/themes/acme_corp/acme_corp_icon_logo.png";
    "/repo/slideagent_mcp/resources/themes/core/acme_corp";
    "/repo/slideagent_mcp/resources/themes/core/plain";
    "/repo/user_resources/themes/broken";
    "/repo/user_resources/themes/broken/broken_style.mplstyle";
    "theme";
    "/work/theme/my_v2_style.mplstyle";
    "logo.png" ].

Definition rejected : exn := mkExn OSError "not a valid style file".

Definition env : Env :=
  mkEnv
    (fun p => bool_decide (p ∈ files))
    "/repo/user_resources/themes/acme_corp"
    "/repo/slideagent_mcp/utils/plot_buddy.py"
    (fun d => if String.eqb d "theme"
              then ["notes.md"; "my_theme_v2_theme.css"; "other_theme.css"]
              else [])
    (fun p => "/work/" +:+ p)
    (fun p => if String.eqb p
                   "/repo/user_resources/themes/broken/broken_style.mplstyle"
              then Some rejected else None)
    (fun p => Ok (mkImage 40 120))
    (fun img => ([0; 50; 100]%float, [0; 20]%float))
    (fun p => if String.eqb p "/proc/out_clean.png"
              then Some (mkExn OSError "read-only file system") else None).

(** The same installation, seen from a project whose directory [theme]
    holds the one file [acme_corp_theme.css]. *)
Definition project_env : Env :=
  mkEnv (path_exists env) "/work" (module_file env)
        (fun d => if String.eqb d "theme" then ["acme_corp_theme.css"] else [])
        (resolve env) (style_use env) (imread env) (image_ticks env)
        (savefig_error env).

(** A place with no project directory at all. *)
Definition bare_env : Env :=
  mkEnv (fun _ => false) "/tmp" (module_file env) (fun _ => [])
        (resolve env) (style_use env) (imread env) (image_ticks env)
        (savefig_error env).

(** A process that has printed nothing and drawn nothing. *)
Definition fresh : World := mkWorld [] [] [] [] [] None [].

(** A chart: one plot axes with two labelled lines, one bare inset axes,
    a citation and a footnote. *)
Definition plot_axes : Axes :=
  mkAxes None [0; 1; 2]%float [0; 10]%float "year" "revenue" "" true true []
         [(Line2D "blue", "2023"); (Line2D "red", "2024");
          (Line2D "grey", "_nolegend_")] None.

Definition bare_axes : Axes :=
  mkAxes (Some (0.87, 0.01, 0.12, 0.08)%float) [] [] "" "" "" true false
         [mkImage 40 120] [] None.

Definition citation : Text :=
  mkText 0.02 0.01 "Source: ACME annual report" 12 "black" "left" "bottom" true.

Definition footnote : Text :=
  mkText 0.02 0.02 "Figures in USD" 10 "#666666" "left" "bottom" true.

Definition chart : World :=
  mkWorld [] [] [plot_axes; bare_axes] [citation; footnote]
          [mkFigure [0; 1] [0; 1]] (Some 0) [].

Definition buddy : PlotBuddy := __init__ env None.

(** The chart after [add_logo(fig, "logo.png")]. *)
Definition chart_with_logo : World :=
  snd (add_logo env 0 (Some "logo.png") "bottom-right" 0.12 0.08 0.01 chart).

(** An empty canvas, and a chart drawn on it step by step. *)
Definition blank : Canvas := mkCanvas fresh [] [] [] [].

Definition drawn_canvas : Canvas :=
  snd (add_footnote 0 "Figures in USD" "bottom-left" 10 "#666666"
         (snd (setup_figure buddy None blank))).

Definition drawn_chart : World :=
  snd (add_source_citation buddy 0 "ACME annual report" "bottom-left" None
         "black"
         (snd (add_logo env 0 (Some "logo.png") "bottom-right" 0.12 0.08
                 0.01 (drawing drawn_canvas)))).

End Sample.

(** * Properties *)

#[local] Arguments Ascii.eqb : simpl never.
#[local] Arguments String.eqb : simpl never.
#[local] Arguments Dict.get : simpl never.

(** ** Running the monad *)

Ltac run :=
  unfold bind, ret, raise, reraise, get, modify, try_except, in_world,
    call_on, print in *; simpl in *.

(** A decidable proposition, settled by evaluation. *)
Ltac decided :=
  match goal with
  | |- ?P => refine (@bool_decide_unpack P _ _); vm_compute; exact I
  end.

Lemma or_else_truthy (x : option string) (y : string) :
  PyStr.truthy y = true -> PyStr.truthy (or_else x y) = true.
Proof.
  intros Hy. destruct x as [s|]; simpl; [|done].
  destruct (PyStr.truthy s) eqn:Hs; done.
Qed.

(** ** Loading a style file *)

Section LoadStyle.

Variable E : Env.

(** The outcome of a load, by cases on the file and on the parser. *)
Lemma load_style_outcome (b : PlotBuddy) (w : World) (style_name : string) :
  fst (load_style_from_file E style_name (mkSt b w)) =
  if path_exists E (style_path_of b style_name) then
    match style_use E (style_path_of b style_name) with
    | None => Ok true
    | Some e => if is_Exception (exn_cls e) then Ok false else Raise e
    end
  else Ok false.
Proof.
  unfold load_style_from_file, style_path_of, plt_style_use. run.
  destruct (path_exists E _); simpl; [|done].
  destruct (style_use E _) as [e|]; simpl; [|done].
  unfold reraise; simpl. destruct (is_Exception (exn_cls e)); done.
Qed.

(** The object after a load. *)
Lemma load_style_self (b : PlotBuddy) (w : World) (style_name : string) :
  let r := load_style_from_file E style_name (mkSt b w) in
  match fst r with
  | Ok true =>
      current_style (self (snd r)) = Some style_name
      /\ style_dir_path (self (snd r)) = style_dir_path b
      /\ icon_logo_path (self (snd r)) = icon_logo_path b
      /\ text_logo_path (self (snd r)) = text_logo_path b
  | _ => self (snd r) = b
  end.
Proof.
  unfold load_style_from_file, plt_style_use. run.
  destruct (path_exists E _); simpl; [|done].
  destruct (style_use E _) as [e|]; simpl; [|done].
  unfold reraise; simpl. destruct (is_Exception (exn_cls e)); done.
Qed.

End LoadStyle.

(** C1, as the code has it: [load_style_from_file] returns [False] without
    raising when the style file is missing, and it also returns [False]
    without raising when the file is present and the style parser throws an
    [Exception]; it returns [True] when the file is present and the parser
    accepts it.  It raises only what the parser raises outside the
    [Exception] hierarchy ([KeyboardInterrupt], [SystemExit]). *)
Theorem C1_load_style_returns_bool
    (E : Env) (b : PlotBuddy) (w : World) (style_name : string) :
  let p := style_path_of b style_name in
  let r := fst (load_style_from_file E style_name (mkSt b w)) in
  (path_exists E p = false -> r = Ok false)
  /\ (forall e, path_exists E p = true -> style_use E p = Some e ->
        is_Exception (exn_cls e) = true -> r = Ok false)
  /\ (path_exists E p = true -> style_use E p = None -> r = Ok true)
  /\ (forall e, r = Raise e ->
        path_exists E p = true /\ style_use E p = Some e
        /\ is_Exception (exn_cls e) = false).
Proof.
  intros p r. subst r. rewrite load_style_outcome. fold p.
  repeat split.
  - intros ->. done.
  - intros e -> -> ->. done.
  - intros -> ->. done.
  - destruct (path_exists E p); [done|discriminate].
  - destruct (path_exists E p); [|discriminate].
    destruct (style_use E p) as [e'|]; [|discriminate].
    destruct (is_Exception (exn_cls e')); [discriminate|congruence].
  - destruct (path_exists E p); [|discriminate].
    destruct (style_use E p) as [e'|]; [|discriminate].
    destruct (is_Exception (exn_cls e')) eqn:He; [discriminate|congruence].
Qed.

(** C1 on the sample: the style file of the theme [broken] is present and
    rejected by the parser with an [OSError]. *)
Lemma C1_load_style_returns_bool_witness :
  let b := __init__ Sample.env (Some "/repo/user_resources/themes/broken") in
  path_exists Sample.env (style_path_of b "broken_style") = true
  /\ style_use Sample.env (style_path_of b "broken_style") = Some Sample.rejected
  /\ fst (load_style_from_file Sample.env "broken_style" (mkSt b Sample.fresh))
     = Ok false.
Proof.
  intros b.
  split; [vm_compute; reflexivity|].
  split; [vm_compute; reflexivity|].
  refine (proj1 (proj2 (C1_load_style_returns_bool Sample.env b Sample.fresh
                          "broken_style")) Sample.rejected _ _ _);
    vm_compute; reflexivity.
Defined.

(** C1 as stated fails: for a style file that is present and that the
    parser rejects, the load does not raise; it prints the error and
    returns [False]. *)
Lemma C1_counterexample :
  let b := __init__ Sample.env (Some "/repo/user_resources/themes/broken") in
  let p := "/repo/user_resources/themes/broken/broken_style.mplstyle" in
  path_exists Sample.env p = true
  /\ style_use Sample.env p = Some Sample.rejected
  /\ load_style_from_file Sample.env "broken_style" (mkSt b Sample.fresh)
     = (Ok false,
        mkSt b (set_stdout
                  (fun _ => ["Error loading style broken_style: not a valid style file"])
                  Sample.fresh)).
Proof. vm_compute. repeat split; reflexivity. Qed.

(** C4: a load changes [current_style] only when it succeeds, and then to
    the name of the loaded style; a load that fails, for a missing file or
    for a style the parser rejects, leaves it as it was; a style that is
    set is never unset. *)
Theorem C4_current_style_transitions
    (E : Env) (b : PlotBuddy) (w : World) (style_name : string) :
  let r := load_style_from_file E style_name (mkSt b w) in
  (fst r = Ok true -> current_style (self (snd r)) = Some style_name)
  /\ (fst r <> Ok true -> self (snd r) = b)
  /\ (is_Some (current_style b) -> is_Some (current_style (self (snd r)))).
Proof.
  intros r. pose proof (load_style_self E b w style_name) as H.
  cbv zeta in H. fold r in H.
  destruct (fst r) as [[|]|e]; repeat split; try done.
  - by destruct H.
  - destruct H as [-> _]. done.
  - by rewrite H.
  - by rewrite H.
Qed.

(** C4 on the sample: the style of [acme_corp] loads, and a later load of a
    style that is not there keeps it. *)
Lemma C4_current_style_transitions_witness :
  let b := __init__ Sample.env None in
  let r := load_style_from_file Sample.env "acme_corp_style"
             (mkSt b Sample.fresh) in
  let r' := load_style_from_file Sample.env "absent" (snd r) in
  (fst r = Ok true /\ current_style (self (snd r)) = Some "acme_corp_style")
  /\ (fst r' <> Ok true /\ self (snd r') = self (snd r))
  /\ (is_Some (current_style (self (snd r)))
      /\ is_Some (current_style (self (snd r')))).
Proof.
  intros b r r'.
  pose proof (C4_current_style_transitions Sample.env b Sample.fresh
                "acme_corp_style") as (H1 & _ & _).
  pose proof (C4_current_style_transitions Sample.env (self (snd r))
                (world (snd r)) "absent") as (_ & H2 & H3).
  assert (Hr : fst r = Ok true) by (vm_compute; reflexivity).
  assert (Hr' : fst r' <> Ok true) by (vm_compute; discriminate).
  assert (Hs : is_Some (current_style (self (snd r))))
    by (vm_compute; eexists; reflexivity).
  split; [exact (conj Hr (H1 Hr))|].
  split; [exact (conj Hr' (H2 Hr'))|].
  exact (conj Hs (H3 Hs)).
Defined.

(** ** The constructor *)

Lemma rfind_drop (c : ascii) (s : string) (i : nat) :
  PyStr.rfind c s = Some i -> PyStr.rfind c (PyStr.drop (S i) s) = None.
Proof.
  revert i. induction s as [|d s IH]; intros i; simpl; [done|].
  destruct (PyStr.rfind c s) as [j|] eqn:Hj.
  - intros [= <-]. by apply IH.
  - destruct (Ascii.eqb d c); [|done]. intros [= <-]. by destruct s.
Qed.

Lemma rfind_None_head (c d : ascii) (s : string) :
  PyStr.rfind c (String d s) = None -> Ascii.eqb d c = false.
Proof.
  simpl. destruct (PyStr.rfind c s); [done|]. by destruct (Ascii.eqb d c).
Qed.

Lemma basename_no_sep (p : string) :
  PyStr.rfind OsPath.sep (OsPath.basename p) = None.
Proof.
  unfold OsPath.basename.
  destruct (PyStr.rfind OsPath.sep p) as [i|] eqn:Hi; [|done].
  by apply rfind_drop.
Qed.

(** A file name made of a base name and a suffix that does not start with
    a slash is not an absolute path. *)
Lemma basename_suffix_relative (p : string) (c : ascii) (suffix : string) :
  Ascii.eqb c OsPath.sep = false ->
  PyStr.startswith (OsPath.basename p +:+ String c suffix) "/" = false.
Proof.
  intros Hc. pose proof (basename_no_sep p) as H.
  unfold PyStr.startswith.
  destruct (OsPath.basename p) as [|d s]; simpl.
  - rewrite Ascii.eqb_sym. fold OsPath.sep. by rewrite Hc.
  - apply rfind_None_head in H.
    rewrite Ascii.eqb_sym. fold OsPath.sep. by rewrite H.
Qed.

Lemma join_relative (dir name : string) :
  PyStr.startswith name "/" = false -> OsPath.join dir name = inside dir name.
Proof.
  intros H. unfold OsPath.join, inside. rewrite H.
  by destruct (negb (PyStr.truthy dir) || PyStr.endswith dir "/").
Qed.

(** C5: the constructor roots the context at the directory it is given;
    when it is given none, or the empty path, it roots the context at the
    working directory.  In that directory, [icon_logo_path] is the file
    [<base name>_icon_logo.png] exactly when that file exists, and is
    unset otherwise; likewise [text_logo_path] and
    [<base name>_text_logo.png].  No style is current, and the
    constructor has no raising path. *)
Theorem C5_constructor_logos (E : Env) :
  (forall d : string,
     PyStr.truthy d = true ->
     let icon := inside d (OsPath.basename d +:+ "_icon_logo.png") in
     let text := inside d (OsPath.basename d +:+ "_text_logo.png") in
     let b := __init__ E (Some d) in
     style_dir_path b = d
     /\ current_style b = None
     /\ icon_logo_path b = (if path_exists E icon then Some icon else None)
     /\ text_logo_path b = (if path_exists E text then Some text else None))
  /\ (forall dir_path : option string,
        dir_path = None \/ dir_path = Some "" ->
        let d := getcwd E in
        let icon := inside d (OsPath.basename d +:+ "_icon_logo.png") in
        let text := inside d (OsPath.basename d +:+ "_text_logo.png") in
        let b := __init__ E dir_path in
        style_dir_path b = d
        /\ current_style b = None
        /\ icon_logo_path b = (if path_exists E icon then Some icon else None)
        /\ text_logo_path b
           = (if path_exists E text then Some text else None)).
Proof.
  split.
  - intros d Hd. unfold __init__, or_else. rewrite Hd. simpl.
    repeat split;
      by rewrite join_relative by (by apply basename_suffix_relative).
  - intros dir_path [-> | ->]; unfold __init__, or_else; simpl;
      repeat split;
      by rewrite join_relative by (by apply basename_suffix_relative).
Qed.

(** C5 on the sample, from the working directory [/work]: a buddy given
    the theme directory [acme_corp] is rooted there and has its icon logo
    and no text logo; a buddy given no directory is rooted at [/work],
    where there is neither logo. *)
Lemma C5_constructor_logos_witness :
  let given := __init__ Sample.project_env
                 (Some "/repo/user_resources/themes/acme_corp") in
  let absent := __init__ Sample.project_env None in
  PyStr.truthy "/repo/user_resources/themes/acme_corp" = true
  /\ getcwd Sample.project_env = "/work"
  /\ (style_dir_path given = "/repo/user_resources/themes/acme_corp"
      /\ icon_logo_path given
         = Some "/repo/user_resources/themes/acme_corp/acme_corp_icon_logo.png"
      /\ text_logo_path given = None)
  /\ (style_dir_path absent = "/work"
      /\ icon_logo_path absent = None
      /\ text_logo_path absent = None).
Proof.
  intros given absent. subst given absent.
  destruct (C5_constructor_logos Sample.project_env) as [Hgiven Habsent].
  destruct (Hgiven "/repo/user_resources/themes/acme_corp" eq_refl)
    as (Hd & _ & Hi & Ht).
  destruct (Habsent None (or_introl eq_refl)) as (Hd' & _ & Hi' & Ht').
  split; [reflexivity|]. split; [reflexivity|]. split.
  - split; [exact Hd|]. split; [rewrite Hi | rewrite Ht];
      vm_compute; reflexivity.
  - split; [exact Hd'|]. split; [rewrite Hi' | rewrite Ht'];
      vm_compute; reflexivity.
Defined.

(** ** Logos *)

(** C8: [add_logo] raises [FileNotFoundError] whenever the logo path is
    unset or empty, or no file exists at it; nothing is printed and
    nothing is drawn. *)
Theorem C8_missing_logo_is_fatal
    (E : Env) (fig : ref) (logo_path : option string) (position : string)
    (width height margin : float) (w : World) :
  truthy_opt logo_path = false
  \/ path_exists E (PyStr.str_opt logo_path) = false ->
  add_logo E fig logo_path position width height margin w
  = (Raise (mkExn FileNotFoundError
              ("Logo file not found: " +:+ PyStr.str_opt logo_path)), w).
Proof.
  intros H. unfold add_logo.
  assert (negb (truthy_opt logo_path)
          || negb (path_exists E (PyStr.str_opt logo_path)) = true) as ->.
  { destruct H as [-> | ->]; [done|]. by rewrite orb_true_r. }
  done.
Qed.

(** C8 on the sample: there is no file [missing.png]. *)
Lemma C8_missing_logo_is_fatal_witness :
  path_exists Sample.env "missing.png" = false
  /\ add_logo Sample.env 0 (Some "missing.png") "bottom-right"
       0.12 0.08 0.01 Sample.chart
     = (Raise (mkExn FileNotFoundError "Logo file not found: missing.png"),
        Sample.chart).
Proof.
  split; [vm_compute; reflexivity|].
  apply (C8_missing_logo_is_fatal Sample.env 0 (Some "missing.png")).
  right. vm_compute. reflexivity.
Defined.

(** ** Positions *)

Lemma Dict_get_None {V} (k : string) (d : Dict.t string V) :
  k ∉ Dict.keys d -> Dict.get k d = None.
Proof.
  induction d as [|[k' v] d IH]; [done|].
  intros H. apply not_elem_of_cons in H as [H1 H2].
  unfold Dict.get; fold (@Dict.get string V _).
  destruct (decide (k' = k)) as [->|]; [by destruct H1|]. by apply IH.
Qed.

(** Collecting the handles and labels draws nothing and prints nothing. *)
Lemma manual_legend_state (entries : list (list string))
    (handles : list Handle) (labels : list string) (w : World) :
  snd (manual_legend entries handles labels w) = w.
Proof.
  revert handles labels.
  induction entries as [|entry entries IH]; intros handles labels; [done|].
  simpl. destruct entry as [|label [|color [|? ?]]]; done.
Qed.

Lemma collect_legend_state (ax : ref)
    (legend_entries : option (list (list string))) (w : World) :
  snd (collect_legend ax legend_entries w) = w.
Proof.
  destruct legend_entries as [entries|]; [apply manual_legend_state|done].
Qed.

(** In automatic mode the handles and labels are those of the labelled
    plot elements of the axes. *)
Lemma collect_legend_automatic (ax : ref) (w : World) :
  fst (collect_legend ax None w)
  = Ok (map square_handle (map fst (labelled_plots (axes_store w !! ax))),
        map snd (labelled_plots (axes_store w !! ax))).
Proof. done. Qed.

(** C9: when the collected handles or labels are empty, as they are when
    no entries are given and the axes has no labelled plot element,
    [create_legend] returns [None] and leaves the axes, and all else, as
    they were: no legend is attached and nothing is raised. *)
Theorem C9_empty_legend_is_None
    (self : PlotBuddy) (ax : ref) (legend_entries : option (list (list string)))
    (ncol : option Z) (position : string) (kwargs : Dict.t string pyval)
    (w : World) (handles : list Handle) (labels : list string) :
  fst (collect_legend ax legend_entries w) = Ok (handles, labels) ->
  handles = [] \/ labels = [] ->
  create_legend self ax legend_entries ncol position kwargs w = (Ok None, w).
Proof.
  intros Hc He. unfold create_legend, bind.
  pose proof (collect_legend_state ax legend_entries w) as Hw.
  destruct (collect_legend ax legend_entries w) as [r w']. simpl in *.
  subst r w'. destruct He as [-> | ->]; [done|]. by destruct handles.
Qed.

(** C9 on the sample: the inset axes of the chart has no labelled plot
    element, and no entries are given. *)
Lemma C9_empty_legend_is_None_witness :
  labelled_plots (axes_store Sample.chart !! 1%nat) = []
  /\ fst (collect_legend 1 None Sample.chart) = Ok ([], [])
  /\ create_legend Sample.buddy 1 None None "bottom" [] Sample.chart
     = (Ok None, Sample.chart).
Proof.
  assert (Hl : labelled_plots (axes_store Sample.chart !! 1%nat) = [])
    by (vm_compute; reflexivity).
  assert (H : fst (collect_legend 1 None Sample.chart) = Ok ([], []))
    by (rewrite collect_legend_automatic, Hl; reflexivity).
  split; [exact Hl|]. split; [exact H|].
  exact (C9_empty_legend_is_None Sample.buddy 1 None None "bottom" []
           Sample.chart [] [] H (or_introl eq_refl)).
Defined.

(** C2, as the code has it.  For a position that is not accepted:
    [add_logo] raises a [ValueError] that lists the accepted positions,
    once the logo file is there and has been read; [add_source_citation]
    raises a [ValueError] that lists the accepted positions when the source
    text is not empty; [create_legend] does not raise for the position: it
    places the legend as for ["bottom"]. *)
Theorem C2_invalid_position
    (E : Env) (self : PlotBuddy) (fig ax : ref) (position : string)
    (logo_path : option string) (img : Image) (width height margin : float)
    (source : string) (fontsize : option Z) (color : string)
    (legend_entries : option (list (list string))) (ncol : option Z)
    (kwargs : Dict.t string pyval) (w : World) :
  (position ∉ logo_positions ->
   truthy_opt logo_path = true ->
   path_exists E (PyStr.str_opt logo_path) = true ->
   imread E (PyStr.str_opt logo_path) = Ok img ->
   add_logo E fig logo_path position width height margin w
   = (Raise (mkExn ValueError
        ("Invalid position: " +:+ position +:+ ". Must be one of "
         +:+ "['bottom-right', 'bottom-left', 'top-right', 'top-left']")), w))
  /\ (position ∉ citation_positions ->
      PyStr.truthy source = true ->
      add_source_citation self fig source position fontsize color w
      = (Raise (mkExn ValueError
           ("Invalid position: " +:+ position +:+ ". Must be one of "
            +:+ "['bottom-left', 'bottom-right']")), w))
  /\ (position ∉ legend_position_names ->
      create_legend self ax legend_entries ncol position kwargs w
      = create_legend self ax legend_entries ncol "bottom" kwargs w).
Proof.
  repeat split.
  - intros Hp Ht Hx Hi. unfold add_logo. rewrite Ht, Hx. simpl.
    unfold mpimg_imread. rewrite Hi. run.
    rewrite Dict_get_None by exact Hp. reflexivity.
  - intros Hp Hs. unfold add_source_citation. rewrite Hs. simpl.
    rewrite Dict_get_None by exact Hp. reflexivity.
  - intros Hp. unfold create_legend.
    rewrite (Dict_get_None position legend_positions) by exact Hp.
    reflexivity.
Qed.

(** C2 on the sample, for the position ["middle"]. *)
Lemma C2_invalid_position_witness :
  add_logo Sample.env 0 (Some "logo.png") "middle" 0.12 0.08 0.01 Sample.chart
  = (Raise (mkExn ValueError
       "Invalid position: middle. Must be one of ['bottom-right', 'bottom-left', 'top-right', 'top-left']"),
     Sample.chart)
  /\ add_source_citation Sample.buddy 0 "ACME" "middle" None "black" Sample.chart
     = (Raise (mkExn ValueError
          "Invalid position: middle. Must be one of ['bottom-left', 'bottom-right']"),
        Sample.chart)
  /\ create_legend Sample.buddy 0 None None "middle" [] Sample.chart
     = create_legend Sample.buddy 0 None None "bottom" [] Sample.chart.
Proof.
  pose proof (C2_invalid_position Sample.env Sample.buddy 0 0 "middle"
                (Some "logo.png") (mkImage 40 120) 0.12 0.08 0.01
                "ACME" None "black" None None [] Sample.chart)
    as (H1 & H2 & H3).
  split; [|split].
  - apply H1; [decided | done | done | done].
  - apply H2; [decided | done].
  - apply H3. decided.
Defined.

(** C2 as stated fails.  With the position ["middle"]: [create_legend]
    raises nothing and returns a legend placed as for ["bottom"];
    [add_source_citation] with an empty source returns without a check of
    the position; [add_logo] with a logo file that is not there raises
    [FileNotFoundError] before it looks at the position. *)
Lemma C2_counterexample :
  ("middle" ∉ legend_position_names)
  /\ (exists lg,
        fst (create_legend Sample.buddy 0 None None "middle" [] Sample.chart)
        = Ok (Some lg)
        /\ lg_labels lg = ["2023"; "2024"]
        /\ Dict.get "loc" (lg_kwargs lg) = Some (VStr "upper center"))
  /\ add_source_citation Sample.buddy 0 "" "middle" None "black" Sample.chart
     = (Ok tt, Sample.chart)
  /\ add_logo Sample.env 0 (Some "missing.png") "middle" 0.12 0.08 0.01
       Sample.chart
     = (Raise (mkExn FileNotFoundError "Logo file not found: missing.png"),
        Sample.chart).
Proof.
  split; [decided|].
  split; [eexists; vm_compute; repeat split; reflexivity|].
  split; vm_compute; reflexivity.
Qed.

(** ** Theme resolution *)

Lemma truthy_app_l (a b : string) :
  PyStr.truthy a = true -> PyStr.truthy (a +:+ b) = true.
Proof. by destruct a. Qed.

Lemma truthy_app_r (a b : string) :
  PyStr.truthy b = true -> PyStr.truthy (a +:+ b) = true.
Proof. destruct a; [done|]. by destruct b. Qed.

Lemma startswith_truthy (s p : string) :
  PyStr.truthy p = true -> PyStr.startswith s p = true -> PyStr.truthy s = true.
Proof. destruct p; [done|]. by destruct s. Qed.

Lemma join_truthy (a b : string) :
  PyStr.truthy a = true -> PyStr.truthy (OsPath.join a b) = true.
Proof.
  intros Ha. unfold OsPath.join.
  destruct (PyStr.startswith b "/") eqn:Hb.
  - by apply (startswith_truthy b "/").
  - destruct (negb (PyStr.truthy a) || PyStr.endswith a "/");
      by apply truthy_app_l.
Qed.

(** [str] of a path is never empty. *)
Lemma to_string_truthy (p : PathLib.Path) :
  Forall (fun x => PyStr.truthy x = true) (PathLib.parts p) ->
  PyStr.truthy (PathLib.to_string p) = true.
Proof.
  unfold PathLib.to_string. destruct p as [r ws]; simpl.
  intros H. destruct r as [|c r].
  - destruct ws as [|x ws]; [done|].
    apply Forall_cons in H as [Hx _].
    change (PyStr.truthy (PyStr.join "/" (x :: ws)) = true). simpl.
    destruct ws; [done|]. apply truthy_app_l. done.
  - apply truthy_app_l. done.
Qed.

Lemma of_string_parts (s : string) :
  Forall (fun x => PyStr.truthy x = true) (PathLib.parts (PathLib.of_string s)).
Proof.
  unfold PathLib.of_string; simpl. apply Forall_forall.
  intros x [Hk _]%list_elem_of_filter. unfold PathLib.keep_part in Hk.
  by apply andb_true_iff in Hk as [Hk _].
Qed.

Lemma div_parts (p : PathLib.Path) (s : string) :
  Forall (fun x => PyStr.truthy x = true) (PathLib.parts p) ->
  Forall (fun x => PyStr.truthy x = true) (PathLib.parts (p // s)).
Proof.
  intros H. unfold PathLib.div.
  destruct (PyStr.startswith s "/"); [apply of_string_parts|].
  simpl. apply Forall_app. split; [done|apply of_string_parts].
Qed.

Lemma parent_parts (p : PathLib.Path) :
  Forall (fun x => PyStr.truthy x = true) (PathLib.parts p) ->
  Forall (fun x => PyStr.truthy x = true) (PathLib.parts (PathLib.parent p)).
Proof.
  unfold PathLib.parent; simpl. induction 1 as [|x l Hx Hl IH]; [done|].
  simpl. destruct l; [done|]. by constructor.
Qed.

Lemma base_dir_parts (E : Env) :
  Forall (fun x => PyStr.truthy x = true) (PathLib.parts (base_dir E)).
Proof. unfold base_dir. do 3 apply parent_parts. apply of_string_parts. Qed.

(** The directory [from_theme] settles on is never the empty string, so
    the constructor does not replace it by the working directory. *)
Lemma theme_path_truthy (E : Env) (theme_name : string)
    (themes_dir : option string) :
  PyStr.truthy (theme_path_of E theme_name themes_dir) = true.
Proof.
  unfold theme_path_of.
  destruct (truthy_opt themes_dir) eqn:Hd.
  { apply join_truthy. by destruct themes_dir. }
  destruct (Path_exists E (user_theme_path E theme_name)).
  { apply to_string_truthy. unfold user_theme_path.
    do 3 apply div_parts. apply base_dir_parts. }
  destruct (Path_exists E (system_theme_path E theme_name)).
  { apply to_string_truthy. unfold system_theme_path.
    do 5 apply div_parts. apply base_dir_parts. }
  by apply join_truthy.
Qed.

(** [from_theme] returns the object built for the directory it settled
    on, unless the style parser raises outside the [Exception] hierarchy. *)
Lemma from_theme_outcome (E : Env) (theme_name : string)
    (themes_dir : option string) (w : World) :
  match fst (from_theme E theme_name themes_dir w) with
  | Ok b => style_dir_path b = theme_path_of E theme_name themes_dir
  | Raise e => is_Exception (exn_cls e) = false
  end.
Proof.
  unfold from_theme.
  set (tp := theme_path_of E theme_name themes_dir).
  set (b := __init__ E (Some tp)).
  assert (Hb : style_dir_path b = tp).
  { unfold b, __init__, or_else; simpl. unfold tp.
    by rewrite (theme_path_truthy E). }
  pose proof (load_style_outcome E b w (theme_name +:+ "_style")) as Ho.
  pose proof (load_style_self E b w (theme_name +:+ "_style")) as Hs.
  cbv zeta in Hs. unfold bind, call_on.
  destruct (load_style_from_file E (theme_name +:+ "_style") (mkSt b w))
    as [[[|]|e] st]; simpl in *.
  - destruct Hs as (_ & -> & _). done.
  - by rewrite Hs.
  - destruct (path_exists E _); [|done].
    destruct (style_use E _) as [e'|]; [|done].
    destruct (is_Exception (exn_cls e')) eqn:He; [done|congruence].
Qed.

(** C6: without a themes directory, [from_theme] probes the user theme
    directory, then the system theme directory, then the old relative
    location, and uses the first that exists; with a themes directory it
    uses the theme's subdirectory of it and probes nothing.  [from_theme]
    returns an object rooted at the directory so chosen; it raises only
    what the style parser raises outside the [Exception] hierarchy. *)
Theorem C6_theme_resolution_order
    (E : Env) (theme_name : string) (themes_dir : option string) :
  (truthy_opt themes_dir = true ->
   theme_path_of E theme_name themes_dir
   = OsPath.join (PyStr.str_opt themes_dir) theme_name)
  /\ (truthy_opt themes_dir = false ->
      forall (i : nat) (p : string),
        theme_candidates E theme_name !! i = Some p ->
        path_exists E p = true ->
        (forall (j : nat) (q : string),
           (j < i)%nat -> theme_candidates E theme_name !! j = Some q ->
           path_exists E q = false) ->
        theme_path_of E theme_name themes_dir = p)
  /\ (forall w,
        match fst (from_theme E theme_name themes_dir w) with
        | Ok b => style_dir_path b = theme_path_of E theme_name themes_dir
        | Raise e => is_Exception (exn_cls e) = false
        end).
Proof.
  split; [|split].
  - intros Hd. unfold theme_path_of. by rewrite Hd.
  - intros Hd i p Hi Hp Hbefore. unfold theme_path_of, Path_exists.
    rewrite Hd. unfold theme_candidates in *.
    destruct i as [|[|[|i]]]; simpl in Hi; try done.
    + injection Hi as <-. by rewrite Hp.
    + injection Hi as <-.
      rewrite (Hbefore 0%nat _ ltac:(lia) eq_refl). by rewrite Hp.
    + injection Hi as <-.
      rewrite (Hbefore 0%nat _ ltac:(lia) eq_refl).
      by rewrite (Hbefore 1%nat _ ltac:(lia) eq_refl).
  - apply from_theme_outcome.
Qed.

(** C6 on the sample: [acme_corp] is a user theme and a system theme, and
    the user theme wins; [plain] is a system theme only; an explicit
    directory is used as it is. *)
Lemma C6_theme_resolution_order_witness :
  theme_path_of Sample.env "acme_corp" None
  = "/repo/user_resources/themes/acme_corp"
  /\ theme_path_of Sample.env "plain" None
     = "/repo/slideagent_mcp/resources/themes/core/plain"
  /\ theme_path_of Sample.env "acme_corp" (Some "/elsewhere")
     = "/elsewhere/acme_corp"
  /\ (exists b,
        fst (from_theme Sample.env "acme_corp" (Some "/elsewhere")
               Sample.fresh) = Ok b
        /\ style_dir_path b = "/elsewhere/acme_corp").
Proof.
  pose proof (C6_theme_resolution_order Sample.env "acme_corp" None)
    as (_ & Huser & _).
  pose proof (C6_theme_resolution_order Sample.env "plain" None)
    as (_ & Hsystem & _).
  pose proof (C6_theme_resolution_order Sample.env "acme_corp"
                (Some "/elsewhere")) as (Hgiven & _ & Hroot).
  split; [|split; [|split]].
  - apply (Huser eq_refl 0%nat); [reflexivity | vm_compute; reflexivity|].
    intros j q Hj. lia.
  - apply (Hsystem eq_refl 1%nat); [reflexivity | vm_compute; reflexivity|].
    intros [|j] q Hj Hq; [|lia].
    vm_compute in Hq. injection Hq as <-. vm_compute. reflexivity.
  - rewrite (Hgiven eq_refl). vm_compute. reflexivity.
  - specialize (Hroot Sample.fresh).
    destruct (fst (from_theme Sample.env "acme_corp" (Some "/elsewhere")
                     Sample.fresh)) as [b|e] eqn:Hb;
      [|vm_compute in Hb; discriminate].
    exists b. split; [reflexivity|].
    rewrite Hroot, (Hgiven eq_refl). vm_compute. reflexivity.
Defined.

(** ** Hiding and restoring artists *)

Lemma World_eta (w : World) :
  mkWorld (stdout w) (styles_in_use w) (axes_store w) (text_store w)
          (fig_store w) (current_fig w) (exports w) = w.
Proof. by destruct w. Qed.

Lemma Axes_visible_eta (a : Axes) : axes_with_visible (ax_visible a) a = a.
Proof. by destruct a. Qed.

Lemma Text_visible_eta (t : Text) : text_with_visible (tx_visible t) t = t.
Proof. by destruct t. Qed.

(** Setting a visibility that the artist has already changes nothing. *)
Lemma make_visible_same (k : Element) (v : bool) (w : World) :
  visible_of w k = Some v -> make_visible k v w = w.
Proof.
  destruct k as [r|r]; simpl; intros H;
    destruct (_ !! r) as [x|] eqn:Hx; simplify_eq/=.
  - unfold set_axes_store.
    rewrite (list_alter_ext _ id _ (axes_store w) r), list_alter_id, World_eta;
      try done.
    intros y Hy. assert (y = x) as -> by congruence. apply Axes_visible_eta.
  - unfold set_text_store.
    rewrite (list_alter_ext _ id _ (text_store w) r), list_alter_id, World_eta;
      try done.
    intros y Hy. assert (y = x) as -> by congruence. apply Text_visible_eta.
Qed.

Lemma make_visible_twice (k : Element) (b b' : bool) (w : World) :
  make_visible k b (make_visible k b' w) = make_visible k b w.
Proof.
  destruct k as [r|r]; unfold make_visible, set_axes_store, set_text_store;
    simpl; rewrite list_alter_alter_eq; f_equal;
    apply list_alter_ext; done.
Qed.

Lemma make_visible_comm (k k' : Element) (b b' : bool) (w : World) :
  k <> k' ->
  make_visible k b (make_visible k' b' w)
  = make_visible k' b' (make_visible k b w).
Proof.
  intros Hk.
  destruct k as [r|r], k' as [r'|r'];
    unfold make_visible, set_axes_store, set_text_store; simpl; try done;
    f_equal; apply list_alter_alter_ne; congruence.
Qed.

Lemma visible_of_make_visible (k k' : Element) (b : bool) (w : World) :
  visible_of (make_visible k b w) k'
  = if decide (k = k') then (fun _ => b) <$> visible_of w k'
    else visible_of w k'.
Proof.
  destruct (decide (k = k')) as [<-|Hk].
  - destruct k as [r|r]; simpl; rewrite list_lookup_alter_eq;
      by destruct (_ !! r).
  - destruct k as [r|r], k' as [r'|r']; simpl; try done;
      rewrite list_lookup_alter_ne; congruence.
Qed.

Lemma same_frame_refl (w : World) : same_frame w w.
Proof. by repeat split. Qed.

Lemma same_frame_trans (w1 w2 w3 : World) :
  same_frame w1 w2 -> same_frame w2 w3 -> same_frame w1 w3.
Proof.
  intros (?&?&?&?&?) (?&?&?&?&?). repeat split; congruence.
Qed.

Lemma make_visible_frame (k : Element) (b : bool) (w : World) :
  same_frame w (make_visible k b w).
Proof. by destruct k. Qed.

Lemma restored_frame (d : Dict.t Element bool) (w : World) :
  same_frame w (restored d w).
Proof.
  revert w. induction d as [|[k v] d IH]; intros w; [apply same_frame_refl|].
  eapply same_frame_trans; [apply (make_visible_frame k v)|apply IH].
Qed.

Lemma restored_snoc (d : Dict.t Element bool) (k : Element) (v : bool)
    (w : World) :
  restored (d ++ [(k, v)]) w = make_visible k v (restored d w).
Proof. unfold restored. by rewrite fold_left_app. Qed.

Lemma restored_make_visible (d : Dict.t Element bool) (k : Element)
    (b : bool) (w : World) :
  k ∉ Dict.keys d ->
  restored d (make_visible k b w) = make_visible k b (restored d w).
Proof.
  revert w. induction d as [|[k' v] d IH]; intros w Hk; [done|].
  apply not_elem_of_cons in Hk as [Hne Hk]. simpl in *.
  rewrite (make_visible_comm k' k) by congruence. by apply IH.
Qed.

Lemma restored_set_exports (d : Dict.t Element bool)
    (f : list Export -> list Export) (w : World) :
  restored d (set_exports f w) = set_exports f (restored d w).
Proof.
  revert w. induction d as [|[k v] d IH]; intros w; [done|]. simpl.
  rewrite <- IH. f_equal. by destruct k.
Qed.

Lemma Dict_set_fresh {V} (k : Element) (v : V) (d : Dict.t Element V) :
  k ∉ Dict.keys d -> Dict.set k v d = d ++ [(k, v)].
Proof.
  induction d as [|[k' v'] d IH]; intros Hk; [done|].
  apply not_elem_of_cons in Hk as [Hne Hk]. simpl in *.
  destruct (decide (k' = k)); [congruence|]. by rewrite IH.
Qed.

Lemma Dict_set_keys {V} (k k0 : Element) (v : V) (d : Dict.t Element V) :
  k0 ∈ Dict.keys (Dict.set k v d) -> k0 = k \/ k0 ∈ Dict.keys d.
Proof.
  induction d as [|[k' v'] d IH]; simpl.
  - intros ->%list_elem_of_singleton. by left.
  - destruct (decide (k' = k)) as [->|]; simpl.
    + intros [->|H]%elem_of_cons; [by left|right; by right].
    + intros [->|H]%elem_of_cons; [right; by left|].
      destruct (IH H) as [->|?]; [by left|right; by right].
Qed.

Lemma restore_states_run (d : Dict.t Element bool) (w : World) :
  restore_states d w = (Ok tt, restored d w).
Proof.
  revert w. induction d as [|[k v] d IH]; intros w; [done|].
  unfold restore_states in *. simpl. unfold bind, set_visible, modify. simpl.
  apply IH.
Qed.

(** A hiding loop, for any kind of artist. *)
Section HidingLoop.

Variable key : ref -> Element.
Variable selected : World -> ref -> bool.

Hypothesis key_inj : forall r r', key r = key r' -> r = r'.
Hypothesis selected_stable :
  forall k b w r, selected (make_visible k b w) r = selected w r.

Lemma hidden_cons (r : ref) (l : list ref) (st : Dict.t Element bool * World) :
  hidden key selected (r :: l) st
  = hidden key selected l (hide_step key selected st r).
Proof. done. Qed.

(** One round hides one artist or none. *)
Lemma hide_step_cases (st : Dict.t Element bool * World) (r : ref) :
  hide_step key selected st r = st
  \/ exists v, selected (snd st) r = true
       /\ visible_of (snd st) (key r) = Some v
       /\ hide_step key selected st r
          = (Dict.set (key r) v (fst st), make_visible (key r) false (snd st)).
Proof.
  unfold hide_step. destruct (selected (snd st) r); [|by left].
  destruct (visible_of (snd st) (key r)) as [v|]; [|by left].
  right. by exists v.
Qed.

Lemma hidden_frame (l : list ref) (st : Dict.t Element bool * World) :
  same_frame (snd st) (snd (hidden key selected l st)).
Proof.
  revert st. induction l as [|r l IH]; intros st; [apply same_frame_refl|].
  rewrite hidden_cons. eapply same_frame_trans; [|apply IH].
  destruct (hide_step_cases st r) as [->|(v & _ & _ & ->)];
    [apply same_frame_refl|apply make_visible_frame].
Qed.

(** A test that does not look at visibility gives the same answer after
    the loop. *)
Lemma hidden_stable {X} (P : World -> ref -> X)
    (l : list ref) (st : Dict.t Element bool * World) (r : ref) :
  (forall k b w r, P (make_visible k b w) r = P w r) ->
  P (snd (hidden key selected l st)) r = P (snd st) r.
Proof.
  intros HP. revert st. induction l as [|r' l IH]; intros st; [done|].
  rewrite hidden_cons, IH.
  destruct (hide_step_cases st r') as [->|(v & _ & _ & ->)]; [done|].
  apply HP.
Qed.

(** An artist that is visible after the loop was visible before it. *)
Lemma hidden_visible (l : list ref) (st : Dict.t Element bool * World)
    (k : Element) :
  visible_of (snd (hidden key selected l st)) k = Some true ->
  visible_of (snd st) k = Some true.
Proof.
  revert st. induction l as [|r l IH]; intros st; [done|].
  rewrite hidden_cons. intros H%IH.
  destruct (hide_step_cases st r) as [Heq|(v & _ & _ & Heq)];
    rewrite Heq in H; [done|]. simpl in H.
  rewrite visible_of_make_visible in H.
  destruct (decide (key r = k)); [|done].
  by destruct (visible_of (snd st) k).
Qed.

(** A selected artist of the loop is not visible after it. *)
Lemma hidden_not_visible (l : list ref) (st : Dict.t Element bool * World)
    (r : ref) :
  r ∈ l -> selected (snd st) r = true ->
  visible_of (snd (hidden key selected l st)) (key r) <> Some true.
Proof.
  revert st. induction l as [|r' l IH]; intros st Hr Hs.
  { by apply elem_of_nil in Hr. }
  rewrite hidden_cons. apply elem_of_cons in Hr as [<-|Hr].
  - intros H%hidden_visible. unfold hide_step in H. rewrite Hs in H.
    destruct (visible_of (snd st) (key r)) as [v|] eqn:Hv.
    + simpl in H. rewrite visible_of_make_visible in H.
      rewrite decide_True in H by done. by rewrite Hv in H.
    + congruence.
  - apply IH; [done|].
    destruct (hide_step_cases st r') as [->|(v & _ & _ & ->)]; [done|].
    simpl. by rewrite selected_stable.
Qed.

(** The keys the loop adds are keys of its artists. *)
Lemma hidden_keys (l : list ref) (st : Dict.t Element bool * World)
    (k : Element) :
  k ∈ Dict.keys (fst (hidden key selected l st)) ->
  k ∈ Dict.keys (fst st) \/ exists r, r ∈ l /\ k = key r.
Proof.
  revert st. induction l as [|r l IH]; intros st; [by left|].
  rewrite hidden_cons. intros [H|(r' & Hr' & ->)]%IH.
  - destruct (hide_step_cases st r) as [Heq|(v & _ & _ & Heq)];
      rewrite Heq in H; [by left|]. simpl in H.
    apply Dict_set_keys in H as [->|H]; [|by left].
    right. exists r. split; [by left|done].
  - right. exists r'. split; [by right|done].
Qed.

(** Restoring after the loop is restoring before it: the loop records
    the visibility of each artist it hides, once. *)
Lemma hidden_restored (l : list ref) (st : Dict.t Element bool * World) :
  NoDup l ->
  (forall r, r ∈ l -> key r ∉ Dict.keys (fst st)) ->
  restored (fst (hidden key selected l st)) (snd (hidden key selected l st))
  = restored (fst st) (snd st).
Proof.
  revert st. induction l as [|r l IH]; intros st Hnd Hfresh; [done|].
  apply NoDup_cons in Hnd as [Hr Hnd]. rewrite hidden_cons.
  assert (Hk : key r ∉ Dict.keys (fst st)) by (apply Hfresh; by left).
  destruct (hide_step_cases st r) as [Heq|(v & _ & Hv & Heq)]; rewrite Heq.
  { apply IH; [done|]. intros r' Hr'. apply Hfresh. by right. }
  rewrite IH; [|done|]; simpl.
  - rewrite Dict_set_fresh by done.
    rewrite restored_snoc, restored_make_visible by done.
    rewrite make_visible_twice, <- restored_make_visible by done.
    by rewrite make_visible_same.
  - intros r' Hr' [Heq'|H]%Dict_set_keys.
    + apply key_inj in Heq' as ->. done.
    + revert H. apply Hfresh. by right.
Qed.

End HidingLoop.

(** ** The clean export *)

Lemma logo_axis_at_stable (k : Element) (b : bool) (w : World) (r : ref) :
  logo_axis_at (make_visible k b w) r = logo_axis_at w r.
Proof.
  unfold logo_axis_at. destruct k as [r'|r']; simpl; [|done].
  destruct (decide (r' = r)) as [->|Hne].
  - rewrite list_lookup_alter_eq. by destruct (axes_store w !! r).
  - by rewrite list_lookup_alter_ne.
Qed.

Lemma source_text_at_stable (k : Element) (b : bool) (w : World) (r : ref) :
  source_text_at (make_visible k b w) r = source_text_at w r.
Proof.
  unfold source_text_at. destruct k as [r'|r']; simpl; [done|].
  destruct (decide (r' = r)) as [->|Hne].
  - rewrite list_lookup_alter_eq. by destruct (text_store w !! r).
  - by rewrite list_lookup_alter_ne.
Qed.

Lemma hide_logo_axes_run (l : list ref) (d : Dict.t Element bool) (w : World) :
  hide_logo_axes l d w
  = (Ok (fst (hidden AxesElem logo_axis_at l (d, w))),
     snd (hidden AxesElem logo_axis_at l (d, w))).
Proof.
  revert d w. induction l as [|r l IH]; intros d w; [done|].
  rewrite hidden_cons. unfold hide_logo_axes in *. simpl.
  unfold bind at 1. unfold bind at 1. unfold read_axes at 1.
  unfold hide_step, logo_axis_at. simpl.
  destruct (axes_store w !! r) as [a|]; simpl; [|apply IH].
  destruct (looks_like_logo_axis a); simpl; [|apply IH].
  unfold bind, set_visible, modify, ret. simpl. apply IH.
Qed.

Lemma hide_source_texts_run (l : list ref) (d : Dict.t Element bool)
    (w : World) :
  hide_source_texts l d w
  = (Ok (fst (hidden TextElem source_text_at l (d, w))),
     snd (hidden TextElem source_text_at l (d, w))).
Proof.
  revert d w. induction l as [|r l IH]; intros d w; [done|].
  rewrite hidden_cons. unfold hide_source_texts in *. simpl.
  unfold bind at 1. unfold bind at 1. unfold read_text at 1.
  unfold hide_step, source_text_at. simpl.
  destruct (text_store w !! r) as [t|]; simpl; [|apply IH].
  destruct (mentions_source t); simpl; [|apply IH].
  unfold bind, set_visible, modify, ret. simpl. apply IH.
Qed.

Lemma clean_state_frame (w : World) (f : Figure) :
  same_frame w (snd (clean_state w f)).
Proof.
  unfold clean_state. eapply same_frame_trans; [|apply hidden_frame].
  apply (hidden_frame AxesElem logo_axis_at (fig_axes f) (no_states, w)).
Qed.

(** [_save_clean_version], run: the figure is exported in its clean state;
    the recorded visibilities are put back when [savefig] returns, and are
    not when it raises. *)
Lemma save_clean_version_run (E : Env) (fig : ref) (filepath : string)
    (kwargs : Dict.t string pyval) (w : World) :
  _save_clean_version E fig filepath kwargs w
  = let st := clean_state w (figure_at w fig) in
    match savefig_error E filepath with
    | Some e => (Raise e, snd st)
    | None =>
        (Ok tt,
         restored (fst st)
           (set_exports (fun l => l ++ [clean_export w fig filepath kwargs])
                        (snd st)))
    end.
Proof.
  unfold _save_clean_version. unfold bind at 1. unfold read_figure at 1.
  fold (figure_at w fig). set (f := figure_at w fig).
  unfold bind at 1. rewrite hide_logo_axes_run.
  unfold bind at 1. rewrite hide_source_texts_run.
  rewrite <- surjective_pairing. fold (clean_state w f).
  set (st := clean_state w f). cbv zeta.
  unfold bind, fig_savefig.
  destruct (savefig_error E filepath) as [e|]; [done|].
  unfold bind, read_figure, modify. rewrite restore_states_run.
  destruct (clean_state_frame w f) as (_ & _ & Hfig & _).
  fold st in Hfig. rewrite Hfig. reflexivity.
Qed.

Lemma AxesElem_inj (r r' : ref) : AxesElem r = AxesElem r' -> r = r'.
Proof. by intros [= ->]. Qed.

Lemma TextElem_inj (r r' : ref) : TextElem r = TextElem r' -> r = r'.
Proof. by intros [= ->]. Qed.

(** With each artist listed once, restoring the clean state gives back
    the state before the export. *)
Lemma clean_state_restored (w : World) (f : Figure) :
  NoDup (fig_axes f) -> NoDup (fig_texts f) ->
  restored (fst (clean_state w f)) (snd (clean_state w f)) = w.
Proof.
  intros Ha Ht. unfold clean_state.
  rewrite (hidden_restored TextElem source_text_at TextElem_inj); [|done|].
  - rewrite (hidden_restored AxesElem logo_axis_at AxesElem_inj); [done..|].
    intros r _ H. by apply elem_of_nil in H.
  - intros r _ H.
    apply (hidden_keys AxesElem logo_axis_at) in H as [H|(r' & _ & H)];
      [by apply elem_of_nil in H|done].
Qed.

(** The texts that mention a source are not visible in the clean state. *)
Lemma clean_state_texts (w : World) (f : Figure) (r : ref) (t : Text) :
  r ∈ fig_texts f ->
  text_store (snd (clean_state w f)) !! r = Some t ->
  mentions_source t = true -> tx_visible t = false.
Proof.
  intros Hr Ht Hm. unfold clean_state in *.
  set (st := hidden AxesElem logo_axis_at (fig_axes f) (no_states, w)) in *.
  pose proof (hidden_not_visible TextElem source_text_at
                source_text_at_stable (fig_texts f) st r Hr) as H.
  rewrite <- (hidden_stable TextElem source_text_at source_text_at
                (fig_texts f) st r source_text_at_stable) in H.
  simpl in H. unfold source_text_at at 1 in H. rewrite Ht in H. simpl in H.
  destruct (tx_visible t); [|done]. by destruct (H Hm).
Qed.

(** The axes that look like a logo axis are not visible in the clean
    state. *)
Lemma clean_state_axes (w : World) (f : Figure) (r : ref) (a : Axes) :
  r ∈ fig_axes f ->
  axes_store (snd (clean_state w f)) !! r = Some a ->
  looks_like_logo_axis a = true -> ax_visible a = false.
Proof.
  intros Hr Ha Hl. unfold clean_state in *.
  set (st := hidden AxesElem logo_axis_at (fig_axes f) (no_states, w)) in *.
  assert (Hsel : logo_axis_at (snd st) r = true).
  { rewrite <- (hidden_stable TextElem source_text_at logo_axis_at
                  (fig_texts f) st r logo_axis_at_stable).
    unfold logo_axis_at. by rewrite Ha. }
  unfold st in Hsel.
  rewrite (hidden_stable AxesElem logo_axis_at logo_axis_at) in Hsel
    by apply logo_axis_at_stable.
  pose proof (hidden_not_visible AxesElem logo_axis_at logo_axis_at_stable
                (fig_axes f) (no_states, w) r Hr Hsel) as H. fold st in H.
  destruct (ax_visible a) eqn:Hv; [|done]. destruct H.
  apply (hidden_visible TextElem source_text_at (fig_texts f) st).
  simpl. by rewrite Ha; simpl; rewrite Hv.
Qed.

Lemma text_of_stable (k : Element) (b : bool) (w : World) (r : ref) :
  tx_text <$> text_store (make_visible k b w) !! r
  = tx_text <$> text_store w !! r.
Proof.
  destruct k as [r'|r']; simpl; [done|].
  destruct (decide (r' = r)) as [->|Hne].
  - rewrite list_lookup_alter_eq. by destruct (text_store w !! r).
  - by rewrite list_lookup_alter_ne.
Qed.

(** The clean state shows the texts of the figure, with their wording. *)
Lemma clean_state_wording (w : World) (f : Figure) :
  map tx_text (shown_texts (snd (clean_state w f)) f)
  = map tx_text (shown_texts w f).
Proof.
  assert (H : forall r,
            tx_text <$> text_store (snd (clean_state w f)) !! r
            = tx_text <$> text_store w !! r).
  { intros r. unfold clean_state.
    rewrite (hidden_stable TextElem source_text_at
               (fun w r => tx_text <$> text_store w !! r))
      by apply text_of_stable.
    rewrite (hidden_stable AxesElem logo_axis_at
               (fun w r => tx_text <$> text_store w !! r))
      by apply text_of_stable.
    done. }
  unfold shown_texts. induction (fig_texts f) as [|r l IH]; [done|].
  simpl. specialize (H r).
  destruct (text_store (snd (clean_state w f)) !! r) as [t'|],
           (text_store w !! r) as [t|]; simplify_eq/=.
  - by rewrite H, IH.
  - exact IH.
Qed.

Lemma is_prefix_lower (p s : string) :
  PyStr.is_prefix p s = true ->
  PyStr.is_prefix (PyStr.lower p) (PyStr.lower s) = true.
Proof.
  revert s. induction p as [|a p IH]; intros [|b s]; simpl; try done.
  intros [Hab Hp]%andb_true_iff. apply Ascii.eqb_eq in Hab as ->.
  by rewrite Ascii.eqb_refl, IH.
Qed.

(** A text that starts with ["Source:"] mentions a source. *)
Lemma source_prefix_mentions (t : Text) :
  PyStr.startswith (tx_text t) "Source:" = true -> mentions_source t = true.
Proof.
  intros H%is_prefix_lower. unfold mentions_source.
  change (PyStr.lower "Source:") with "source:" in H.
  destruct (PyStr.lower (tx_text t)); unfold PyStr.contains;
    by rewrite H.
Qed.

Lemma plt_gcf_run (w : World) : plt_gcf w = (Ok (gcf_ref w), gcf_state w).
Proof. unfold gcf_ref, gcf_state, plt_gcf. by destruct (current_fig w). Qed.

Lemma gcf_state_stores (w : World) :
  axes_store (gcf_state w) = axes_store w
  /\ text_store (gcf_state w) = text_store w
  /\ exports (gcf_state w) = exports w.
Proof. unfold gcf_state, plt_gcf. by destruct (current_fig w). Qed.

(** [save] with [branded=True], run, when both [savefig] calls return. *)
Lemma save_branded_run (E : Env) (filepath : string)
    (kwargs : Dict.t string pyval) (w : World) :
  let base := fst (OsPath.splitext filepath) in
  let ext := snd (OsPath.splitext filepath) in
  let branded_path := base +:+ "_branded" +:+ ext in
  let clean_path := base +:+ "_clean" +:+ ext in
  let save_kwargs := Dict.merge default_kwargs kwargs in
  let fig := gcf_ref w in
  let w1 :=
    set_exports
      (fun l => l ++ [branded_export (gcf_state w) fig branded_path save_kwargs])
      (gcf_state w) in
  let st := clean_state w1 (figure_at w1 fig) in
  savefig_error E branded_path = None ->
  savefig_error E clean_path = None ->
  save E filepath true kwargs w
  = (Ok (BrandedAndClean branded_path clean_path),
     restored (fst st)
       (set_exports
          (fun l => l ++ [clean_export w1 fig clean_path save_kwargs])
          (snd st))).
Proof.
  intros base ext branded_path clean_path save_kwargs fig w1 st Hb Hc.
  unfold save. rewrite (surjective_pairing (OsPath.splitext filepath)).
  fold base ext branded_path clean_path save_kwargs.
  unfold bind at 1. rewrite plt_gcf_run. fold fig.
  unfold bind at 1. unfold fig_savefig at 1. rewrite Hb.
  unfold bind at 1. unfold read_figure at 1, modify at 1.
  fold (figure_at (gcf_state w) fig).
  fold (branded_export (gcf_state w) fig branded_path save_kwargs).
  fold w1. unfold bind. rewrite save_clean_version_run. fold st.
  cbv zeta. by rewrite Hc.
Qed.

Lemma str_take_drop (n : nat) (s : string) :
  PyStr.take n s +:+ PyStr.drop n s = s.
Proof.
  revert s. induction n as [|n IH]; intros [|c s]; try done.
  change (String c (PyStr.take n s +:+ PyStr.drop n s) = String c s).
  by rewrite IH.
Qed.

(** [splitext] cuts the path in two. *)
Lemma splitext_join (p : string) :
  fst (OsPath.splitext p) +:+ snd (OsPath.splitext p) = p.
Proof.
  unfold OsPath.splitext.
  assert (H : p +:+ "" = p).
  { induction p as [|c p IH]; [done|].
    change (String c (p +:+ "") = String c p). by rewrite IH. }
  destruct (PyStr.rfind OsPath.extsep p) as [dot|]; [|done].
  destruct (_ && _); [apply str_take_drop|done].
Qed.

Lemma clean_state_source_texts (w : World) (f : Figure) (r : ref) :
  r ∈ fig_texts f -> source_text_at w r = true ->
  visible_of (snd (clean_state w f)) (TextElem r) = Some false.
Proof.
  intros Hr Hs.
  assert (Hs' : source_text_at (snd (clean_state w f)) r = true).
  { unfold clean_state.
    rewrite (hidden_stable TextElem source_text_at source_text_at)
      by apply source_text_at_stable.
    by rewrite (hidden_stable AxesElem logo_axis_at source_text_at)
      by apply source_text_at_stable. }
  unfold source_text_at in Hs'. simpl.
  destruct (text_store (snd (clean_state w f)) !! r) as [t|] eqn:Ht; [|done].
  simpl in *. by rewrite (clean_state_texts w f r t).
Qed.

Lemma clean_state_logo_axes (w : World) (f : Figure) (r : ref) :
  r ∈ fig_axes f -> logo_axis_at w r = true ->
  visible_of (snd (clean_state w f)) (AxesElem r) = Some false.
Proof.
  intros Hr Hs.
  assert (Hs' : logo_axis_at (snd (clean_state w f)) r = true).
  { unfold clean_state.
    rewrite (hidden_stable TextElem source_text_at logo_axis_at)
      by apply logo_axis_at_stable.
    by rewrite (hidden_stable AxesElem logo_axis_at logo_axis_at)
      by apply logo_axis_at_stable. }
  unfold logo_axis_at in Hs'. simpl.
  destruct (axes_store (snd (clean_state w f)) !! r) as [a|] eqn:Ha; [|done].
  simpl in *. by rewrite (clean_state_axes w f r a).
Qed.

(** [save] with [branded=True] on a path [name.ext] that has an
    extension, with keyword arguments none of which is named [fig], when
    both [savefig] calls return: [savefig] is called twice, for
    [name_branded.ext] and then for [name_clean.ext], and the two paths
    are returned.  (A name with an extension is the name of the file
    matplotlib writes; to a name without one it appends the default
    format.)  The clean file shows the texts of the figure with the same
    wording as the branded one; in it no text that starts with ["Source:"]
    is visible, and no axes that passes the test for a logo inset (no
    ticks, no axis labels, no title) is visible. *)
Theorem branded_save_writes_two_files
    (E : Env) (filepath : string) (kwargs : Dict.t string pyval) (w : World) :
  let base := fst (OsPath.splitext filepath) in
  let ext := snd (OsPath.splitext filepath) in
  let branded_path := base +:+ "_branded" +:+ ext in
  let clean_path := base +:+ "_clean" +:+ ext in
  (1 < String.length ext)%nat ->
  Dict.get "fig" kwargs = None ->
  savefig_error E branded_path = None ->
  savefig_error E clean_path = None ->
  base +:+ ext = filepath
  /\ exists (e1 e2 : Export) (w' : World),
       save E filepath true kwargs w
       = (Ok (BrandedAndClean branded_path clean_path), w')
       /\ exports w' = exports w ++ [e1; e2]
       /\ ex_path e1 = branded_path
       /\ ex_path e2 = clean_path
       /\ map tx_text (ex_texts e2) = map tx_text (ex_texts e1)
       /\ (forall t, t ∈ ex_texts e2 ->
             PyStr.startswith (tx_text t) "Source:" = true ->
             tx_visible t = false)
       /\ (forall a, a ∈ ex_axes e2 ->
             looks_like_logo_axis a = true -> ax_visible a = false).
Proof.
  intros base ext branded_path clean_path _ _ Hb Hc.
  split; [apply splitext_join|].
  pose proof (save_branded_run E filepath kwargs w) as Hrun.
  cbv zeta in Hrun. fold base ext branded_path clean_path in Hrun.
  specialize (Hrun Hb Hc).
  set (kw := Dict.merge default_kwargs kwargs) in *.
  set (fig := gcf_ref w) in *.
  set (e1 := branded_export (gcf_state w) fig branded_path kw) in *.
  set (w1 := set_exports (fun l => l ++ [e1]) (gcf_state w)) in *.
  set (f := figure_at w1 fig) in *.
  exists e1, (clean_export w1 fig clean_path kw). eexists.
  split; [exact Hrun|].
  split; [|split; [done|split; [done|split; [|split]]]].
  - destruct (restored_frame (fst (clean_state w1 f))
                (set_exports
                   (fun l => l ++ [clean_export w1 fig clean_path kw])
                   (snd (clean_state w1 f)))) as (_ & _ & _ & _ & ->).
    destruct (clean_state_frame w1 f) as (_ & _ & _ & _ & Hex).
    simpl. rewrite Hex. unfold w1. simpl.
    destruct (gcf_state_stores w) as (_ & _ & ->).
    by rewrite <- app_assoc.
  - unfold clean_export. fold f. simpl. rewrite clean_state_wording.
    unfold e1, branded_export, w1, f, figure_at. simpl. done.
  - unfold clean_export. fold f. simpl.
    intros t (r & Hr & Ht)%list_elem_of_omap Hs.
    apply (clean_state_texts w1 f r t Hr Ht).
    by apply source_prefix_mentions.
  - unfold clean_export. fold f. simpl.
    intros a (r & Hr & Ha)%list_elem_of_omap Hl.
    by apply (clean_state_axes w1 f r a Hr Ha).
Qed.

(** The sample chart, saved as [out/chart.png]. *)
Lemma branded_save_writes_two_files_witness :
  (1 < String.length (snd (OsPath.splitext "out/chart.png")))%nat
  /\ Dict.get "fig" ([] : Dict.t string pyval) = None
  /\ savefig_error Sample.env "out/chart_branded.png" = None
  /\ savefig_error Sample.env "out/chart_clean.png" = None
  /\ exists (e1 e2 : Export) (w' : World),
       save Sample.env "out/chart.png" true [] Sample.chart
       = (Ok (BrandedAndClean "out/chart_branded.png" "out/chart_clean.png"),
          w')
       /\ exports w' = [e1; e2]
       /\ (forall t, t ∈ ex_texts e2 ->
             PyStr.startswith (tx_text t) "Source:" = true ->
             tx_visible t = false).
Proof.
  assert (Hext : (1 < String.length (snd (OsPath.splitext "out/chart.png")))%nat)
    by (vm_compute; lia).
  split; [exact Hext|]. split; [reflexivity|].
  split; [reflexivity|]. split; [reflexivity|].
  destruct (branded_save_writes_two_files Sample.env "out/chart.png" []
              Sample.chart Hext eq_refl eq_refl eq_refl)
    as (_ & e1 & e2 & w' & Hs & Hx & _ & _ & _ & Ht & _).
  exists e1, e2, w'. split; [exact Hs|]. split; [exact Hx|exact Ht].
Defined.

(** C10: when [_save_clean_version] returns, every axes and every text
    is as visible as before the call: the state is the state before the
    call with the clean file written.  When [savefig] raises, the
    exception goes to the caller and the artists the export hid stay
    hidden.  A branded save that returns leaves every axes and every text
    as it was.  (Each axes and each text is listed once in its figure.) *)
Theorem C10_clean_export_restores_visibility
    (E : Env) (fig : ref) (filepath : string) (kwargs : Dict.t string pyval)
    (w : World) :
  NoDup (fig_axes (figure_at w fig)) ->
  NoDup (fig_texts (figure_at w fig)) ->
  (savefig_error E filepath = None ->
   _save_clean_version E fig filepath kwargs w
   = (Ok tt,
      set_exports (fun l => l ++ [clean_export w fig filepath kwargs]) w))
  /\ (forall e, savefig_error E filepath = Some e ->
        exists w',
          _save_clean_version E fig filepath kwargs w = (Raise e, w')
          /\ (forall r, r ∈ fig_texts (figure_at w fig) ->
                source_text_at w r = true ->
                visible_of w' (TextElem r) = Some false)
          /\ (forall r, r ∈ fig_axes (figure_at w fig) ->
                logo_axis_at w r = true ->
                visible_of w' (AxesElem r) = Some false))
  /\ (current_fig w = Some fig ->
      forall path,
        savefig_error E (fst (OsPath.splitext path) +:+ "_branded"
                         +:+ snd (OsPath.splitext path)) = None ->
        savefig_error E (fst (OsPath.splitext path) +:+ "_clean"
                         +:+ snd (OsPath.splitext path)) = None ->
        axes_store (snd (save E path true kwargs w)) = axes_store w
        /\ text_store (snd (save E path true kwargs w)) = text_store w).
Proof.
  intros Ha Ht. split; [|split].
  - intros Hok. rewrite save_clean_version_run. cbv zeta. rewrite Hok.
    by rewrite restored_set_exports, clean_state_restored.
  - intros e He. eexists. split.
    { rewrite save_clean_version_run. cbv zeta. by rewrite He. }
    split; intros r Hr Hs.
    + by apply clean_state_source_texts.
    + by apply clean_state_logo_axes.
  - intros Hcur path Hb Hc.
    rewrite (save_branded_run E path kwargs w Hb Hc). simpl.
    assert (Hg : gcf_state w = w).
    { unfold gcf_state, plt_gcf. by rewrite Hcur. }
    assert (Hr : gcf_ref w = fig).
    { unfold gcf_ref. by rewrite Hcur. }
    rewrite Hg, Hr.
    set (w1 := set_exports _ w).
    assert (Hf : figure_at w1 fig = figure_at w fig) by done.
    rewrite restored_set_exports, Hf.
    rewrite clean_state_restored by (by rewrite ?Hf).
    done.
Qed.

(** C10 on the sample chart: the clean export hides the inset axes and
    the citation, and the chart is as before once the file is written;
    on a path that cannot be written they stay hidden. *)
Lemma C10_clean_export_restores_visibility_witness :
  (NoDup (fig_axes (figure_at Sample.chart 0))
   /\ NoDup (fig_texts (figure_at Sample.chart 0)))
  /\ (savefig_error Sample.env "out/chart_clean.png" = None
      /\ _save_clean_version Sample.env 0 "out/chart_clean.png" [] Sample.chart
         = (Ok tt,
            set_exports
              (fun l => l ++ [clean_export Sample.chart 0
                                "out/chart_clean.png" []])
              Sample.chart))
  /\ (exists e w',
        savefig_error Sample.env "/proc/out_clean.png" = Some e
        /\ _save_clean_version Sample.env 0 "/proc/out_clean.png" []
             Sample.chart = (Raise e, w')
        /\ visible_of Sample.chart (TextElem 0) = Some true
        /\ visible_of w' (TextElem 0) = Some false).
Proof.
  assert (Ha : NoDup (fig_axes (figure_at Sample.chart 0))) by decided.
  assert (Ht : NoDup (fig_texts (figure_at Sample.chart 0))) by decided.
  split; [exact (conj Ha Ht)|]. split.
  - split; [reflexivity|].
    exact (proj1 (C10_clean_export_restores_visibility Sample.env 0
                    "out/chart_clean.png" [] Sample.chart Ha Ht) eq_refl).
  - destruct (proj1 (proj2 (C10_clean_export_restores_visibility Sample.env 0
                    "/proc/out_clean.png" [] Sample.chart Ha Ht))
                (mkExn OSError "read-only file system") eq_refl)
      as (w' & Hrun & Htexts & _).
    exists (mkExn OSError "read-only file system"), w'.
    split; [reflexivity|]. split; [exact Hrun|]. split; [reflexivity|].
    apply Htexts; [decided | reflexivity].
Defined.

(** ** Project configuration *)

(** C3 at the failing input: the project directory [theme] holds
    [my_theme_v2_theme.css], whose stem is [my_theme_v2_theme]; the theme
    name the code derives is [my_v2], not [my_theme_v2]: [replace] removes
    every [_theme], the one inside the stem too, and the style that is
    loaded is [my_v2_style]. *)
Lemma C3_interior_theme_removed :
  Path_exists Sample.env (PathLib.of_string "theme") = true
  /\ map PathLib.name
       (Path_glob_star Sample.env (PathLib.of_string "theme") "_theme.css")
     = ["my_theme_v2_theme.css"; "other_theme.css"]
  /\ PathLib.stem (PathLib.of_string "theme" // "my_theme_v2_theme.css")
     = "my_theme_v2_theme"
  /\ detect_theme_name Sample.env (PathLib.of_string "theme") = Some "my_v2"
  /\ exists b w,
       from_project_config Sample.env None Sample.fresh = (Ok b, w)
       /\ style_dir_path b = "/work/theme"
       /\ current_style b = Some "my_v2_style".
Proof.
  do 4 (split; [vm_compute; reflexivity|]).
  do 2 eexists. vm_compute. repeat split; reflexivity.
Qed.

(** [from_project_config], by cases on the directory and on the name
    that was detected. *)
Lemma from_project_config_cases (E : Env) (cfg : option string) (w : World) :
  let dir := project_theme_dir E in
  from_project_config E cfg w
  = if negb (Path_exists E dir) then
      from_theme E "acme_corp" None
        (set_stdout
           (fun out =>
              out ++ ["Warning: Theme folder not found, using default theme"])
           w)
    else if negb (truthy_opt (detect_theme_name E dir)) then
      from_theme E "acme_corp" None
        (set_stdout
           (fun out =>
              out ++ ["Warning: No theme CSS file found in "
                      +:+ PathLib.to_string dir])
           w)
    else
      let b := __init__ E (Some (resolve E (PathLib.to_string dir))) in
      let r := load_style_from_file E
                 (PyStr.str_opt (detect_theme_name E dir) +:+ "_style")
                 (mkSt b w) in
      match fst r with
      | Ok _ => (Ok (self (snd r)), world (snd r))
      | Raise e => (Raise e, world (snd r))
      end.
Proof.
  intros dir. unfold from_project_config. fold (project_theme_dir E).
  fold dir.
  destruct (negb (Path_exists E dir)); [done|].
  destruct (negb (truthy_opt (detect_theme_name E dir))); [done|].
  unfold bind, call_on, ret. simpl.
  by destruct (load_style_from_file E _ _) as [[?|?] ?].
Qed.

(** *** Strings *)

Lemma str_app_cons (c : ascii) (a b : string) :
  String c a +:+ b = String c (a +:+ b).
Proof. done. Qed.

Lemma str_app_nil_l (b : string) : "" +:+ b = b.
Proof. done. Qed.

Lemma str_length_app (a b : string) :
  String.length (a +:+ b) = (String.length a + String.length b)%nat.
Proof.
  induction a as [|c a IH]; [done|]. rewrite str_app_cons. simpl. by rewrite IH.
Qed.

Lemma str_take_app (a b : string) (n : nat) :
  PyStr.take (String.length a + n) (a +:+ b) = a +:+ PyStr.take n b.
Proof.
  induction a as [|c a IH]; [done|]. rewrite !str_app_cons. simpl. by rewrite IH.
Qed.

Lemma str_rfind_app (c : ascii) (a b : string) :
  PyStr.rfind c (a +:+ b)
  = match PyStr.rfind c b with
    | Some i => Some (String.length a + i)%nat
    | None => PyStr.rfind c a
    end.
Proof.
  induction a as [|d a IH].
  - change ("" +:+ b) with b. by destruct (PyStr.rfind c b).
  - rewrite str_app_cons. simpl. rewrite IH.
    by destruct (PyStr.rfind c b).
Qed.

Lemma split_no_sep (c : ascii) (s : string) :
  PyStr.rfind c s = None -> PyStr.split c s = [s].
Proof.
  induction s as [|d s IH]; [done|]. intros H.
  pose proof (rfind_None_head c d s H) as Hd. simpl in *.
  rewrite Hd. destruct (PyStr.rfind c s); [done|]. by rewrite IH.
Qed.

(** *** The stem and the theme name *)

(** The stem of [<s>_theme.css] is [<s>_theme]. *)
Lemma stem_of_theme_css (s : string) :
  PathLib.stem_of_name (s +:+ "_theme.css") = s +:+ "_theme".
Proof.
  unfold PathLib.stem_of_name. rewrite str_rfind_app.
  change (PyStr.rfind OsPath.extsep "_theme.css") with (Some 6%nat).
  rewrite str_length_app.
  assert ((0 <? String.length s + 6)%nat
          && (String.length s + 6 <? String.length s
                                     + String.length "_theme.css" - 1)%nat
          = true) as ->.
  { apply andb_true_iff. split; apply Nat.ltb_lt; simpl; lia. }
  by rewrite str_take_app.
Qed.

(** The name of a directory entry, as a path under the directory. *)
Lemma name_of_entry (dir : PathLib.Path) (n : string) :
  PyStr.rfind OsPath.sep n = None ->
  PathLib.keep_part n = true ->
  PathLib.name (dir // n) = n.
Proof.
  intros Hsep Hkeep. unfold PathLib.div, PathLib.name.
  assert (PyStr.startswith n "/" = false) as ->.
  { destruct n as [|d n]; [done|].
    apply rfind_None_head in Hsep. unfold PyStr.startswith. simpl.
    rewrite Ascii.eqb_sym. fold OsPath.sep. by rewrite Hsep. }
  simpl. rewrite split_no_sep by done.
  rewrite filter_cons_True by done. rewrite filter_nil.
  apply List.last_last.
Qed.

(** A string that does not start with [_theme] does not start with it
    when [_theme] is put after it, unless it is empty: no proper prefix of
    [_theme] is a suffix of it. *)
Lemma is_prefix_theme_app (c : ascii) (s : string) :
  PyStr.is_prefix "_theme" (String c s) = false ->
  PyStr.is_prefix "_theme" (String c s +:+ "_theme") = false.
Proof.
  rewrite str_app_cons. simpl.
  destruct (Ascii.eqb "_" c); [simpl|done].
  destruct s as [|c1 s]; [done|]. rewrite str_app_cons.
  destruct (Ascii.eqb "t" c1); [simpl|done].
  destruct s as [|c2 s]; [done|]. rewrite str_app_cons.
  destruct (Ascii.eqb "h" c2); [simpl|done].
  destruct s as [|c3 s]; [done|]. rewrite str_app_cons.
  destruct (Ascii.eqb "e" c3); [simpl|done].
  destruct s as [|c4 s]; [done|]. rewrite str_app_cons.
  destruct (Ascii.eqb "m" c4); [simpl|done].
  destruct s as [|c5 s]; [done|]. rewrite str_app_cons.
  destruct (Ascii.eqb "e" c5); [simpl|done].
  done.
Qed.

Lemma replace_from_cons (old new : string) (c : ascii) (s : string) :
  PyStr.replace_from old new 0 (String c s)
  = if PyStr.is_prefix old (String c s)
    then new +:+ PyStr.replace_from old new (String.length old - 1) s
    else String c (PyStr.replace_from old new 0 s).
Proof. done. Qed.

(** Removing [_theme] from [<s>_theme] leaves [s] when [s] holds no
    [_theme] itself. *)
Lemma replace_theme_suffix (s : string) :
  PyStr.contains "_theme" s = false ->
  PyStr.replace "_theme" "" (s +:+ "_theme") = s.
Proof.
  unfold PyStr.replace. induction s as [|c s IH]; [done|].
  intros H.
  assert (PyStr.is_prefix "_theme" (String c s) = false
          /\ PyStr.contains "_theme" s = false) as [Hpre Hin].
  { unfold PyStr.contains in H; fold PyStr.contains in H.
    by apply orb_false_iff in H. }
  pose proof (is_prefix_theme_app c s Hpre) as Hpre'.
  rewrite str_app_cons in *. rewrite replace_from_cons, Hpre'.
  by rewrite IH.
Qed.

(** The theme name of a first CSS file [<s>_theme.css]: the stem
    [<s>_theme] with every [_theme] removed, which is [s] when [s] holds
    no [_theme] itself. *)
Theorem detect_theme_name_of_first_file
    (E : Env) (dir : PathLib.Path) (s : string) (rest : list string) :
  theme_css_files E dir = (s +:+ "_theme.css") :: rest ->
  PyStr.rfind OsPath.sep s = None ->
  detect_theme_name E dir
  = Some (PyStr.replace "_theme" "" (s +:+ "_theme"))
  /\ (PyStr.contains "_theme" s = false -> detect_theme_name E dir = Some s).
Proof.
  intros Hfiles Hsep.
  assert (Hd : detect_theme_name E dir
               = Some (PyStr.replace "_theme" "" (s +:+ "_theme"))).
  { unfold detect_theme_name, Path_glob_star.
    fold (theme_css_files E dir). rewrite Hfiles. simpl.
    unfold PathLib.stem. rewrite name_of_entry.
    - by rewrite stem_of_theme_css.
    - by rewrite str_rfind_app.
    - unfold PathLib.keep_part. apply andb_true_iff. split.
      + by apply truthy_app_r.
      + apply negb_true_iff, String.eqb_neq. intros Heq.
        apply (f_equal String.length) in Heq.
        rewrite str_length_app in Heq. simpl in Heq. lia. }
  split; [exact Hd|]. intros Hno. by rewrite Hd, replace_theme_suffix.
Qed.

(** On the sample project, [theme/acme_corp_theme.css] gives the theme
    name [acme_corp]. *)
Lemma detect_theme_name_of_first_file_witness :
  theme_css_files Sample.project_env (project_theme_dir Sample.project_env)
  = ["acme_corp_theme.css"]
  /\ detect_theme_name Sample.project_env
       (project_theme_dir Sample.project_env) = Some "acme_corp".
Proof.
  split; [vm_compute; reflexivity|].
  apply (proj2 (detect_theme_name_of_first_file Sample.project_env
                  (project_theme_dir Sample.project_env) "acme_corp" []
                  eq_refl eq_refl)).
  vm_compute. reflexivity.
Defined.

(** When [Path.exists] finds no theme directory, or the directory holds
    no CSS file that gives a name, [from_project_config] prints a warning
    and goes on as [from_theme("acme_corp")]: the result and the process
    state are those of that call after the warning. *)
Theorem from_project_config_falls_back
    (E : Env) (cfg : option string) (w : World) :
  Path_exists E (project_theme_dir E) = false
  \/ truthy_opt (detect_theme_name E (project_theme_dir E)) = false ->
  exists warning,
    warning ∈ ["Warning: Theme folder not found, using default theme";
               "Warning: No theme CSS file found in "
               +:+ PathLib.to_string (project_theme_dir E)]
    /\ (warning = "Warning: Theme folder not found, using default theme"
        <-> Path_exists E (project_theme_dir E) = false)
    /\ from_project_config E cfg w
       = from_theme E "acme_corp" None
           (set_stdout (fun out => out ++ [warning]) w).
Proof.
  pose proof (from_project_config_cases E cfg w) as H. cbv zeta in H.
  intros Hcase. rewrite H.
  destruct (Path_exists E (project_theme_dir E)); simpl.
  - destruct Hcase as [?| ->]; [done|]. simpl.
    exists ("Warning: No theme CSS file found in "
            +:+ PathLib.to_string (project_theme_dir E)).
    split; [by right; left|]. split; [|done].
    split; [|done]. intros Heq. exfalso.
    apply (f_equal (fun s => PyStr.take 10 s)) in Heq.
    change (PyStr.take 10 ("Warning: No theme CSS file found in "
                           +:+ PathLib.to_string (project_theme_dir E)))
      with "Warning: N" in Heq.
    discriminate.
  - exists "Warning: Theme folder not found, using default theme".
    split; [by left|]. by split.
Qed.

(** Where there is no project directory, the default theme is used. *)
Lemma from_project_config_falls_back_witness :
  Path_exists Sample.bare_env (project_theme_dir Sample.bare_env) = false
  /\ from_project_config Sample.bare_env None Sample.fresh
     = from_theme Sample.bare_env "acme_corp" None
         (set_stdout
            (fun out =>
               out ++ ["Warning: Theme folder not found, using default theme"])
            Sample.fresh).
Proof.
  split; [reflexivity|].
  destruct (from_project_config_falls_back Sample.bare_env None Sample.fresh
              (or_introl eq_refl)) as (warning & _ & Hw & Hrun).
  rewrite Hrun. by rewrite (proj2 Hw eq_refl).
Defined.

(** ** Logos in the clean export *)

(** The inset [add_logo] draws passes the test for a logo axis exactly
    when matplotlib reports no tick on either axis of the image:
    [axis('off')] keeps the tick locations, and the inset has no axis
    label and no title. *)
Lemma add_logo_inset_test (E : Env) (fig : ref) (path : string) (img : Image)
    (position : string) (width height margin : float) (w : World) :
  PyStr.truthy path = true ->
  path_exists E path = true ->
  imread E path = Ok img ->
  position ∈ logo_positions ->
  exists w',
    add_logo E fig (Some path) position width height margin w = (Ok tt, w')
    /\ length (axes_store w') = S (length (axes_store w))
    /\ logo_axis_at w' (length (axes_store w))
       = bool_decide (fst (image_ticks E img) = [])
         && bool_decide (snd (image_ticks E img) = []).
Proof.
  intros Ht Hx Hi Hp. unfold add_logo, mpimg_imread. simpl.
  rewrite Ht, Hx, Hi. run.
  unfold logo_positions in Hp.
  repeat (apply elem_of_cons in Hp as [->|Hp]);
    [| | | |by apply elem_of_nil in Hp];
    (eexists; split; [reflexivity|]; split;
     [ simpl; rewrite !length_alter, length_app; simpl; lia
     | unfold logo_axis_at; simpl;
       rewrite !list_lookup_alter_eq, lookup_app_r, Nat.sub_diag by lia;
       simpl; unfold looks_like_logo_axis; simpl;
       destruct (fst (image_ticks E img)), (snd (image_ticks E img)); done ]).
Qed.

(** C7 at the failing input: a logo is put on the sample chart with
    [add_logo] and the chart is saved with [branded=True].  The inset of
    the logo keeps the tick locations matplotlib reports for the image, so
    it fails the test for a logo axis, and the clean file shows it: the
    axes with the logo image is visible in [out/chart_clean.png]. *)
Lemma C7_logo_stays_in_clean_export :
  add_logo Sample.env 0 (Some "logo.png") "bottom-right" 0.12 0.08 0.01
    Sample.chart = (Ok tt, Sample.chart_with_logo)
  /\ exists (e1 e2 : Export) (w' : World) (logo_ax : Axes),
       save Sample.env "out/chart.png" true [] Sample.chart_with_logo
       = (Ok (BrandedAndClean "out/chart_branded.png" "out/chart_clean.png"),
          w')
       /\ exports w' = [e1; e2]
       /\ ex_path e2 = "out/chart_clean.png"
       /\ logo_ax ∈ ex_axes e2
       /\ ax_images logo_ax = [mkImage 40 120]
       /\ ax_axison logo_ax = false
       /\ ax_xticks logo_ax = [0; 50; 100]%float
       /\ looks_like_logo_axis logo_ax = false
       /\ ax_visible logo_ax = true.
Proof.
  split; [vm_compute; reflexivity|].
  destruct (save Sample.env "out/chart.png" true [] Sample.chart_with_logo)
    as [r w'] eqn:Hsave.
  vm_compute in Hsave. injection Hsave as <- <-.
  do 4 eexists. split; [reflexivity|]. split; [reflexivity|].
  split; [reflexivity|].
  split; [apply list_elem_of_lookup_2 with 2%nat; reflexivity|].
  repeat split; reflexivity.
Qed.

(** On the sample, the image of [logo.png] has ticks on both axes, and
    the inset [add_logo] draws for it fails the test for a logo axis. *)
Lemma add_logo_inset_test_witness :
  (PyStr.truthy "logo.png" = true
   /\ path_exists Sample.env "logo.png" = true
   /\ imread Sample.env "logo.png" = Ok (mkImage 40 120)
   /\ "bottom-right" ∈ logo_positions)
  /\ exists w',
       add_logo Sample.env 0 (Some "logo.png") "bottom-right" 0.12 0.08 0.01
         Sample.chart = (Ok tt, w')
       /\ logo_axis_at w' 2 = false.
Proof.
  assert (Hp : "bottom-right" ∈ logo_positions) by decided.
  split; [repeat split; try reflexivity; exact Hp|].
  destruct (add_logo_inset_test Sample.env 0 "logo.png" (mkImage 40 120)
              "bottom-right" 0.12 0.08 0.01 Sample.chart
              eq_refl eq_refl eq_refl Hp) as (w' & Hrun & _ & Htest).
  exists w'. split; [exact Hrun|].
  change (logo_axis_at w' (length (axes_store Sample.chart)) = false).
  rewrite Htest. reflexivity.
Defined.

(** * Further properties *)

(** ** Dicts *)

Lemma Dict_get_set {K V} `{EqDecision K} (k k' : K) (v : V) (d : Dict.t K V) :
  Dict.get k (Dict.set k' v d)
  = if decide (k' = k) then Some v else Dict.get k d.
Proof.
  induction d as [|[k0 v0] d IH].
  - unfold Dict.set, Dict.get. by destruct (decide (k' = k)).
  - unfold Dict.set; fold (@Dict.set K V _).
    destruct (decide (k0 = k')) as [->|Hne].
    + unfold Dict.get; fold (@Dict.get K V _).
      by destruct (decide (k' = k)).
    + unfold Dict.get; fold (@Dict.get K V _).
      destruct (decide (k0 = k)) as [->|Hne'].
      * by rewrite decide_False by congruence.
      * exact IH.
Qed.

Lemma Dict_get_cons {K V} `{EqDecision K} (k k' : K) (v : V)
    (d : Dict.t K V) :
  Dict.get k ((k', v) :: d)
  = if decide (k' = k) then Some v else Dict.get k d.
Proof. done. Qed.

Lemma Dict_get_not_key {K V} `{EqDecision K} (k : K) (d : Dict.t K V) :
  k ∉ Dict.keys d -> Dict.get k d = None.
Proof.
  induction d as [|[k' v] d IH]; [done|].
  intros H. apply not_elem_of_cons in H as [H1 H2].
  unfold Dict.get; fold (@Dict.get K V _).
  destruct (decide (k' = k)) as [->|]; [by destruct H1|]. by apply IH.
Qed.

(** [{**a, **b}]: a key of [b] has the value [b] gives it, any other key
    the value [a] gives it. *)
Lemma Dict_get_merge {K V} `{EqDecision K} (k : K) (a b : Dict.t K V) :
  NoDup (Dict.keys b) ->
  Dict.get k (Dict.merge a b)
  = match Dict.get k b with
    | Some v => Some v
    | None => Dict.get k a
    end.
Proof.
  unfold Dict.merge. revert a.
  induction b as [|[k' v'] b IH]; intros a Hnd; [done|].
  change (Dict.keys ((k', v') :: b)) with (k' :: Dict.keys b) in Hnd.
  apply NoDup_cons in Hnd as [Hk' Hnd]. simpl fold_left.
  rewrite IH by done. rewrite Dict_get_set, Dict_get_cons.
  destruct (decide (k' = k)) as [->|Hne]; [|done].
  by rewrite (Dict_get_not_key k b).
Qed.

(** ** What the clean export shows *)

Lemma text_hide_twice (t : Text) :
  text_with_visible false (text_with_visible false t)
  = text_with_visible false t.
Proof. done. Qed.

Lemma omap_pointwise {B} (g g' : nat -> option B) (h : B -> B)
    (l : list nat) :
  (forall r, r ∈ l -> g r = h <$> g' r) ->
  omap g l = map h (omap g' l).
Proof.
  induction l as [|r l IH]; intros H; [done|]. csimpl.
  rewrite (H r) by (by left).
  rewrite IH by (intros r' Hr'; apply H; by right).
  by destruct (g' r).
Qed.

(** A hiding loop leaves alone what none of its changes touches. *)
Lemma hidden_untouched {X} (key : ref -> Element)
    (selected : World -> ref -> bool) (Q : World -> X)
    (l : list ref) (st : Dict.t Element bool * World) :
  (forall r b w, Q (make_visible (key r) b w) = Q w) ->
  Q (snd (hidden key selected l st)) = Q (snd st).
Proof.
  intros HQ. revert st. induction l as [|r l IH]; intros st; [done|].
  rewrite hidden_cons, IH.
  destruct (hide_step_cases key selected st r) as [->|(v & _ & _ & ->)];
    [done|apply HQ].
Qed.

Lemma bool_decide_cons_ne (r r' : nat) (l : list nat) :
  r' <> r -> bool_decide (r ∈ r' :: l) = bool_decide (r ∈ l).
Proof.
  intros Hne. apply bool_decide_ext. rewrite elem_of_cons.
  split; [intros [->|?]; done | by right].
Qed.

(** The texts after the loop over the figure texts: a text of the loop
    that mentions a source is hidden, every other text is as it was. *)
Lemma hidden_texts_lookup (l : list ref) (st : Dict.t Element bool * World)
    (r : ref) :
  text_store (snd (hidden TextElem source_text_at l st)) !! r
  = (fun t => if bool_decide (r ∈ l) && mentions_source t
              then text_with_visible false t else t)
      <$> text_store (snd st) !! r.
Proof.
  revert st. induction l as [|r' l IH]; intros st.
  { simpl. by destruct (text_store (snd st) !! r). }
  rewrite hidden_cons, IH. unfold hide_step, source_text_at. simpl.
  destruct (text_store (snd st) !! r') as [t'|] eqn:Hr'; simpl.
  - destruct (mentions_source t') eqn:Hm; simpl.
    + destruct (decide (r' = r)) as [->|Hne].
      * rewrite list_lookup_alter_eq, Hr'. simpl.
        rewrite (bool_decide_true (r ∈ r :: l)) by (by left).
        change (mentions_source (text_with_visible false t'))
          with (mentions_source t').
        rewrite Hm, andb_true_r. by destruct (bool_decide (r ∈ l)).
      * rewrite list_lookup_alter_ne by done.
        destruct (text_store (snd st) !! r) as [t|]; [|done]. simpl.
        by rewrite bool_decide_cons_ne.
    + destruct (text_store (snd st) !! r) as [t|] eqn:Hr; [|done]. simpl.
      f_equal. destruct (decide (r' = r)) as [->|Hne].
      * assert (t = t') as -> by congruence. by rewrite Hm, !andb_false_r.
      * by rewrite bool_decide_cons_ne.
  - destruct (text_store (snd st) !! r) as [t|] eqn:Hr; [|done]. simpl.
    f_equal. destruct (decide (r' = r)) as [->|Hne]; [congruence|].
    by rewrite bool_decide_cons_ne.
Qed.

(** Likewise the axes after the loop over the axes of the figure. *)
Lemma hidden_axes_lookup (l : list ref) (st : Dict.t Element bool * World)
    (r : ref) :
  axes_store (snd (hidden AxesElem logo_axis_at l st)) !! r
  = (fun a => if bool_decide (r ∈ l) && looks_like_logo_axis a
              then axes_with_visible false a else a)
      <$> axes_store (snd st) !! r.
Proof.
  revert st. induction l as [|r' l IH]; intros st.
  { simpl. by destruct (axes_store (snd st) !! r). }
  rewrite hidden_cons, IH. unfold hide_step, logo_axis_at. simpl.
  destruct (axes_store (snd st) !! r') as [a'|] eqn:Hr'; simpl.
  - destruct (looks_like_logo_axis a') eqn:Hm; simpl.
    + destruct (decide (r' = r)) as [->|Hne].
      * rewrite list_lookup_alter_eq, Hr'. simpl.
        rewrite (bool_decide_true (r ∈ r :: l)) by (by left).
        change (looks_like_logo_axis (axes_with_visible false a'))
          with (looks_like_logo_axis a').
        rewrite Hm, andb_true_r. by destruct (bool_decide (r ∈ l)).
      * rewrite list_lookup_alter_ne by done.
        destruct (axes_store (snd st) !! r) as [a|]; [|done]. simpl.
        by rewrite bool_decide_cons_ne.
    + destruct (axes_store (snd st) !! r) as [a|] eqn:Hr; [|done]. simpl.
      f_equal. destruct (decide (r' = r)) as [->|Hne].
      * assert (a = a') as -> by congruence. by rewrite Hm, !andb_false_r.
      * by rewrite bool_decide_cons_ne.
  - destruct (axes_store (snd st) !! r) as [a|] eqn:Hr; [|done]. simpl.
    f_equal. destruct (decide (r' = r)) as [->|Hne]; [congruence|].
    by rewrite bool_decide_cons_ne.
Qed.

(** The clean state shows each text and each axes of the figure as
    [clean_text] and [clean_axes] have it. *)
Lemma clean_state_shows (w : World) (f : Figure) :
  shown_texts (snd (clean_state w f)) f = map clean_text (shown_texts w f)
  /\ shown_axes (snd (clean_state w f)) f = map clean_axes (shown_axes w f).
Proof.
  split.
  - unfold shown_texts. apply omap_pointwise. intros r Hr.
    unfold clean_state. rewrite hidden_texts_lookup.
    rewrite (hidden_untouched AxesElem logo_axis_at (fun w => text_store w))
      by done.
    simpl. rewrite bool_decide_true by done.
    by destruct (text_store w !! r).
  - unfold shown_axes. apply omap_pointwise. intros r Hr.
    unfold clean_state.
    rewrite (hidden_untouched TextElem source_text_at (fun w => axes_store w))
      by done.
    rewrite hidden_axes_lookup. simpl. rewrite bool_decide_true by done.
    by destruct (axes_store w !! r).
Qed.

(** What [_save_clean_version] writes, with the clean state spelled out. *)
Lemma clean_export_fields (w : World) (fig : ref) (filepath : string)
    (kwargs : Dict.t string pyval) :
  clean_export w fig filepath kwargs
  = mkExport filepath kwargs
      (map clean_axes (shown_axes w (figure_at w fig)))
      (map clean_text (shown_texts w (figure_at w fig))).
Proof.
  unfold clean_export. cbv zeta.
  destruct (clean_state_shows w (figure_at w fig)) as [-> ->]. done.
Qed.

(** The files after [_save_clean_version]: one more when [savefig]
    returns, none when it raises. *)
Lemma save_clean_version_exports (E : Env) (fig : ref) (filepath : string)
    (kwargs : Dict.t string pyval) (w : World) :
  exports (snd (_save_clean_version E fig filepath kwargs w))
  = exports w
    ++ match savefig_error E filepath with
       | None => [clean_export w fig filepath kwargs]
       | Some _ => []
       end.
Proof.
  rewrite save_clean_version_run. cbv zeta.
  destruct (clean_state_frame w (figure_at w fig)) as (_ & _ & _ & _ & Hex).
  destruct (savefig_error E filepath) as [e|]; simpl.
  - by rewrite Hex, app_nil_r.
  - destruct (restored_frame (fst (clean_state w (figure_at w fig)))
                (set_exports
                   (fun l => l ++ [clean_export w fig filepath kwargs])
                   (snd (clean_state w (figure_at w fig)))))
      as (_ & _ & _ & _ & ->).
    simpl. by rewrite Hex.
Qed.

(** The clean export hides the figure texts that contain ["source:"], in
    any letter case and at any place, and the axes without ticks, labels
    and title; it shows every other text and axes of the figure as it is,
    and it writes one file. *)
Theorem clean_export_hides_exactly
    (E : Env) (fig : ref) (filepath : string) (kwargs : Dict.t string pyval)
    (w : World) :
  savefig_error E filepath = None ->
  fst (_save_clean_version E fig filepath kwargs w) = Ok tt
  /\ exports (snd (_save_clean_version E fig filepath kwargs w))
     = exports w
       ++ [mkExport filepath kwargs
             (map clean_axes (shown_axes w (figure_at w fig)))
             (map clean_text (shown_texts w (figure_at w fig)))].
Proof.
  intros Hok. split.
  - rewrite save_clean_version_run. cbv zeta. by rewrite Hok.
  - by rewrite save_clean_version_exports, Hok, clean_export_fields.
Qed.

(** On the sample chart the clean file shows the plot axes and the
    footnote, and hides the bare inset and the citation. *)
Lemma clean_export_hides_exactly_witness :
  savefig_error Sample.env "out/chart_clean.png" = None
  /\ exports (snd (_save_clean_version Sample.env 0 "out/chart_clean.png" []
                     Sample.chart))
     = [mkExport "out/chart_clean.png" []
          [Sample.plot_axes; axes_with_visible false Sample.bare_axes]
          [text_with_visible false Sample.citation; Sample.footnote]].
Proof.
  split; [reflexivity|].
  exact (proj2 (clean_export_hides_exactly Sample.env 0 "out/chart_clean.png"
                  [] Sample.chart eq_refl)).
Defined.

(** [save] with [branded=False], run. *)
Lemma save_clean_only_run (E : Env) (filepath : string)
    (kwargs : Dict.t string pyval) (w : World) :
  let clean_path := fst (OsPath.splitext filepath) +:+ "_clean"
                    +:+ snd (OsPath.splitext filepath) in
  save E filepath false kwargs w
  = match _save_clean_version E (gcf_ref w) clean_path
            (save_kwargs_of kwargs) (gcf_state w) with
    | (Ok _, w') => (Ok (CleanOnly clean_path), w')
    | (Raise e, w') => (Raise e, w')
    end.
Proof.
  intros clean_path. unfold save.
  rewrite (surjective_pairing (OsPath.splitext filepath)).
  fold clean_path. unfold bind at 1. rewrite plt_gcf_run.
  unfold bind, ret. fold (save_kwargs_of kwargs).
  by destruct (_save_clean_version E _ _ _ _) as [[[]|e] w'].
Qed.

(** [save] with [branded=False] on a path [name.ext] that has an
    extension, with keyword arguments none of which is named [fig]:
    [savefig] is called once, for [name_clean.ext], with the figure in
    its clean state, and that one path is returned; when [savefig]
    raises, its exception goes to the caller and no call of [savefig]
    has returned. *)
Theorem save_clean_only_writes_one_file
    (E : Env) (filepath : string) (kwargs : Dict.t string pyval) (w : World) :
  let clean_path := fst (OsPath.splitext filepath) +:+ "_clean"
                    +:+ snd (OsPath.splitext filepath) in
  let f := figure_at (gcf_state w) (gcf_ref w) in
  (1 < String.length (snd (OsPath.splitext filepath)))%nat ->
  Dict.get "fig" kwargs = None ->
  (savefig_error E clean_path = None ->
   fst (save E filepath false kwargs w) = Ok (CleanOnly clean_path)
   /\ exports (snd (save E filepath false kwargs w))
      = exports w
        ++ [mkExport clean_path (save_kwargs_of kwargs)
              (map clean_axes (shown_axes (gcf_state w) f))
              (map clean_text (shown_texts (gcf_state w) f))])
  /\ (forall e, savefig_error E clean_path = Some e ->
        fst (save E filepath false kwargs w) = Raise e
        /\ exports (snd (save E filepath false kwargs w)) = exports w).
Proof.
  intros clean_path f _ _.
  pose proof (save_clean_only_run E filepath kwargs w) as Hrun.
  cbv zeta in Hrun. fold clean_path in Hrun.
  pose proof (save_clean_version_exports E (gcf_ref w) clean_path
                (save_kwargs_of kwargs) (gcf_state w)) as Hex.
  pose proof (save_clean_version_run E (gcf_ref w) clean_path
                (save_kwargs_of kwargs) (gcf_state w)) as Hcv.
  cbv zeta in Hcv.
  destruct (gcf_state_stores w) as (_ & _ & Hg).
  split.
  - intros Hok. rewrite Hok in Hex, Hcv. rewrite Hrun, Hcv. simpl.
    split; [done|]. rewrite Hcv in Hex. simpl in Hex.
    by rewrite Hex, Hg, clean_export_fields.
  - intros e He. rewrite He in Hex, Hcv. rewrite Hrun, Hcv. simpl.
    split; [done|]. rewrite Hcv in Hex. simpl in Hex.
    by rewrite Hex, Hg, app_nil_r.
Qed.

(** The sample chart, saved clean only as [out/chart.png], and on a path
    that cannot be written. *)
Lemma save_clean_only_writes_one_file_witness :
  ((1 < String.length (snd (OsPath.splitext "out/chart.png")))%nat
   /\ Dict.get "fig" ([] : Dict.t string pyval) = None
   /\ savefig_error Sample.env "out/chart_clean.png" = None
   /\ fst (save Sample.env "out/chart.png" false [] Sample.chart)
      = Ok (CleanOnly "out/chart_clean.png")
   /\ map ex_path (exports (snd (save Sample.env "out/chart.png" false []
                                   Sample.chart)))
      = ["out/chart_clean.png"])
  /\ ((1 < String.length (snd (OsPath.splitext "/proc/out.png")))%nat
      /\ savefig_error Sample.env "/proc/out_clean.png"
         = Some (mkExn OSError "read-only file system")
      /\ fst (save Sample.env "/proc/out.png" false [] Sample.chart)
         = Raise (mkExn OSError "read-only file system")
      /\ exports (snd (save Sample.env "/proc/out.png" false []
                         Sample.chart)) = []).
Proof.
  assert (H1 : (1 < String.length (snd (OsPath.splitext "out/chart.png")))%nat)
    by (vm_compute; lia).
  assert (H2 : (1 < String.length (snd (OsPath.splitext "/proc/out.png")))%nat)
    by (vm_compute; lia).
  split.
  - destruct (proj1 (save_clean_only_writes_one_file Sample.env
                       "out/chart.png" [] Sample.chart H1 eq_refl) eq_refl)
      as [Hr Hx].
    split; [exact H1|]. split; [reflexivity|]. split; [reflexivity|].
    split; [exact Hr|]. rewrite Hx. reflexivity.
  - destruct (proj2 (save_clean_only_writes_one_file Sample.env
                       "/proc/out.png" [] Sample.chart H2 eq_refl)
                (mkExn OSError "read-only file system") eq_refl) as [Hr Hx].
    split; [exact H2|]. split; [reflexivity|]. split; [exact Hr|exact Hx].
Defined.

(** ** Keyword arguments of [save] *)

(** [save] with [branded=True], run, whatever [savefig] does. *)
Lemma save_branded_exports (E : Env) (filepath : string)
    (kwargs : Dict.t string pyval) (w : World) :
  let base := fst (OsPath.splitext filepath) in
  let ext := snd (OsPath.splitext filepath) in
  let e1 := branded_export (gcf_state w) (gcf_ref w)
              (base +:+ "_branded" +:+ ext) (save_kwargs_of kwargs) in
  let w1 := set_exports (fun l => l ++ [e1]) (gcf_state w) in
  exports (snd (save E filepath true kwargs w))
  = exports w
    ++ match savefig_error E (base +:+ "_branded" +:+ ext) with
       | Some _ => []
       | None =>
           e1 :: match savefig_error E (base +:+ "_clean" +:+ ext) with
                 | Some _ => []
                 | None => [clean_export w1 (gcf_ref w)
                              (base +:+ "_clean" +:+ ext)
                              (save_kwargs_of kwargs)]
                 end
       end.
Proof.
  intros base ext e1 w1. unfold save.
  rewrite (surjective_pairing (OsPath.splitext filepath)).
  fold base ext (save_kwargs_of kwargs).
  unfold bind at 1. rewrite plt_gcf_run.
  destruct (gcf_state_stores w) as (_ & _ & Hg).
  unfold bind at 1. unfold fig_savefig at 1.
  destruct (savefig_error E (base +:+ "_branded" +:+ ext)) as [e|] eqn:Hb.
  { simpl. by rewrite Hg, app_nil_r. }
  unfold bind at 1. unfold read_figure at 1, modify at 1.
  fold (figure_at (gcf_state w) (gcf_ref w)).
  fold (branded_export (gcf_state w) (gcf_ref w)
          (base +:+ "_branded" +:+ ext) (save_kwargs_of kwargs)).
  fold e1 w1.
  pose proof (save_clean_version_exports E (gcf_ref w)
                (base +:+ "_clean" +:+ ext) (save_kwargs_of kwargs) w1) as Hex.
  unfold bind, ret.
  destruct (_save_clean_version E (gcf_ref w) (base +:+ "_clean" +:+ ext)
              (save_kwargs_of kwargs) w1) as [[[]|e] w'];
    simpl in *; rewrite Hex, Hg, <- app_assoc; done.
Qed.

(** Every file [save] writes is written with the caller's keyword
    arguments where the caller gives one, and with [dpi=300],
    [bbox_inches='tight'], [facecolor='white'] where the caller gives
    none; no other keyword argument reaches [savefig]. *)
Theorem save_keyword_arguments
    (E : Env) (filepath : string) (branded : bool)
    (kwargs : Dict.t string pyval) (w : World) (e : Export) :
  NoDup (Dict.keys kwargs) ->
  e ∈ exports (snd (save E filepath branded kwargs w)) ->
  e ∈ exports w
  \/ forall k,
       Dict.get k (ex_kwargs e)
       = match Dict.get k kwargs with
         | Some v => Some v
         | None => Dict.get k default_kwargs
         end.
Proof.
  intros Hnd He.
  assert (Hkw : forall k,
            Dict.get k (save_kwargs_of kwargs)
            = match Dict.get k kwargs with
              | Some v => Some v
              | None => Dict.get k default_kwargs
              end).
  { intros k. by apply Dict_get_merge. }
  destruct branded.
  - rewrite save_branded_exports in He. cbv zeta in He.
    apply elem_of_app in He as [He|He]; [by left|right].
    destruct (savefig_error E _) as [?|]; [by apply elem_of_nil in He|].
    apply elem_of_cons in He as [->|He]; [exact Hkw|].
    destruct (savefig_error E _) as [?|]; [by apply elem_of_nil in He|].
    apply list_elem_of_singleton in He as ->. exact Hkw.
  - pose proof (save_clean_only_run E filepath kwargs w) as Hrun.
    cbv zeta in Hrun.
    pose proof (save_clean_version_exports E (gcf_ref w)
                  (fst (OsPath.splitext filepath) +:+ "_clean"
                   +:+ snd (OsPath.splitext filepath))
                  (save_kwargs_of kwargs) (gcf_state w)) as Hex.
    destruct (gcf_state_stores w) as (_ & _ & Hg).
    rewrite Hrun in He.
    destruct (_save_clean_version E _ _ _ _) as [[[]|?] w'];
      simpl in *; rewrite Hex, Hg in He;
      (apply elem_of_app in He as [He|He]; [by left|right]);
      (destruct (savefig_error E _) as [?|]; [by apply elem_of_nil in He|]);
      apply list_elem_of_singleton in He as ->; exact Hkw.
Qed.

(** The sample chart saved with [dpi=100]: both files are written with
    that resolution and with the white background of the defaults. *)
Lemma save_keyword_arguments_witness :
  NoDup (Dict.keys [("dpi", VInt 100)])
  /\ forall e,
       e ∈ exports (snd (save Sample.env "out/chart.png" true
                           [("dpi", VInt 100)] Sample.chart)) ->
       Dict.get "dpi" (ex_kwargs e) = Some (VInt 100)
       /\ Dict.get "facecolor" (ex_kwargs e) = Some (VStr "white").
Proof.
  assert (Hnd : NoDup (Dict.keys [("dpi", VInt 100)])) by decided.
  split; [exact Hnd|]. intros e He.
  destruct (save_keyword_arguments Sample.env "out/chart.png" true
              [("dpi", VInt 100)] Sample.chart e Hnd He) as [Hin|Hkw].
  - by apply elem_of_nil in Hin.
  - split; rewrite Hkw; reflexivity.
Defined.

(** ** Figures stay well-formed *)

Lemma figure_ok_grow (w w' : World) (f : Figure) :
  (length (axes_store w) <= length (axes_store w'))%nat ->
  (length (text_store w) <= length (text_store w'))%nat ->
  figure_ok w f -> figure_ok w' f.
Proof.
  intros Ha Ht (Hna & Hnt & Hba & Hbt). repeat split; try done.
  - intros r Hr. specialize (Hba r Hr). lia.
  - intros r Hr. specialize (Hbt r Hr). lia.
Qed.

(** A state with the same figures and stores of the same size. *)
Lemma well_formed_same_figures (w w' : World) :
  fig_store w' = fig_store w ->
  current_fig w' = current_fig w ->
  length (axes_store w') = length (axes_store w) ->
  length (text_store w') = length (text_store w) ->
  well_formed w -> well_formed w'.
Proof.
  intros Hf Hc Ha Ht [Hfigs Hcur]. split.
  - intros fig f Hl. rewrite Hf in Hl.
    apply (figure_ok_grow w w'); [lia|lia|]. by apply (Hfigs fig).
  - intros fig Hfig. rewrite Hf. apply Hcur. by rewrite <- Hc.
Qed.

Lemma make_visible_shape (k : Element) (b : bool) (w : World) :
  fig_store (make_visible k b w) = fig_store w
  /\ current_fig (make_visible k b w) = current_fig w
  /\ length (axes_store (make_visible k b w)) = length (axes_store w)
  /\ length (text_store (make_visible k b w)) = length (text_store w).
Proof. destruct k; simpl; by rewrite length_alter. Qed.

Lemma restored_shape (d : Dict.t Element bool) (w : World) :
  fig_store (restored d w) = fig_store w
  /\ current_fig (restored d w) = current_fig w
  /\ length (axes_store (restored d w)) = length (axes_store w)
  /\ length (text_store (restored d w)) = length (text_store w).
Proof.
  revert w. induction d as [|[k v] d IH]; intros w; [done|]. simpl.
  destruct (IH (make_visible k v w)) as (-> & -> & -> & ->).
  apply make_visible_shape.
Qed.

Lemma hidden_shape (key : ref -> Element) (selected : World -> ref -> bool)
    (l : list ref) (st : Dict.t Element bool * World) :
  fig_store (snd (hidden key selected l st)) = fig_store (snd st)
  /\ current_fig (snd (hidden key selected l st)) = current_fig (snd st)
  /\ length (axes_store (snd (hidden key selected l st)))
     = length (axes_store (snd st))
  /\ length (text_store (snd (hidden key selected l st)))
     = length (text_store (snd st)).
Proof.
  revert st. induction l as [|r l IH]; intros st; [done|].
  rewrite hidden_cons. destruct (IH (hide_step key selected st r))
    as (-> & -> & -> & ->).
  destruct (hide_step_cases key selected st r) as [->|(v & _ & _ & ->)];
    [done|apply make_visible_shape].
Qed.

Lemma well_formed_set_exports (f : list Export -> list Export) (w : World) :
  well_formed w -> well_formed (set_exports f w).
Proof. by apply well_formed_same_figures. Qed.

Lemma well_formed_set_stdout (f : list string -> list string) (w : World) :
  well_formed w -> well_formed (set_stdout f w).
Proof. by apply well_formed_same_figures. Qed.

Lemma well_formed_alter_axes (g : Axes -> Axes) (r : ref) (w : World) :
  well_formed w -> well_formed (set_axes_store (alter g r) w).
Proof.
  apply well_formed_same_figures; try done. simpl. by rewrite length_alter.
Qed.

Lemma well_formed_gcf (w : World) :
  well_formed w ->
  well_formed (gcf_state w)
  /\ (gcf_ref w < length (fig_store (gcf_state w)))%nat.
Proof.
  intros [Hfigs Hcur]. unfold gcf_state, gcf_ref, plt_gcf.
  destruct (current_fig w) as [fig|] eqn:Hc; simpl.
  { split; [|by apply Hcur]. split; [done|].
    intros fig0 H. rewrite Hc in H. by apply Hcur. }
  split; [split|].
  - intros fig f. simpl. intros Hl.
    apply lookup_app_Some in Hl as [Hl|[_ Hl]].
    + apply (figure_ok_grow w); [done|done|]. by apply (Hfigs fig).
    + destruct (fig - length (fig_store w))%nat; [|done].
      injection Hl as <-. repeat split; simpl; try apply NoDup_nil_2;
        intros r Hr; by apply elem_of_nil in Hr.
  - simpl. intros fig [= <-]. rewrite length_app. simpl. lia.
  - rewrite length_app. simpl. lia.
Qed.

Lemma well_formed_add_axes (fig : ref)
    (rect : float * float * float * float) (w : World) :
  well_formed w -> well_formed (snd (fig_add_axes fig rect w)).
Proof.
  intros [Hfigs Hcur]. unfold fig_add_axes. simpl. split.
  - intros fig' f'. simpl. rewrite list_lookup_alter.
    destruct (decide (fig = fig')) as [<-|Hne].
    + destruct (fig_store w !! fig) as [f|] eqn:Hf; [|done].
      simpl. intros [= <-].
      destruct (Hfigs fig f Hf) as (Hna & Hnt & Hba & Hbt).
      repeat split; simpl.
      * apply NoDup_app. split; [done|]. split; [|apply NoDup_singleton].
        intros r Hr ->%list_elem_of_singleton. specialize (Hba _ Hr). lia.
      * done.
      * intros r [Hr| ->%list_elem_of_singleton]%elem_of_app;
          rewrite length_app; simpl; [specialize (Hba r Hr)|]; lia.
      * done.
    + intros Hl. apply (figure_ok_grow w); simpl;
        [rewrite length_app; lia|done|by apply (Hfigs fig')].
  - simpl. intros fig' Hc. rewrite length_alter. by apply Hcur.
Qed.

Lemma well_formed_fig_text (fig : ref) (x y : float) (s : string)
    (fontsize : Z) (color ha va : string) (w : World) :
  well_formed w ->
  well_formed (snd (fig_text fig x y s fontsize color ha va w)).
Proof.
  intros [Hfigs Hcur]. unfold fig_text. simpl. split.
  - intros fig' f'. simpl. rewrite list_lookup_alter.
    destruct (decide (fig = fig')) as [<-|Hne].
    + destruct (fig_store w !! fig) as [f|] eqn:Hf; [|done].
      simpl. intros [= <-].
      destruct (Hfigs fig f Hf) as (Hna & Hnt & Hba & Hbt).
      repeat split; simpl.
      * done.
      * apply NoDup_app. split; [done|]. split; [|apply NoDup_singleton].
        intros r Hr ->%list_elem_of_singleton. specialize (Hbt _ Hr). lia.
      * done.
      * intros r [Hr| ->%list_elem_of_singleton]%elem_of_app;
          rewrite length_app; simpl; [specialize (Hbt r Hr)|]; lia.
    + intros Hl. apply (figure_ok_grow w); simpl;
        [done|rewrite length_app; lia|by apply (Hfigs fig')].
  - simpl. intros fig' Hc. rewrite length_alter. by apply Hcur.
Qed.

Lemma well_formed_clean_version (E : Env) (fig : ref) (filepath : string)
    (kwargs : Dict.t string pyval) (w : World) :
  well_formed w ->
  well_formed (snd (_save_clean_version E fig filepath kwargs w)).
Proof.
  intros Hwf. rewrite save_clean_version_run. cbv zeta.
  set (f := figure_at w fig).
  assert (Hcs : well_formed (snd (clean_state w f))).
  { unfold clean_state.
    destruct (hidden_shape TextElem source_text_at (fig_texts f)
                (hidden AxesElem logo_axis_at (fig_axes f) (no_states, w)))
      as (H1 & H2 & H3 & H4).
    destruct (hidden_shape AxesElem logo_axis_at (fig_axes f) (no_states, w))
      as (H1' & H2' & H3' & H4').
    simpl in *.
    apply (well_formed_same_figures w); [| | | |done]; congruence. }
  destruct (savefig_error E filepath) as [e|]; simpl; [done|].
  destruct (restored_shape (fst (clean_state w f))
              (set_exports
                 (fun l => l ++ [clean_export w fig filepath kwargs])
                 (snd (clean_state w f)))) as (H1 & H2 & H3 & H4).
  apply (well_formed_same_figures (snd (clean_state w f))); done.
Qed.

Lemma well_formed_save (E : Env) (filepath : string) (branded : bool)
    (kwargs : Dict.t string pyval) (w : World) :
  well_formed w -> well_formed (snd (save E filepath branded kwargs w)).
Proof.
  intros Hwf. apply well_formed_gcf in Hwf as [Hwf _].
  unfold save. rewrite (surjective_pairing (OsPath.splitext filepath)).
  unfold bind at 1. rewrite plt_gcf_run. destruct branded.
  - unfold bind at 1. unfold fig_savefig at 1.
    destruct (savefig_error E _) as [e|]; [done|].
    unfold bind at 1. unfold read_figure at 1, modify at 1.
    unfold bind, ret.
    match goal with
    | |- context [_save_clean_version E ?g ?p ?k ?w1] =>
        pose proof (well_formed_clean_version E g p k w1
                      (well_formed_set_exports _ _ Hwf)) as H;
        destruct (_save_clean_version E g p k w1) as [[[]|?] w']
    end; exact H.
  - unfold bind, ret.
    match goal with
    | |- context [_save_clean_version E ?g ?p ?k ?w1] =>
        pose proof (well_formed_clean_version E g p k w1 Hwf) as H;
        destruct (_save_clean_version E g p k w1) as [[[]|?] w']
    end; exact H.
Qed.

Lemma well_formed_add_logo (E : Env) (fig : ref) (logo_path : option string)
    (position : string) (width height margin : float) (w : World) :
  well_formed w ->
  well_formed (snd (add_logo E fig logo_path position width height margin w)).
Proof.
  intros Hwf. unfold add_logo.
  destruct (negb (truthy_opt logo_path) || _); [done|].
  unfold bind at 1. unfold try_except, mpimg_imread.
  destruct (imread E (PyStr.str_opt logo_path)) as [img|e]; simpl.
  - destruct (Dict.get position _) as [[x y]|]; [|done].
    unfold bind, axes_imshow, axes_axis_off, modify.
    pose proof (well_formed_add_axes fig (x, y, width, height) w Hwf) as H.
    destruct (fig_add_axes fig (x, y, width, height) w) as [[r|?] w1];
      simpl in *; [|done].
    by do 2 apply well_formed_alter_axes.
  - unfold reraise. simpl. by destruct (is_Exception (exn_cls e)).
Qed.

Lemma well_formed_add_source_citation (self : PlotBuddy) (fig : ref)
    (source position : string) (fontsize : option Z) (color : string)
    (w : World) :
  well_formed w ->
  well_formed
    (snd (add_source_citation self fig source position fontsize color w)).
Proof.
  intros Hwf. unfold add_source_citation.
  destruct (negb (PyStr.truthy source)); [done|].
  destruct (Dict.get position _) as [[[x y] ha]|]; [|done].
  unfold bind, ret.
  match goal with
  | |- context [fig_text ?a ?b ?c ?d ?e ?f ?g ?h w] =>
      pose proof (well_formed_fig_text a b c d e f g h w Hwf) as H;
      destruct (fig_text a b c d e f g h w) as [[?|?] w1]
  end; exact H.
Qed.

Lemma well_formed_create_legend (self : PlotBuddy) (ax : ref)
    (legend_entries : option (list (list string))) (ncol : option Z)
    (position : string) (kwargs : Dict.t string pyval) (w : World) :
  well_formed w ->
  well_formed
    (snd (create_legend self ax legend_entries ncol position kwargs w)).
Proof.
  intros Hwf. unfold create_legend. unfold bind at 1.
  pose proof (collect_legend_state ax legend_entries w) as Hw.
  destruct (collect_legend ax legend_entries w) as [[[hs ls]|e] w'];
    simpl in Hw; subst w'; [|done].
  destruct hs as [|h hs]; [done|]. destruct ls as [|l ls]; [done|].
  unfold bind, ax_legend_call, modify, ret. simpl.
  by apply well_formed_alter_axes.
Qed.

Lemma well_formed_subplots (figsize : Z * Z) (c : Canvas) :
  well_formed (drawing c) ->
  well_formed (drawing (snd (plt_subplots figsize c))).
Proof.
  intros [Hfigs Hcur]. unfold plt_subplots. simpl. split.
  - intros fig f. simpl. intros Hl.
    apply lookup_app_Some in Hl as [Hl|[_ Hl]].
    + apply (figure_ok_grow (drawing c)); simpl;
        [rewrite length_app; lia|done|by apply (Hfigs fig)].
    + destruct (fig - length (fig_store (drawing c)))%nat; [|done].
      injection Hl as <-. repeat split; simpl.
      * apply NoDup_singleton.
      * apply NoDup_nil_2.
      * intros r ->%list_elem_of_singleton. rewrite length_app. simpl. lia.
      * intros r Hr. by apply elem_of_nil in Hr.
  - simpl. intros fig [= <-]. rewrite length_app. simpl. lia.
Qed.

Lemma well_formed_add_footnote (fig : ref) (text position : string)
    (fontsize : Z) (color : string) (c : Canvas) :
  well_formed (drawing c) ->
  well_formed
    (drawing (snd (add_footnote fig text position fontsize color c))).
Proof.
  intros Hwf. unfold add_footnote, fig_text_styled, on_drawing.
  unfold bind, modify, ret.
  match goal with
  | |- context [fig_text ?a ?b ?c0 ?d ?e ?f ?g ?h (drawing c)] =>
      pose proof (well_formed_fig_text a b c0 d e f g h (drawing c) Hwf) as H;
      destruct (fig_text a b c0 d e f g h (drawing c)) as [[?|?] w1]
  end; exact H.
Qed.

Lemma add_titles_drawing (self : PlotBuddy) (ax : ref) (title : string)
    (subtitle subtitle2 : option string) (c : Canvas) :
  fst (add_titles self ax title subtitle subtitle2 c) = Ok tt
  /\ drawing (snd (add_titles self ax title subtitle subtitle2 c))
     = drawing c.
Proof.
  unfold add_titles, ax_text, bind, modify, ret. simpl.
  by destruct (truthy_opt subtitle), (truthy_opt subtitle2).
Qed.

Lemma well_formed_NoDup (w : World) :
  well_formed w ->
  (forall fig, NoDup (fig_axes (figure_at w fig)))
  /\ (forall fig, NoDup (fig_texts (figure_at w fig))).
Proof.
  intros Hwf. split; intros fig; unfold figure_at;
    (destruct (fig_store w !! fig) as [f|] eqn:Hf; simpl;
     [destruct (proj1 Hwf fig f Hf) as (? & ? & _); done|apply NoDup_nil_2]).
Qed.

(** The empty process is well-formed and every drawing operation keeps
    the figures well-formed: each figure lists each of its axes and each
    of its texts once, and lists only axes and texts that exist. *)
Theorem drawing_keeps_figures_well_formed
    (E : Env) (self : PlotBuddy) (w : World) (c : Canvas) :
  well_formed (mkWorld [] [] [] [] [] None [])
  /\ (well_formed w ->
      (forall fig,
         NoDup (fig_axes (figure_at w fig))
         /\ NoDup (fig_texts (figure_at w fig)))
      /\ (forall fig logo_path position width height margin,
            well_formed
              (snd (add_logo E fig logo_path position width height margin w)))
      /\ (forall fig source position fontsize color,
            well_formed
              (snd (add_source_citation self fig source position fontsize
                      color w)))
      /\ (forall ax legend_entries ncol position kwargs,
            well_formed
              (snd (create_legend self ax legend_entries ncol position
                      kwargs w)))
      /\ (forall filepath branded kwargs,
            well_formed (snd (save E filepath branded kwargs w))))
  /\ (well_formed (drawing c) ->
      (forall figsize,
         well_formed (drawing (snd (setup_figure self figsize c))))
      /\ (forall fig text position fontsize color,
            well_formed
              (drawing (snd (add_footnote fig text position fontsize
                               color c))))
      /\ (forall ax title subtitle subtitle2,
            well_formed
              (drawing (snd (add_titles self ax title subtitle subtitle2
                               c))))).
Proof.
  split; [|split].
  - split; [intros fig f Hl; by destruct fig|done].
  - intros Hwf. split; [|split; [|split; [|split]]].
    + intros fig.
      destruct (well_formed_NoDup w Hwf) as [Ha Ht].
      split; [apply Ha|apply Ht].
    + intros. by apply well_formed_add_logo.
    + intros. by apply well_formed_add_source_citation.
    + intros. by apply well_formed_create_legend.
    + intros. by apply well_formed_save.
  - intros Hwf. split; [|split].
    + intros. by apply well_formed_subplots.
    + intros. by apply well_formed_add_footnote.
    + intros.
      by rewrite (proj2 (add_titles_drawing self ax title subtitle subtitle2 c)).
Qed.

(** A chart drawn step by step from the empty process, by [setup_figure],
    [add_footnote], [add_logo] and [add_source_citation], is well-formed
    before and after it is saved. *)
Lemma drawing_keeps_figures_well_formed_witness :
  well_formed (drawing Sample.blank)
  /\ well_formed (drawing Sample.drawn_canvas)
  /\ well_formed Sample.drawn_chart
  /\ well_formed (snd (save Sample.env "out/chart.png" true []
                         Sample.drawn_chart))
  /\ fig_store Sample.drawn_chart = [mkFigure [0; 1] [0; 1]]%nat.
Proof.
  pose proof (fun w c =>
    drawing_keeps_figures_well_formed Sample.env Sample.buddy w c) as H.
  assert (H0 : well_formed (drawing Sample.blank))
    by exact (proj1 (H Sample.fresh Sample.blank)).
  assert (H1 : well_formed (drawing Sample.drawn_canvas)).
  { apply (proj2 (proj2 (H Sample.fresh _))).
    - apply (proj2 (proj2 (H Sample.fresh Sample.blank))). exact H0.
  }
  assert (H2 : well_formed Sample.drawn_chart).
  { apply (proj2 (H _ Sample.blank)).
    - apply (proj2 (H _ Sample.blank)). exact H1. }
  split; [exact H0|]. split; [exact H1|]. split; [exact H2|].
  split; [|vm_compute; reflexivity].
  apply (proj2 (H _ Sample.blank)). exact H2.
Defined.

(** ** [save] leaves the visibility as it was *)

Lemma clean_version_returns_stores (E : Env) (fig : ref) (filepath : string)
    (kwargs : Dict.t string pyval) (w : World) :
  NoDup (fig_axes (figure_at w fig)) ->
  NoDup (fig_texts (figure_at w fig)) ->
  fst (_save_clean_version E fig filepath kwargs w) = Ok tt ->
  axes_store (snd (_save_clean_version E fig filepath kwargs w))
  = axes_store w
  /\ text_store (snd (_save_clean_version E fig filepath kwargs w))
     = text_store w.
Proof.
  intros Ha Ht. rewrite save_clean_version_run. cbv zeta.
  destruct (savefig_error E filepath) as [e|]; [done|]. simpl. intros _.
  by rewrite restored_set_exports, clean_state_restored.
Qed.

(** [save] with [branded=True], by cases on the branded [savefig]. *)
Lemma save_branded_cases (E : Env) (filepath : string)
    (kwargs : Dict.t string pyval) (w : World) :
  let base := fst (OsPath.splitext filepath) in
  let ext := snd (OsPath.splitext filepath) in
  let e1 := branded_export (gcf_state w) (gcf_ref w)
              (base +:+ "_branded" +:+ ext) (save_kwargs_of kwargs) in
  let w1 := set_exports (fun l => l ++ [e1]) (gcf_state w) in
  save E filepath true kwargs w
  = match savefig_error E (base +:+ "_branded" +:+ ext) with
    | Some e => (Raise e, gcf_state w)
    | None =>
        match _save_clean_version E (gcf_ref w) (base +:+ "_clean" +:+ ext)
                (save_kwargs_of kwargs) w1 with
        | (Ok _, w') =>
            (Ok (BrandedAndClean (base +:+ "_branded" +:+ ext)
                                 (base +:+ "_clean" +:+ ext)), w')
        | (Raise e, w') => (Raise e, w')
        end
    end.
Proof.
  intros base ext e1 w1. unfold save.
  rewrite (surjective_pairing (OsPath.splitext filepath)).
  fold base ext (save_kwargs_of kwargs).
  unfold bind at 1. rewrite plt_gcf_run.
  unfold bind at 1. unfold fig_savefig at 1.
  destruct (savefig_error E (base +:+ "_branded" +:+ ext)) as [e|]; [done|].
  unfold bind at 1. unfold read_figure at 1, modify at 1.
  fold (figure_at (gcf_state w) (gcf_ref w)).
  fold (branded_export (gcf_state w) (gcf_ref w)
          (base +:+ "_branded" +:+ ext) (save_kwargs_of kwargs)).
  fold e1 w1. unfold bind, ret.
  by destruct (_save_clean_version E _ _ _ _) as [[[]|e] w'].
Qed.

(** Whenever [save] returns, branded or not, every axes and every text
    of a well-formed state is as visible as it was before the call: what
    the clean export hid is shown again, and nothing else was hidden or
    shown. *)
Theorem save_restores_visibility
    (E : Env) (filepath : string) (branded : bool)
    (kwargs : Dict.t string pyval) (w : World) (result : Saved) :
  well_formed w ->
  fst (save E filepath branded kwargs w) = Ok result ->
  map ax_visible (axes_store (snd (save E filepath branded kwargs w)))
  = map ax_visible (axes_store w)
  /\ map tx_visible (text_store (snd (save E filepath branded kwargs w)))
     = map tx_visible (text_store w).
Proof.
  intros Hwf. apply well_formed_gcf in Hwf as [Hwf _].
  destruct (gcf_state_stores w) as (Hga & Hgt & _).
  destruct (well_formed_NoDup (gcf_state w) Hwf) as [Hna Hnt].
  destruct branded.
  - rewrite save_branded_cases. cbv zeta.
    destruct (savefig_error E _) as [e|]; [done|].
    match goal with
    | |- context [_save_clean_version E ?g ?p ?k ?w1] =>
        pose proof (clean_version_returns_stores E g p k w1
                      (Hna g) (Hnt g)) as H;
        destruct (_save_clean_version E g p k w1) as [[[]|?] w']
    end; [|done].
    simpl in *. intros _. destruct (H eq_refl) as [-> ->].
    by rewrite Hga, Hgt.
  - rewrite save_clean_only_run. cbv zeta.
    match goal with
    | |- context [_save_clean_version E ?g ?p ?k ?w1] =>
        pose proof (clean_version_returns_stores E g p k w1
                      (Hna g) (Hnt g)) as H;
        destruct (_save_clean_version E g p k w1) as [[[]|?] w']
    end; [|done].
    simpl in *. intros _. destruct (H eq_refl) as [-> ->].
    by rewrite Hga, Hgt.
Qed.

Lemma sample_drawn_chart_well_formed : well_formed Sample.drawn_chart.
Proof.
  apply well_formed_add_source_citation, well_formed_add_logo,
    well_formed_add_footnote, well_formed_subplots.
  split; [intros fig f Hl; by destruct fig|done].
Defined.

(** The chart drawn step by step, saved branded: the citation and the
    footnote are visible afterwards, as they were. *)
Lemma save_restores_visibility_witness :
  well_formed Sample.drawn_chart
  /\ fst (save Sample.env "out/chart.png" true [] Sample.drawn_chart)
     = Ok (BrandedAndClean "out/chart_branded.png" "out/chart_clean.png")
  /\ map tx_visible
       (text_store (snd (save Sample.env "out/chart.png" true []
                           Sample.drawn_chart)))
     = [true; true]
  /\ map ax_visible
       (axes_store (snd (save Sample.env "out/chart.png" true []
                           Sample.drawn_chart)))
     = [true; true].
Proof.
  pose proof sample_drawn_chart_well_formed as Hwf.
  assert (Hr : fst (save Sample.env "out/chart.png" true []
                      Sample.drawn_chart)
               = Ok (BrandedAndClean "out/chart_branded.png"
                                     "out/chart_clean.png"))
    by (vm_compute; reflexivity).
  destruct (save_restores_visibility Sample.env "out/chart.png" true []
              Sample.drawn_chart _ Hwf Hr) as [Ha Ht].
  split; [exact Hwf|]. split; [exact Hr|].
  split; [rewrite Ht|rewrite Ha]; reflexivity.
Defined.

(** ** A citation, from drawing to export *)






(** ** Legends *)

(** [create_legend], run, once the handles and labels are collected. *)
Lemma create_legend_run (self : PlotBuddy) (ax : ref)
    (legend_entries : option (list (list string))) (ncol : option Z)
    (position : string) (kwargs : Dict.t string pyval) (w : World) :
  create_legend self ax legend_entries ncol position kwargs w
  = match fst (collect_legend ax legend_entries w) with
    | Raise e => (Raise e, w)
    | Ok ([], _) | Ok (_, []) => (Ok None, w)
    | Ok (handles, labels) =>
        let lg := legend_of self handles labels ncol position kwargs in
        (Ok (Some lg), with_legend lg ax w)
    end.
Proof.
  unfold create_legend. unfold bind at 1.
  pose proof (collect_legend_state ax legend_entries w) as Hw.
  destruct (collect_legend ax legend_entries w) as [[[hs ls]|e] w'];
    simpl in Hw; subst w'; [|done]. simpl.
  destruct hs as [|h hs]; [done|]. destruct ls as [|l ls]; [done|].
  reflexivity.
Qed.

Lemma manual_legend_pairs (pairs : list (string * string))
    (handles : list Handle) (labels : list string) (w : World) :
  manual_legend (map legend_entry pairs) handles labels w
  = (Ok (handles ++ map (fun p => square_patch (snd p)) pairs,
         labels ++ map fst pairs), w).
Proof.
  revert handles labels.
  induction pairs as [|[label color] pairs IH]; intros handles labels.
  - simpl. by rewrite !app_nil_r.
  - simpl. rewrite IH. by rewrite <- !app_assoc.
Qed.

Lemma manual_legend_bad_entry (entries : list (list string))
    (bad : list string) (handles : list Handle) (labels : list string)
    (w : World) :
  bad ∈ entries -> length bad <> 2%nat ->
  manual_legend entries handles labels w
  = (Raise (mkExn ValueError
              "legend_entries must be tuples of (label, color)"), w).
Proof.
  intros Hin Hlen. revert handles labels.
  induction entries as [|entry entries IH]; intros handles labels.
  { by apply elem_of_nil in Hin. }
  apply elem_of_cons in Hin as [<-|Hin].
  - simpl. by destruct bad as [|a [|b [|c bad]]].
  - simpl. destruct entry as [|a [|b [|c entry]]]; try done. by apply IH.
Qed.

Lemma manual_legend_inv (entries : list (list string))
    (handles hs : list Handle) (labels ls : list string) (w : World) :
  fst (manual_legend entries handles labels w) = Ok (hs, ls) ->
  exists pairs,
    entries = map legend_entry pairs
    /\ hs = handles ++ map (fun p => square_patch (snd p)) pairs
    /\ ls = labels ++ map fst pairs.
Proof.
  revert handles labels.
  induction entries as [|entry entries IH]; intros handles labels.
  { simpl. intros [= <- <-]. exists []. by rewrite !app_nil_r. }
  simpl. destruct entry as [|label [|color [|? ?]]]; try done.
  intros (pairs & -> & -> & ->)%IH.
  exists ((label, color) :: pairs). by rewrite <- !app_assoc.
Qed.

(** Manual legend entries.  Whenever [create_legend] returns a legend
    for the entries it is given, every entry was a pair
    [(label, color)]; the legend has the labels in order and one square
    patch per colour, and is the legend of the axes.  An entry that is
    not a pair, wherever it stands, keeps [create_legend] from
    returning, and nothing is attached to the axes; when it is the first
    entry, what is raised is the [ValueError] of [create_legend]. *)
Theorem manual_legend_entries
    (self : PlotBuddy) (ax : ref) (ncol : option Z) (position : string)
    (kwargs : Dict.t string pyval) (w : World) :
  (forall entries lg w',
     create_legend self ax (Some entries) ncol position kwargs w
     = (Ok (Some lg), w') ->
     exists pairs,
       pairs <> []
       /\ entries = map legend_entry pairs
       /\ lg_labels lg = map fst pairs
       /\ lg_handles lg = map (fun p => square_patch (snd p)) pairs
       /\ (ax_legend <$> axes_store w' !! ax)
          = ((fun _ => Some lg) <$> axes_store w !! ax))
  /\ (forall entries bad,
        bad ∈ entries -> length bad <> 2%nat ->
        exists e,
          create_legend self ax (Some entries) ncol position kwargs w
          = (Raise e, w))
  /\ (forall bad rest,
        length bad <> 2%nat ->
        create_legend self ax (Some (bad :: rest)) ncol position kwargs w
        = (Raise (mkExn ValueError
                    "legend_entries must be tuples of (label, color)"), w)).
Proof.
  split; [|split].
  - intros entries lg w'. rewrite create_legend_run.
    change (collect_legend ax (Some entries) w)
      with (manual_legend entries [] [] w).
    destruct (fst (manual_legend entries [] [] w)) as [[hs ls]|e] eqn:Hm;
      [|done].
    destruct (manual_legend_inv entries [] hs [] ls w Hm)
      as (pairs & -> & -> & ->).
    destruct pairs as [|p pairs]; [done|]. simpl.
    intros [= <- <-]. exists (p :: pairs).
    split; [done|]. split; [done|]. split; [done|]. split; [done|].
    unfold with_legend, ax_legend_call, bind, modify, ret. simpl.
    rewrite list_lookup_alter_eq. by destruct (axes_store w !! ax).
  - intros entries bad Hin Hlen. rewrite create_legend_run. simpl.
    rewrite (manual_legend_bad_entry entries bad) by done. by eexists.
  - intros bad rest Hlen. rewrite create_legend_run.
    change (collect_legend ax (Some (bad :: rest)) w)
      with (manual_legend (bad :: rest) [] [] w).
    rewrite (manual_legend_bad_entry (bad :: rest) bad); [done| |done].
    by left.
Qed.

(** Two entries on the plot axes of the sample chart; and a triple put
    before them. *)
Lemma manual_legend_entries_witness :
  (exists lg w',
     create_legend Sample.buddy 0
       (Some [["Plan"; "#1f77b4"]; ["Actual"; "#ff7f0e"]]) None "bottom"
       [] Sample.chart = (Ok (Some lg), w')
     /\ lg_labels lg = ["Plan"; "Actual"]
     /\ lg_handles lg = [square_patch "#1f77b4"; square_patch "#ff7f0e"]
     /\ (ax_legend <$> axes_store w' !! 0%nat) = Some (Some lg))
  /\ create_legend Sample.buddy 0
       (Some [["Actual"; "#ff7f0e"; "dashed"]; ["Plan"; "#1f77b4"]]) None
       "bottom" [] Sample.chart
     = (Raise (mkExn ValueError
                 "legend_entries must be tuples of (label, color)"),
        Sample.chart).
Proof.
  destruct (manual_legend_entries Sample.buddy 0 None "bottom" []
              Sample.chart) as (Hok & _ & Hbad).
  split.
  - destruct (create_legend Sample.buddy 0
                (Some [["Plan"; "#1f77b4"]; ["Actual"; "#ff7f0e"]]) None
                "bottom" [] Sample.chart) as [[[lg|]|e] w'] eqn:Hrun;
      try (vm_compute in Hrun; discriminate).
    destruct (Hok _ lg w' Hrun) as (pairs & _ & Hent & Hl & Hh & Hax).
    destruct pairs as [|[l1 c1] [|[l2 c2] [|? ?]]]; try discriminate.
    injection Hent as <- <- <- <-.
    exists lg, w'. split; [reflexivity|]. split; [exact Hl|].
    split; [exact Hh|]. rewrite Hax. reflexivity.
  - apply Hbad. simpl. lia.
Defined.

Lemma manual_legend_shape (entries : list (list string))
    (handles hs : list Handle) (labels ls : list string) (w : World) :
  length handles = length labels ->
  Forall (fun h => is_Line2D h = false) handles ->
  fst (manual_legend entries handles labels w) = Ok (hs, ls) ->
  length hs = length ls /\ Forall (fun h => is_Line2D h = false) hs.
Proof.
  revert handles labels.
  induction entries as [|entry entries IH]; intros handles labels Hlen Hall.
  { simpl. by intros [= <- <-]. }
  simpl. destruct entry as [|label [|color [|? ?]]]; try done.
  apply IH.
  - rewrite !length_app. simpl. lia.
  - apply Forall_app. split; [done|]. by repeat constructor.
Qed.

Lemma collect_legend_shape (ax : ref)
    (legend_entries : option (list (list string))) (w : World)
    (hs : list Handle) (ls : list string) :
  fst (collect_legend ax legend_entries w) = Ok (hs, ls) ->
  length hs = length ls /\ Forall (fun h => is_Line2D h = false) hs.
Proof.
  destruct legend_entries as [entries|].
  - by apply manual_legend_shape.
  - rewrite collect_legend_automatic. intros [= <- <-]. split.
    + by rewrite !length_map.
    + apply Forall_forall. intros h (h' & -> & _)%list_elem_of_fmap.
      by destruct h'.
Qed.

(** A legend that [create_legend] returns has as many handles as labels,
    at least one, and no line among its handles.  In automatic mode it
    has the labels [ax.get_legend_handles_labels()] reports, as they are
    and in the order they are reported, and the handles reported with
    them: a line is shown by a square patch of its colour, every other
    handle is passed on as it is. *)
Theorem legend_shows_patches_only
    (self : PlotBuddy) (ax : ref)
    (legend_entries : option (list (list string))) (ncol : option Z)
    (position : string) (kwargs : Dict.t string pyval) (w : World)
    (lg : Legend) :
  fst (create_legend self ax legend_entries ncol position kwargs w)
  = Ok (Some lg) ->
  length (lg_handles lg) = length (lg_labels lg)
  /\ lg_labels lg <> []
  /\ (forall h, h ∈ lg_handles lg -> is_Line2D h = false)
  /\ (legend_entries = None ->
      exists handles labels,
        fst (get_legend_handles_labels ax w) = Ok (handles, labels)
        /\ lg_labels lg = labels
        /\ length (lg_handles lg) = length handles
        /\ forall i h,
             handles !! i = Some h ->
             lg_handles lg !! i
             = Some (match h with
                     | Line2D color => square_patch color
                     | _ => h
                     end)).
Proof.
  rewrite create_legend_run.
  pose proof (collect_legend_shape ax legend_entries w) as Hshape.
  pose proof (collect_legend_automatic ax w) as Hauto.
  destruct (fst (collect_legend ax legend_entries w)) as [[hs ls]|e] eqn:Hc;
    [|done].
  destruct (Hshape hs ls eq_refl) as [Hlen Hall].
  destruct hs as [|h hs]; [done|]. destruct ls as [|l ls]; [done|].
  simpl. intros [= <-]. simpl. split; [done|]. split; [done|].
  split; [by apply Forall_forall|].
  intros ->. rewrite Hauto in Hc. injection Hc as Hh Hl.
  exists (map fst (labelled_plots (axes_store w !! ax))),
         (map snd (labelled_plots (axes_store w !! ax))).
  split; [done|]. split; [done|]. rewrite <- Hh. split.
  - rewrite length_map. apply (f_equal length) in Hh.
    rewrite !length_map in Hh. by simpl in Hh.
  - intros i h0 Hi. rewrite list_lookup_fmap, Hi. simpl. by destruct h0.
Qed.

(** The two labelled lines of the sample chart; the third line, labelled
    [_nolegend_], is not reported. *)
Lemma legend_shows_patches_only_witness :
  exists lg,
    fst (create_legend Sample.buddy 0 None None "bottom" [] Sample.chart)
    = Ok (Some lg)
    /\ fst (get_legend_handles_labels 0 Sample.chart)
       = Ok ([Line2D "blue"; Line2D "red"], ["2023"; "2024"])
    /\ lg_labels lg = ["2023"; "2024"]
    /\ lg_handles lg !! 0%nat = Some (square_patch "blue")
    /\ lg_handles lg !! 1%nat = Some (square_patch "red")
    /\ length (lg_handles lg) = 2%nat.
Proof.
  destruct (fst (create_legend Sample.buddy 0 None None "bottom" []
                   Sample.chart)) as [[lg|]|e] eqn:Hrun;
    try (vm_compute in Hrun; discriminate).
  destruct (legend_shows_patches_only Sample.buddy 0 None None "bottom" []
              Sample.chart lg Hrun) as (_ & _ & _ & Hauto).
  destruct (Hauto eq_refl) as (handles & labels & Hg & Hl & Hn & Hh).
  vm_compute in Hg. injection Hg as <- <-.
  exists lg. split; [reflexivity|]. split; [reflexivity|].
  split; [exact Hl|]. split; [exact (Hh 0%nat _ eq_refl)|].
  split; [exact (Hh 1%nat _ eq_refl)|exact Hn].
Defined.

(** *** Keyword arguments of the legend *)

Lemma position_config_keys (position : string) :
  Dict.keys (position_config position) = ["loc"; "bbox_to_anchor"].
Proof.
  unfold position_config, legend_positions.
  rewrite !Dict_get_cons.
  repeat (case_decide; [done|]). done.
Qed.

(** What the legend is drawn with: a keyword argument of the caller wins;
    then the placement of the position, ["bottom"] for a position that
    is not known; then the defaults of the buddy. *)
Theorem legend_keyword_arguments
    (self : PlotBuddy) (ax : ref)
    (legend_entries : option (list (list string))) (ncol : option Z)
    (position : string) (kwargs : Dict.t string pyval) (w : World)
    (lg : Legend) :
  NoDup (Dict.keys kwargs) ->
  fst (create_legend self ax legend_entries ncol position kwargs w)
  = Ok (Some lg) ->
  forall k,
    Dict.get k (lg_kwargs lg)
    = match Dict.get k kwargs with
      | Some v => Some v
      | None =>
          match Dict.get k (position_config position) with
          | Some v => Some v
          | None =>
              Dict.get k
                (legend_base_kwargs self
                   (match ncol with
                    | None => auto_ncol (lg_labels lg)
                    | Some n => n
                    end))
          end
      end.
Proof.
  intros Hnd. rewrite create_legend_run.
  destruct (fst (collect_legend ax legend_entries w)) as [[hs ls]|e]; [|done].
  destruct hs as [|h hs]; [done|]. destruct ls as [|l ls]; [done|].
  simpl. intros [= <-] k. unfold legend_of. simpl.
  rewrite Dict_get_merge by done.
  rewrite Dict_get_merge; [done|].
  rewrite position_config_keys. decided.
Qed.

(** A legend on the right, with a font size of the caller's. *)
Lemma legend_keyword_arguments_witness :
  NoDup (Dict.keys [("fontsize", VInt 9)])
  /\ exists lg,
       fst (create_legend Sample.buddy 0 None None "right"
              [("fontsize", VInt 9)] Sample.chart) = Ok (Some lg)
       /\ Dict.get "fontsize" (lg_kwargs lg) = Some (VInt 9)
       /\ Dict.get "loc" (lg_kwargs lg) = Some (VStr "center left")
       /\ Dict.get "frameon" (lg_kwargs lg) = Some (VBool false)
       /\ Dict.get "ncol" (lg_kwargs lg) = Some (VInt 2).
Proof.
  assert (Hnd : NoDup (Dict.keys [("fontsize", VInt 9)])) by decided.
  split; [exact Hnd|].
  destruct (fst (create_legend Sample.buddy 0 None None "right"
                   [("fontsize", VInt 9)] Sample.chart))
    as [[lg|]|e] eqn:Hrun; try (vm_compute in Hrun; discriminate).
  pose proof (legend_keyword_arguments Sample.buddy 0 None None "right"
                [("fontsize", VInt 9)] Sample.chart lg Hnd Hrun) as Hkw.
  assert (Hl : lg_labels lg = ["2023"; "2024"]).
  { vm_compute in Hrun. injection Hrun as <-. reflexivity. }
  exists lg. split; [reflexivity|].
  repeat split; rewrite Hkw; try reflexivity.
  rewrite Hl. vm_compute. reflexivity.
Defined.

(** *** The number of columns *)

Lemma auto_ncol_bounds (labels : list string) :
  labels <> [] ->
  (1 <= auto_ncol labels <= Z.of_nat (length labels))%Z
  /\ (auto_ncol labels <= 5)%Z
  /\ ((5 < length labels)%nat -> (auto_ncol labels <= 4)%Z).
Proof.
  intros Hne. unfold auto_ncol. cbv zeta.
  assert (Hn : (1 <= Z.of_nat (length labels))%Z)
    by (destruct labels; [done|simpl; lia]).
  generalize (match labels with
              | [] => 0%float
              | _ :: _ =>
                  (float_of_Z
                     (fold_right Z.add 0%Z
                        (map (fun l => Z.of_nat (PyStr.len l)) labels))
                   / float_of_Z (Z.of_nat (length labels)))%float
              end).
  intros avg.
  destruct (40 <? avg)%float; [lia|].
  destruct (25 <? avg)%float; [lia|].
  destruct (Z.ltb_spec 5 (Z.of_nat (length labels))); lia.
Qed.

(** When the caller gives no number of columns, in [ncol] or among the
    keyword arguments, the legend gets between one column and as many as
    it has labels, never more than five, and at most four when it has more
    than five labels. *)
Theorem legend_columns_automatic
    (self : PlotBuddy) (ax : ref)
    (legend_entries : option (list (list string)))
    (position : string) (kwargs : Dict.t string pyval) (w : World)
    (lg : Legend) :
  NoDup (Dict.keys kwargs) ->
  Dict.get "ncol" kwargs = None ->
  fst (create_legend self ax legend_entries None position kwargs w)
  = Ok (Some lg) ->
  exists n : Z,
    Dict.get "ncol" (lg_kwargs lg) = Some (VInt n)
    /\ (1 <= n <= Z.of_nat (length (lg_labels lg)))%Z
    /\ (n <= 5)%Z
    /\ ((5 < length (lg_labels lg))%nat -> (n <= 4)%Z).
Proof.
  intros Hnd Hk. rewrite create_legend_run.
  destruct (fst (collect_legend ax legend_entries w)) as [[hs ls]|e]; [|done].
  destruct hs as [|h hs]; [done|]. destruct ls as [|l ls]; [done|].
  simpl. intros [= <-]. exists (auto_ncol (l :: ls)).
  split; [|by apply auto_ncol_bounds].
  unfold legend_of. simpl lg_kwargs.
  rewrite Dict_get_merge, Hk by done.
  rewrite Dict_get_merge by (rewrite position_config_keys; decided).
  assert (Hp : Dict.get "ncol" (position_config position) = None).
  { unfold position_config, legend_positions. rewrite !Dict_get_cons.
    repeat (case_decide; [done|]). done. }
  rewrite Hp. reflexivity.
Qed.

(** Seven short labels are laid out in four columns. *)
Lemma legend_columns_automatic_witness :
  let entries := map (fun l => [l; "black"])
                     ["a"; "b"; "c"; "d"; "e"; "f"; "g"] in
  NoDup (Dict.keys ([] : Dict.t string pyval))
  /\ exists lg n,
       fst (create_legend Sample.buddy 0 (Some entries) None "top" []
              Sample.chart) = Ok (Some lg)
       /\ Dict.get "ncol" (lg_kwargs lg) = Some (VInt n)
       /\ (1 <= n <= 4)%Z.
Proof.
  intros entries.
  assert (Hnd : NoDup (Dict.keys ([] : Dict.t string pyval)))
    by apply NoDup_nil_2.
  split; [exact Hnd|].
  destruct (fst (create_legend Sample.buddy 0 (Some entries) None "top" []
                   Sample.chart)) as [[lg|]|e] eqn:Hrun;
    try (vm_compute in Hrun; discriminate).
  destruct (legend_columns_automatic Sample.buddy 0 (Some entries) "top" []
              Sample.chart lg Hnd eq_refl Hrun) as (n & Hn & Hlo & _ & Hhi).
  exists lg, n. split; [reflexivity|]. split; [exact Hn|].
  split; [lia|]. apply Hhi.
  vm_compute in Hrun. injection Hrun as <-. simpl. lia.
Defined.

(** ** A footnote, from drawing to export *)




(** ** Which figure [save] writes *)

Lemma clean_only_outcome (E : Env) (filepath : string)
    (kwargs : Dict.t string pyval) (w : World) :
  let clean_path := fst (OsPath.splitext filepath) +:+ "_clean"
                    +:+ snd (OsPath.splitext filepath) in
  let f := figure_at (gcf_state w) (gcf_ref w) in
  savefig_error E clean_path = None ->
  fst (save E filepath false kwargs w) = Ok (CleanOnly clean_path)
  /\ exports (snd (save E filepath false kwargs w))
     = exports w
       ++ [mkExport clean_path (save_kwargs_of kwargs)
             (map clean_axes (shown_axes (gcf_state w) f))
             (map clean_text (shown_texts (gcf_state w) f))]
  /\ current_fig (snd (save E filepath false kwargs w)) = Some (gcf_ref w).
Proof.
  intros clean_path f Hok.
  pose proof (save_clean_only_run E filepath kwargs w) as Hrun.
  cbv zeta in Hrun. fold clean_path in Hrun.
  pose proof (save_clean_version_exports E (gcf_ref w) clean_path
                (save_kwargs_of kwargs) (gcf_state w)) as Hex.
  pose proof (save_clean_version_run E (gcf_ref w) clean_path
                (save_kwargs_of kwargs) (gcf_state w)) as Hcv.
  cbv zeta in Hcv.
  destruct (gcf_state_stores w) as (_ & _ & Hg).
  rewrite Hok in Hex, Hcv. rewrite Hrun, Hcv. simpl.
  split; [done|]. rewrite Hcv in Hex. simpl in Hex.
  split; [by rewrite Hex, Hg, clean_export_fields|].
  match goal with
  | |- current_fig (restored ?d ?w0) = _ =>
      destruct (restored_frame d w0) as (_ & _ & _ & -> & _)
  end.
  simpl.
  destruct (clean_state_frame (gcf_state w) (figure_at (gcf_state w) (gcf_ref w)))
    as (_ & _ & _ & -> & _).
  unfold gcf_state, gcf_ref, plt_gcf.
  destruct (current_fig w) eqn:Hcur; simpl; [exact Hcur|done].
Qed.

(** [save] writes the current figure of the process, which is the figure
    set up last: right after [setup_figure], whatever was drawn before,
    the file shows the one new axes, with nothing hidden and no text.
    And where there is no figure at all, [save] does not fail: it makes
    an empty figure, which is the current one from then on, and writes
    it. *)
Theorem save_writes_the_current_figure
    (E : Env) (self : PlotBuddy) (figsize : option (Z * Z))
    (filepath : string) (kwargs : Dict.t string pyval) :
  let clean_path := fst (OsPath.splitext filepath) +:+ "_clean"
                    +:+ snd (OsPath.splitext filepath) in
  savefig_error E clean_path = None ->
  (forall c : Canvas, exists c1,
     setup_figure self figsize c
     = (Ok (length (fig_store (drawing c)), length (axes_store (drawing c))),
        c1)
     /\ fig_sizes c1
        = fig_sizes c
          ++ [(length (fig_store (drawing c)),
               default (boxy_figure self) figsize)]
     /\ fst (save E filepath false kwargs (drawing c1))
        = Ok (CleanOnly clean_path)
     /\ exports (snd (save E filepath false kwargs (drawing c1)))
        = exports (drawing c)
          ++ [mkExport clean_path (save_kwargs_of kwargs) [plain_axes] []])
  /\ (forall w : World, current_fig w = None ->
        fst (save E filepath false kwargs w) = Ok (CleanOnly clean_path)
        /\ exports (snd (save E filepath false kwargs w))
           = exports w ++ [mkExport clean_path (save_kwargs_of kwargs) [] []]
        /\ current_fig (snd (save E filepath false kwargs w))
           = Some (length (fig_store w))).
Proof.
  intros clean_path Hok. split.
  - intros c. eexists. split.
    { unfold setup_figure, plt_subplots. reflexivity. }
    split. { simpl. by destruct figsize. }
    match goal with
    | |- context [drawing (mkCanvas ?x _ _ _ _)] =>
        change (drawing (mkCanvas x _ _ _ _)) with x; set (w1 := x)
    end.
    destruct (clean_only_outcome E filepath kwargs w1 Hok) as (Hr & Hx & _).
    fold clean_path in Hr, Hx. split; [exact Hr|]. rewrite Hx.
    assert (Hg : gcf_state w1 = w1) by (by unfold gcf_state, plt_gcf, w1).
    assert (Hf : figure_at w1 (gcf_ref w1)
                 = mkFigure [length (axes_store (drawing c))] []).
    { unfold figure_at, gcf_ref, w1. simpl.
      by rewrite lookup_app_r, Nat.sub_diag by lia. }
    rewrite Hg, Hf. unfold shown_axes, shown_texts, w1. csimpl.
    by rewrite lookup_app_r, Nat.sub_diag by lia.
  - intros w Hcur.
    destruct (clean_only_outcome E filepath kwargs w Hok) as (Hr & Hx & Hc).
    fold clean_path in Hr, Hx. split; [exact Hr|]. rewrite Hx, Hc.
    split; [|unfold gcf_ref; by rewrite Hcur].
    assert (Hf : figure_at (gcf_state w) (gcf_ref w) = mkFigure [] []).
    { unfold figure_at, gcf_state, gcf_ref, plt_gcf. rewrite Hcur. simpl.
      by rewrite lookup_app_r, Nat.sub_diag by lia. }
    by rewrite Hf.
Qed.

(** A second figure set up after the sample chart was drawn: the file
    shows the empty new figure, not the chart. *)
Lemma save_writes_the_current_figure_witness :
  savefig_error Sample.env "out/chart_clean.png" = None
  /\ (exists c1,
        setup_figure Sample.buddy None Sample.drawn_canvas
        = (Ok (1%nat, 1%nat), c1)
        /\ fig_sizes c1 = [(0%nat, (12, 9)%Z); (1%nat, (12, 9)%Z)]
        /\ map ex_axes (exports (snd (save Sample.env "out/chart.png" false []
                                        (drawing c1))))
           = [[plain_axes]])
  /\ exports (snd (save Sample.env "out/chart.png" false [] Sample.fresh))
     = [mkExport "out/chart_clean.png" (save_kwargs_of []) [] []].
Proof.
  pose proof (save_writes_the_current_figure Sample.env Sample.buddy None
                "out/chart.png" [] eq_refl) as [H1 H2].
  split; [reflexivity|]. split.
  - destruct (H1 Sample.drawn_canvas) as (c1 & Hrun & Hsz & _ & Hx).
    exists c1. split; [exact Hrun|]. split; [rewrite Hsz|rewrite Hx];
      reflexivity.
  - destruct (H2 Sample.fresh eq_refl) as (_ & Hx & _). exact Hx.
Defined.

(** ** The functions kept for older callers *)

Lemma alter_snoc {A} (g : A -> A) (l : list A) (x : A) :
  alter g (length l) (l ++ [x]) = l ++ [g x].
Proof.
  induction l as [|y l IH]; [done|].
  change (alter g (length (y :: l)) ((y :: l) ++ [x]))
    with (y :: alter g (length l) (l ++ [x])).
  by rewrite IH.
Qed.

(** [add_gs_logo] takes [left] and [bottom] and does not use them: the
    logo goes to the bottom right, [0.01] from the edges, whatever they
    are.  It returns only for a path that is there and an image that can
    be read, and then the figure has one more axes, holding the image,
    with its axis turned off; when it raises, nothing was drawn, and what
    it raises is never the [ValueError] of an invalid position. *)
Theorem add_gs_logo_places_bottom_right
    (E : Env) (fig : ref) (logo_path : option string)
    (left_ bottom_ width height : float) (w : World) :
  match Compat.add_gs_logo E fig logo_path left_ bottom_ width height w with
  | (Ok _, w') =>
      exists path img a,
        logo_path = Some path
        /\ path_exists E path = true
        /\ imread E path = Ok img
        /\ axes_store w' = axes_store w ++ [a]
        /\ ax_rect a = Some ((1 - width - 0.01)%float, 0.01%float, width, height)
        /\ ax_images a = [img]
        /\ ax_axison a = false
        /\ ax_visible a = true
  | (Raise e, w') => w' = w /\ exn_cls e <> ValueError
  end.
Proof.
  unfold Compat.add_gs_logo, add_logo.
  destruct logo_path as [path|]; simpl; [|by split].
  destruct (PyStr.truthy path); simpl; [|by split].
  destruct (path_exists E path) eqn:Hx; simpl; [|by split].
  unfold bind at 1, try_except, mpimg_imread.
  destruct (imread E path) as [img|e] eqn:Hi; simpl.
  - unfold bind, fig_add_axes, axes_imshow, axes_axis_off, modify. simpl.
    eexists path, img, _. split; [done|]. split; [done|]. split; [done|].
    split; [by rewrite !alter_snoc|]. done.
  - unfold reraise, raise. destruct (is_Exception (exn_cls e)) eqn:He; simpl.
    + by split.
    + split; [done|]. intros Hv. by rewrite Hv in He.
Qed.

(** ** A project theme *)

(** The process after a load. *)
Lemma load_style_world (E : Env) (b : PlotBuddy) (w : World)
    (style_name : string) :
  let p := style_path_of b style_name in
  world (snd (load_style_from_file E style_name (mkSt b w)))
  = if path_exists E p then
      match style_use E p with
      | None => set_styles (fun l => l ++ [p]) w
      | Some e =>
          if is_Exception (exn_cls e) then
            set_stdout
              (fun out => out ++ ["Error loading style " +:+ style_name
                                  +:+ ": " +:+ exn_msg e]) w
          else w
      end
    else
      set_stdout
        (fun out => out ++ ["Warning: Style file not found at " +:+ p]) w.
Proof.
  unfold load_style_from_file, style_path_of, plt_style_use. run.
  destruct (path_exists E _); simpl; [|done].
  destruct (style_use E _) as [e|]; simpl; [|done].
  unfold reraise; simpl. destruct (is_Exception (exn_cls e)); done.
Qed.

(** Where the project has a theme directory with a CSS file that gives a
    theme name, [from_project_config] makes the buddy of the resolved
    directory and loads [<name>_style] from it.  When the style loads, it
    is the current style of the buddy returned and is in use in the
    process; when the style file is not there, the buddy is returned all
    the same, without a current style, after one warning. *)
Theorem from_project_config_project_theme
    (E : Env) (cfg : option string) (w : World) (name : string) :
  Path_exists E (project_theme_dir E) = true ->
  detect_theme_name E (project_theme_dir E) = Some name ->
  PyStr.truthy name = true ->
  let b0 := __init__ E (Some (resolve E (PathLib.to_string
                                           (project_theme_dir E)))) in
  let p := style_path_of b0 (name +:+ "_style") in
  (path_exists E p = true -> style_use E p = None ->
   exists b,
     from_project_config E cfg w = (Ok b, set_styles (fun l => l ++ [p]) w)
     /\ current_style b = Some (name +:+ "_style")
     /\ style_dir_path b = style_dir_path b0
     /\ icon_logo_path b = icon_logo_path b0
     /\ text_logo_path b = text_logo_path b0)
  /\ (path_exists E p = false ->
      current_style b0 = None
      /\ from_project_config E cfg w
         = (Ok b0,
            set_stdout
              (fun out => out ++ ["Warning: Style file not found at " +:+ p])
              w)).
Proof.
  intros Hdir Hname Ht b0 p.
  pose proof (from_project_config_cases E cfg w) as H. cbv zeta in H.
  rewrite Hdir, Hname in H. simpl in H. rewrite Ht in H. simpl in H.
  fold b0 in H.
  pose proof (load_style_outcome E b0 w (name +:+ "_style")) as Ho.
  pose proof (load_style_self E b0 w (name +:+ "_style")) as Hs.
  pose proof (load_style_world E b0 w (name +:+ "_style")) as Hw.
  cbv zeta in Hs, Hw. fold p in Ho, Hw.
  split.
  - intros Hx Hu. rewrite Hx, Hu in Ho, Hw. rewrite Ho in H, Hs.
    destruct Hs as (Hc & Hd & Hi & Hl).
    eexists. split; [rewrite H, Hw; reflexivity|]. done.
  - intros Hx. rewrite Hx in Ho, Hw. rewrite Ho in H, Hs.
    split; [done|]. by rewrite H, Hw, Hs.
Qed.

(** On the sample, the project theme [my_v2] is found in [theme], and its
    style is loaded from the resolved directory. *)
Lemma from_project_config_project_theme_witness :
  (Path_exists Sample.env (project_theme_dir Sample.env) = true
   /\ detect_theme_name Sample.env (project_theme_dir Sample.env)
      = Some "my_v2")
  /\ exists b,
       from_project_config Sample.env None Sample.fresh
       = (Ok b,
          set_styles (fun l => l ++ ["/work/theme/my_v2_style.mplstyle"])
                     Sample.fresh)
       /\ current_style b = Some "my_v2_style"
       /\ style_dir_path b = "/work/theme".
Proof.
  split; [split; vm_compute; reflexivity|].
  destruct (proj1 (from_project_config_project_theme Sample.env None
                     Sample.fresh "my_v2" eq_refl eq_refl eq_refl)
              eq_refl eq_refl) as (b & Hrun & Hc & Hd & _).
  exists b. split; [exact Hrun|]. split; [exact Hc|]. rewrite Hd.
  vm_compute. reflexivity.
Defined.

(** ** Style contexts *)

(** [get_style_context] looks at the same file as [load_style_from_file]
    and does not read it.  For a style that loads, it gives the context
    of that file and prints nothing.  It gives the context of the file
    also for a style file the parser rejects, for which the load returns
    [False] or raises.  Only for a file that is not there, when the load
    returns [False], it prints a warning and gives the default style. *)
Theorem style_context_of_a_style
    (E : Env) (self : PlotBuddy) (style_name : string) (w : World) :
  let p := style_path_of self style_name in
  let loaded := fst (load_style_from_file E style_name (mkSt self w)) in
  (loaded = Ok true ->
   get_style_context E self style_name w = (Ok (ContextOf p), w))
  /\ (path_exists E p = true -> loaded <> Ok true ->
      get_style_context E self style_name w = (Ok (ContextOf p), w)
      /\ exists e, style_use E p = Some e)
  /\ (path_exists E p = false ->
      loaded = Ok false
      /\ fst (get_style_context E self style_name w) = Ok (ContextOf "default")
      /\ stdout (snd (get_style_context E self style_name w))
         = stdout w
           ++ ["Warning: Style file not found at " +:+ p
               +:+ ", using default style"]).
Proof.
  intros p loaded. subst loaded. rewrite load_style_outcome. fold p.
  unfold get_style_context. fold p.
  destruct (path_exists E p); simpl.
  - split; [done|]. split; [|done]. intros _ Hl. split; [done|].
    destruct (style_use E p) as [e|]; [by exists e|done].
  - split; [done|]. split; [done|]. intros _. by split.
Qed.

(** The rejected style file of the sample theme [broken]: the load
    returns [False], the context is the file. *)
Lemma style_context_of_a_style_witness :
  let b := __init__ Sample.env (Some "/repo/user_resources/themes/broken") in
  fst (load_style_from_file Sample.env "broken_style" (mkSt b Sample.fresh))
  = Ok false
  /\ get_style_context Sample.env b "broken_style" Sample.fresh
     = (Ok (ContextOf
              "/repo/user_resources/themes/broken/broken_style.mplstyle"),
        Sample.fresh).
Proof.
  intros b. split; [vm_compute; reflexivity|].
  refine (proj1 (proj1 (proj2 (style_context_of_a_style Sample.env b
                                 "broken_style" Sample.fresh)) _ _)).
  - vm_compute. reflexivity.
  - vm_compute. discriminate.
Defined.

(** ** A theme that cannot be loaded *)

(** Given a directory of themes, [from_theme] gives a buddy of the theme
    directory [themes_dir/theme_name] whether or not the style of the
    theme can be loaded, and even when the directory is not there.  When
    the style loads, it is the current style and nothing is printed.
    When the style file is missing, or the parser rejects it with an
    [Exception], the buddy has no current style and two lines are
    printed: what went wrong, and that the default styling is used.
    Only what the parser raises outside [Exception] reaches the
    caller. *)
Theorem from_theme_style_or_warning
    (E : Env) (theme_name themes_dir : string) (w : World) :
  PyStr.truthy themes_dir = true ->
  let b0 := __init__ E (Some (OsPath.join themes_dir theme_name)) in
  let style_name := theme_name +:+ "_style" in
  let p := style_path_of b0 style_name in
  let fallback := "Warning: Could not load style for theme '" +:+ theme_name
                  +:+ "', using default styling" in
  style_dir_path b0 = OsPath.join themes_dir theme_name
  /\ current_style b0 = None
  /\ if path_exists E p then
       match style_use E p with
       | None =>
           exists b,
             from_theme E theme_name (Some themes_dir) w
             = (Ok b, set_styles (fun l => l ++ [p]) w)
             /\ current_style b = Some style_name
             /\ style_dir_path b = style_dir_path b0
             /\ icon_logo_path b = icon_logo_path b0
             /\ text_logo_path b = text_logo_path b0
       | Some e =>
           if is_Exception (exn_cls e) then
             from_theme E theme_name (Some themes_dir) w
             = (Ok b0,
                set_stdout
                  (fun out => out ++ ["Error loading style " +:+ style_name
                                      +:+ ": " +:+ exn_msg e; fallback]) w)
           else from_theme E theme_name (Some themes_dir) w = (Raise e, w)
       end
     else
       from_theme E theme_name (Some themes_dir) w
       = (Ok b0,
          set_stdout
            (fun out => out ++ ["Warning: Style file not found at " +:+ p;
                                fallback]) w).
Proof.
  intros Hdir b0 style_name p fallback.
  assert (Htp : theme_path_of E theme_name (Some themes_dir)
                = OsPath.join themes_dir theme_name).
  { unfold theme_path_of. simpl. by rewrite Hdir. }
  split.
  { pose proof (from_theme_outcome E theme_name (Some themes_dir) w) as Ho.
    pose proof (theme_path_truthy E theme_name (Some themes_dir)) as Ht.
    rewrite Htp in Ht. unfold b0, __init__, or_else. simpl. by rewrite Ht. }
  split; [done|].
  pose proof (load_style_outcome E b0 w style_name) as Ho.
  pose proof (load_style_self E b0 w style_name) as Hs.
  pose proof (load_style_world E b0 w style_name) as Hw.
  cbv zeta in Hs, Hw. fold p in Ho, Hw.
  assert (Hft : from_theme E theme_name (Some themes_dir) w
                = match load_style_from_file E style_name (mkSt b0 w) with
                  | (Ok true, st) => (Ok (self st), world st)
                  | (Ok false, st) =>
                      (Ok (self st),
                       set_stdout (fun out => out ++ [fallback]) (world st))
                  | (Raise e, st) => (Raise e, world st)
                  end).
  { unfold from_theme, bind, call_on. rewrite Htp. fold b0 style_name.
    by destruct (load_style_from_file E style_name (mkSt b0 w))
      as [[[|]|e] st]. }
  rewrite Hft. clear Hft.
  destruct (load_style_from_file E style_name (mkSt b0 w)) as [r [b' w']].
  simpl in Ho, Hs, Hw. subst r w'.
  destruct (path_exists E p).
  - destruct (style_use E p) as [e|].
    + destruct (is_Exception (exn_cls e)); simpl; [|done].
      subst b'. unfold set_stdout. simpl. by rewrite <- app_assoc.
    + simpl. destruct Hs as (Hc & Hd & Hi & Hl). by eexists.
  - simpl. subst b'. unfold set_stdout. simpl. by rewrite <- app_assoc.
Qed.

(** The theme [broken] of the sample, taken from the directory of the
    user themes: the parser rejects its style file, the buddy is given
    all the same, and two lines are printed. *)
Lemma from_theme_style_or_warning_witness :
  PyStr.truthy "/repo/user_resources/themes" = true
  /\ exists b,
       from_theme Sample.env "broken" (Some "/repo/user_resources/themes")
         Sample.fresh
       = (Ok b,
          set_stdout
            (fun out =>
               out ++ ["Error loading style broken_style: not a valid style file";
                       "Warning: Could not load style for theme 'broken', using default styling"])
            Sample.fresh)
       /\ style_dir_path b = "/repo/user_resources/themes/broken"
       /\ current_style b = None.
Proof.
  split; [reflexivity|].
  destruct (from_theme_style_or_warning Sample.env "broken"
              "/repo/user_resources/themes" Sample.fresh eq_refl)
    as (Hd & Hc & Hrun).
  exists (__init__ Sample.env (Some (OsPath.join "/repo/user_resources/themes"
                                       "broken"))).
  split; [exact Hrun|]. split; [rewrite Hd; reflexivity|exact Hc].
Defined.
